(* ===================================================================== *)
(* Smart-Workflow-Engine: step execution, recovery, record and replay    *)
(*                                                                       *)
(* A shallow embedding of                                                *)
(*   - api.py               execute_automation (the plan loop)           *)
(*   - assistant_bot.py     ActionExecutor.execute_step, _execute_action,*)
(*                          take_screenshot, scrape_website_data, and    *)
(*                          create_fallback_plan                         *)
(*   - error_recovery.py    SmartErrorRecovery                           *)
(*   - workflow_recorder.py WorkflowRecorder                             *)
(*                                                                       *)
(* Python code is effectful: it sleeps, drives the pointer and keyboard, *)
(* reads the screen and the file system, and any call may raise.  The    *)
(* embedding threads an explicit State through a small state-and-        *)
(* exception monad.  Everything the program does to the outside is       *)
(* appended to a chronological trace; everything the outside decides     *)
(* (does this call raise? what does the screen look like? what time is   *)
(* it?) is read from an environment indexed by the trace so far.         *)
(*                                                                       *)
(* Conventions                                                           *)
(*   - Python floats (seconds, confidences, ratios) are rationals.       *)
(*   - Python str is String.string; each character is a code point       *)
(*     below 256.                                                        *)
(*   - logger(...) and print(...) calls are left out, except where       *)
(*     building the message can itself raise.                            *)
(*   - `except Exception` catches every Raise of the model.              *)
(*   - Arguments a callee never reads (screen_analysis, context of the   *)
(*     focus strategy) are dropped.                                      *)
(*   - Methods that only wrap a third-party capability (selenium, the    *)
(*     screen analyzer, the scraper, the chat interface, subprocess,     *)
(*     open_application, click_desktop_coordinates, take_screenshot) are *)
(*     calls to the outside: an event, and an answer of the environment. *)
(*     Inside the dispatcher take_screenshot is such a call; the method  *)
(*     is also embedded on its own.                                      *)
(*   - A workflow file holds the three event types the recorder writes,  *)
(*     with all the fields _save_workflow writes, or is unreadable.      *)
(*   - The directory workflows/ is the set of paths workflows/<name>     *)
(*     with no further separator in <name>.                              *)
(*   - Listener stop() and join(timeout=2) are called from another       *)
(*     thread and do not raise; the keyboard callback, which stops the   *)
(*     recording from inside its own listener thread, is not embedded.   *)
(*   - The trace also carries call markers (Enter...): they record that  *)
(*     a method of the program was entered, and with which arguments.    *)
(* ===================================================================== *)

From Stdlib Require Import ZArith QArith String Ascii List Bool Lia Sorted.
From stdpp Require Import base gmap strings list.
Import ListNotations.

Local Open Scope string_scope.
Local Open Scope Z_scope.

(* --------------------------------------------------------------------- *)
(* Python values found in a step, as decoded from JSON                   *)
(* --------------------------------------------------------------------- *)

Inductive value : Type :=
  | VNone
  | VBool (b : bool)
  | VInt (z : Z)
  | VNum (q : Q)
  | VStr (s : string).

(** A step is a JSON object: a dict from field names to values. *)
Abbreviation step := (gmap string value).

(** [d.get(k)]: None when the key is missing. *)
Definition get (d : gmap string value) (k : string) : value :=
  default VNone (d !! k).

(** [d.get(k, dflt)]. *)
Definition get_or (d : gmap string value) (k : string) (dflt : value) : value :=
  default dflt (d !! k).

(** [step.get('action')] compared with a literal. *)
Definition action_is (s : step) (name : string) : bool :=
  match get s "action" with
  | VStr a => String.eqb a name
  | _ => false
  end.

(** [action in [n1, n2, ...]]. *)
Definition action_in (s : step) (names : list string) : bool :=
  existsb (action_is s) names.

(* --------------------------------------------------------------------- *)
(* Strings: lower(), substring test, isalnum()                           *)
(* --------------------------------------------------------------------- *)

Definition code (c : ascii) : N := N_of_ascii c.

Definition lower_char (c : ascii) : ascii :=
  let n := code c in
  if ((65 <=? n) && (n <=? 90))%N then ascii_of_N (n + 32)
  else if ((192 <=? n) && (n <=? 222) && negb (n =? 215))%N then ascii_of_N (n + 32)
  else c.

Fixpoint lower (s : string) : string :=
  match s with
  | EmptyString => EmptyString
  | String c s' => String (lower_char c) (lower s')
  end.

(** [needle in hay] on str. *)
Fixpoint contains (needle hay : string) : bool :=
  String.prefix needle hay ||
  match hay with
  | EmptyString => false
  | String _ hay' => contains needle hay'
  end.

(** [c.isalnum()] for one character below 256. *)
Definition isalnum (c : ascii) : bool :=
  let n := code c in
  (((48 <=? n) && (n <=? 57)) || ((65 <=? n) && (n <=? 90)) ||
   ((97 <=? n) && (n <=? 122)) ||
   (n =? 170) || (n =? 178) || (n =? 179) || (n =? 181) || (n =? 185) ||
   (n =? 186) || ((188 <=? n) && (n <=? 190)) ||
   ((192 <=? n) && (n <=? 214)) || ((216 <=? n) && (n <=? 246)) ||
   ((248 <=? n) && (n <=? 255)))%N.

Fixpoint filter_chars (p : ascii -> bool) (s : string) : string :=
  match s with
  | EmptyString => EmptyString
  | String c s' => if p c then String c (filter_chars p s') else filter_chars p s'
  end.

Fixpoint map_chars (f : ascii -> ascii) (s : string) : string :=
  match s with
  | EmptyString => EmptyString
  | String c s' => String (f c) (map_chars f s')
  end.

(** Python whitespace among the characters that survive the filter of
    [_save_workflow] is the space only. *)
Fixpoint rstrip_spaces (s : string) : string :=
  match s with
  | EmptyString => EmptyString
  | String c s' =>
      match rstrip_spaces s' with
      | EmptyString => if Ascii.eqb c " " then EmptyString else String c EmptyString
      | r => String c r
      end
  end.

(* --------------------------------------------------------------------- *)
(* Recorded events and persisted workflows                               *)
(* --------------------------------------------------------------------- *)

Inductive RecordedEvent : Type :=
  | mouse_click (x y : Z) (button : string) (timestamp : Q)
  | mouse_scroll (x y dx dy : Z) (timestamp : Q)
  | key_press (key : string) (timestamp : Q).

Definition timestamp_of (a : RecordedEvent) : Q :=
  match a with
  | mouse_click _ _ _ t => t
  | mouse_scroll _ _ _ _ t => t
  | key_press _ t => t
  end.

Record workflow_data : Type := mkWorkflow {
  wf_name : string;
  wf_created_at : string;
  wf_duration : Q;
  wf_actions_count : nat;
  wf_actions : list RecordedEvent
}.

(** What a path under workflows/ holds: a workflow as the recorder writes
    it, or bytes that json.load rejects. *)
Inductive file : Type :=
  | FWorkflow (w : workflow_data)
  | FInvalid.

(* --------------------------------------------------------------------- *)
(* The trace: every call the program makes to the outside                *)
(* --------------------------------------------------------------------- *)

Definition image : Type := list Z.

(** One suggestion of the recovery model, a JSON object
    {approach, action, parameters, confidence}; a missing key is None. *)
Record suggestion : Type := mkSuggestion {
  sg_approach : option string;
  sg_action : option string;
  sg_parameters : gmap string value;
  sg_confidence : option value
}.

Inductive event : Type :=
  (* time *)
  | ESleep (secs : Q)
  | ETime
  | EDatetimeNow
  (* pyautogui *)
  | EClick (x y : value)
  | ETypewrite (text : value)
  | EWrite (text : string)
  | EPress (key : value)
  | EKeyDown (key : string)
  | EKeyUp (key : string)
  | EScroll (dy x y : Z)
  | EScreenshot
  | ESaveImage (filename : string)
  (* collaborators of the executor *)
  | ESaveStep (s : step)
  | EBrowserStart
  | ENavigate (url : value)
  | ESearchGoogle (query : value)
  | EClickFirstResult
  | EOpenApplication (app : value)
  | EClickDesktopCoordinates (x y : value)
  | ETakeScreenshot (filename : value)
  | EGentleFocusApplication (app : value)
  | EAnalyzeScreen
  | EExtractText
  | EFindButtons
  | EScraperStart
  | EScraperExtract (url description : value)
  | EScraperClose
  | EChat (message : value)
  | EGenerateContent
  (* file system and listeners of the recorder *)
  | EMakedirs
  | EOpenWrite (path : string)
  | EListenerNew (mouse : bool) (id : nat)
  | EListenerStart (id : nat)
  | EListenerStop (id : nat)
  (* call markers: a method of the program is entered *)
  | EnterExecuteStep (s : step)
  | EnterExecuteAction (attempt : nat) (s : step)
  | EnterHandleFailedStep (s : step) (error_message : string) (attempt : nat)
  | EnterExecuteRecoveryAction (sg : suggestion).

(* --------------------------------------------------------------------- *)
(* Program state                                                         *)
(* --------------------------------------------------------------------- *)

(** The attributes of a WorkflowRecorder instance.  Listener objects are
    handles; [None] is Python's None. *)
Record Recorder : Type := mkRecorder {
  recording : bool;
  workflow_name : value;
  start_time : option Q;
  recorded_actions : list RecordedEvent;
  mouse_listener : option nat;
  keyboard_listener : option nat;
  stop_event : bool
}.

(** One line of the execution log built by execute_automation:
    "Step i: action - Success", "... - Failed" or "... - Error: msg". *)
Inductive log_entry : Type :=
  | LogResult (i : nat) (action : value) (success : bool)
  | LogError (i : nat) (action : value) (msg : string).

Record State : Type := mkState {
  trace : list event;              (* chronological, oldest first *)
  files : gmap string file;        (* the file system under workflows/ *)
  running : gset nat;              (* listeners whose .running is True *)
  next_listener : nat;             (* next fresh listener handle *)
  recorder : Recorder;             (* ActionExecutor.workflow_recorder *)
  selenium_active : bool;          (* ActionExecutor.selenium_active *)
  execution_logs : list log_entry; (* api.execution_logs *)
  api_key : option string          (* SmartErrorRecovery.api_key *)
}.

Definition set_trace (t : list event) (s : State) : State :=
  mkState t (files s) (running s) (next_listener s) (recorder s)
          (selenium_active s) (execution_logs s) (api_key s).
Definition set_files (f : gmap string file) (s : State) : State :=
  mkState (trace s) f (running s) (next_listener s) (recorder s)
          (selenium_active s) (execution_logs s) (api_key s).
Definition set_running (r : gset nat) (s : State) : State :=
  mkState (trace s) (files s) r (next_listener s) (recorder s)
          (selenium_active s) (execution_logs s) (api_key s).
Definition set_next_listener (n : nat) (s : State) : State :=
  mkState (trace s) (files s) (running s) n (recorder s)
          (selenium_active s) (execution_logs s) (api_key s).
Definition set_recorder (r : Recorder) (s : State) : State :=
  mkState (trace s) (files s) (running s) (next_listener s) r
          (selenium_active s) (execution_logs s) (api_key s).
Definition set_selenium_active (b : bool) (s : State) : State :=
  mkState (trace s) (files s) (running s) (next_listener s) (recorder s)
          b (execution_logs s) (api_key s).
Definition set_execution_logs (l : list log_entry) (s : State) : State :=
  mkState (trace s) (files s) (running s) (next_listener s) (recorder s)
          (selenium_active s) l (api_key s).

(* --------------------------------------------------------------------- *)
(* The monad: state plus exceptions                                      *)
(* --------------------------------------------------------------------- *)

Inductive result (A : Type) : Type :=
  | Ok (a : A)
  | Raise (msg : string).
Arguments Ok {A} a.
Arguments Raise {A} msg.

(** A computation runs from a state to an outcome and a state.  State
    changes made before an exception survive it, as in Python. *)
Definition M (A : Type) : Type := State -> result A * State.

Definition ret {A} (a : A) : M A := fun s => (Ok a, s).

Definition raise {A} (msg : string) : M A := fun s => (Raise msg, s).

Definition bind {A B} (m : M A) (k : A -> M B) : M B :=
  fun s =>
    match m s with
    | (Ok a, s') => k a s'
    | (Raise msg, s') => (Raise msg, s')
    end.

(** [try: m  except Exception as e: h (str e)]. *)
Definition try_except {A} (m : M A) (h : string -> M A) : M A :=
  fun s =>
    match m s with
    | (Ok a, s') => (Ok a, s')
    | (Raise msg, s') => h msg s'
    end.

(** [try: m  finally: f]. *)
Definition try_finally {A} (m : M A) (f : M unit) : M A :=
  fun s =>
    match m s with
    | (Ok a, s') =>
        match f s' with
        | (Ok _, s'') => (Ok a, s'')
        | (Raise msg, s'') => (Raise msg, s'')
        end
    | (Raise msg, s') =>
        match f s' with
        | (Ok _, s'') => (Raise msg, s'')
        | (Raise msg', s'') => (Raise msg', s'')
        end
    end.

Definition gets {A} (f : State -> A) : M A := fun s => (Ok (f s), s).

Definition modify (f : State -> State) : M unit := fun s => (Ok tt, f s).

Declare Scope py_scope.
Delimit Scope py_scope with py.
Notation "x <- m ;; k" := (bind m (fun x => k))
  (at level 100, m at next level, right associativity) : py_scope.
Notation "m ;; k" := (bind m (fun _ => k))
  (at level 100, right associativity) : py_scope.
Local Open Scope py_scope.

(** Append an event that cannot fail. *)
Definition record (e : event) : M unit :=
  modify (fun s => set_trace (trace s ++ [e]) s).

(* --------------------------------------------------------------------- *)
(* The environment                                                       *)
(* --------------------------------------------------------------------- *)

(** [suggestion.get('action') == name]. *)
Definition suggested (sg : suggestion) (name : string) : bool :=
  match sg_action sg with
  | Some a => String.eqb a name
  | None => false
  end.

(** What the model call of AI recovery produces. *)
Inductive model_reply : Type :=
  | ReplyRaises (msg : string)               (* import or network error *)
  | ReplyNotJson                             (* json.JSONDecodeError *)
  | ReplySuggestions (l : list suggestion).  (* a JSON array of objects *)

(** The outside world.  Every oracle sees the trace up to the call. *)
Record Env : Type := mkEnv {
  raises : list event -> event -> option string;
    (* Some msg: this external call raises Exception(msg) *)
  succeeds : list event -> event -> bool;
    (* the boolean a collaborator call returns when it does not raise *)
  screen : list event -> image;
    (* flattened uint8 channels of a screenshot taken now *)
  clock : list event -> Q;
    (* time.time() *)
  datestamp : list event -> string;
    (* datetime.now().strftime('%Y%m%d_%H%M%S') *)
  isoformat : list event -> string;
    (* datetime.now().isoformat() *)
  generate_content : list event -> model_reply
}.

(* --------------------------------------------------------------------- *)
(* Arithmetic and comparisons of Python values                           *)
(* --------------------------------------------------------------------- *)

Definition Qlt_bool (a b : Q) : bool := negb (Qle_bool b a).

Definition lift {A} (r : result A) : M A := fun s => (r, s).

(** A number as a rational; bool is an int in Python. *)
Definition as_number (v : value) : option Q :=
  match v with
  | VInt z => Some (inject_Z z)
  | VNum q => Some q
  | VBool b => Some (if b then 1%Q else 0%Q)
  | _ => None
  end.

(** [v + dz] for an int literal [dz]. *)
Definition py_add (v : value) (dz : Z) : result value :=
  match v with
  | VInt z => Ok (VInt (z + dz))
  | VBool b => Ok (VInt ((if b then 1 else 0) + dz))
  | VNum q => Ok (VNum (q + inject_Z dz))
  | _ => Raise "TypeError: unsupported operand type(s) for +"
  end.

(** [v > bound] for a float literal. *)
Definition py_gt (v : value) (bound : Q) : result bool :=
  match as_number v with
  | Some q => Ok (Qlt_bool bound q)
  | None => Raise "TypeError: '>' not supported"
  end.

(** [num / v]. *)
Definition py_div (num : Q) (v : value) : result Q :=
  match as_number v with
  | Some q => if Qeq_bool q 0 then Raise "ZeroDivisionError" else Ok (num / q)%Q
  | None => Raise "TypeError: unsupported operand type(s) for /"
  end.

(** [not key] for an optional string: None and '' are falsy. *)
Definition falsy (k : option string) : bool :=
  match k with
  | None => true
  | Some EmptyString => true
  | Some _ => false
  end.

(* --------------------------------------------------------------------- *)
(* WorkflowRecorder field updates                                        *)
(* --------------------------------------------------------------------- *)

Definition with_recording (b : bool) (r : Recorder) : Recorder :=
  mkRecorder b (workflow_name r) (start_time r) (recorded_actions r)
             (mouse_listener r) (keyboard_listener r) (stop_event r).
Definition with_stop_event (b : bool) (r : Recorder) : Recorder :=
  mkRecorder (recording r) (workflow_name r) (start_time r) (recorded_actions r)
             (mouse_listener r) (keyboard_listener r) b.
Definition with_mouse_listener (l : option nat) (r : Recorder) : Recorder :=
  mkRecorder (recording r) (workflow_name r) (start_time r) (recorded_actions r)
             l (keyboard_listener r) (stop_event r).
Definition with_keyboard_listener (l : option nat) (r : Recorder) : Recorder :=
  mkRecorder (recording r) (workflow_name r) (start_time r) (recorded_actions r)
             (mouse_listener r) l (stop_event r).
Definition with_recorded_actions (l : list RecordedEvent) (r : Recorder) : Recorder :=
  mkRecorder (recording r) (workflow_name r) (start_time r) l
             (mouse_listener r) (keyboard_listener r) (stop_event r).

Definition update_recorder (f : Recorder -> Recorder) : M unit :=
  modify (fun s => set_recorder (f (recorder s)) s).

(** The replayer's table of special keys (replay_workflow, key_mapping). *)
Definition key_mapping : gmap string string :=
  list_to_map
    [ ("ctrl_l", "ctrl"); ("ctrl_r", "ctrl");
      ("alt_l", "alt"); ("alt_r", "alt");
      ("shift_l", "shift"); ("shift_r", "shift");
      ("cmd", "cmd"); ("esc", "escape");
      ("enter", "enter"); ("tab", "tab");
      ("space", "space"); ("backspace", "backspace");
      ("delete", "delete") ].

(** [key_mapping.get(key.lower(), key)]. *)
Definition mapped_key (key : string) : string :=
  default key (key_mapping !! lower key).

(** The file name built by _save_workflow from the name and a timestamp. *)
Definition safe_name (name : string) : string :=
  map_chars (fun c => if Ascii.eqb c " " then "_"%char else c)
    (rstrip_spaces
       (filter_chars
          (fun c => isalnum c || Ascii.eqb c " " || Ascii.eqb c "-" || Ascii.eqb c "_")
          name)).

(** replay_workflow: "Handle relative path". *)
Definition workflow_path (f : string) : string :=
  if String.prefix "workflows/" f then f else "workflows/" +:+ f.

Definition workflow_filename (name stamp : string) : string :=
  "workflows/" +:+ safe_name name +:+ "_" +:+ stamp +:+ ".json".

(* --------------------------------------------------------------------- *)
(* Screen change detection (SmartErrorRecovery._detect_screen_change)    *)
(* --------------------------------------------------------------------- *)

(** Subtraction of two uint8 array elements wraps around; np.abs of a
    uint8 is the identity. *)
Definition uint8_sub (a b : Z) : Z := (a - b) mod 256.

Fixpoint pixel_diff (before after : image) : Z :=
  match before, after with
  | b :: before', a :: after' => uint8_sub b a + pixel_diff before' after'
  | _, _ => 0
  end.

(** [diff / (before_array.size * 255) * 100]. *)
Definition change_percentage (before after : image) : Q :=
  (inject_Z (pixel_diff before after)
   / inject_Z (Z.of_nat (length before) * 255) * 100)%Q.

(** Arrays of different shapes make the subtraction raise, and the
    function catches that and answers False. *)
Definition _detect_screen_change (before after : image) (threshold : Q) : bool :=
  if Nat.eqb (length before) (length after)
  then Qlt_bool threshold (change_percentage before after)
  else false.

Section Program.

Context (env : Env).

(* --------------------------------------------------------------------- *)
(* Calls to the outside                                                  *)
(* --------------------------------------------------------------------- *)

(** An external call that may raise. The call is traced either way. *)
Definition call (e : event) : M unit :=
  fun s =>
    let s' := set_trace (trace s ++ [e]) s in
    match raises env (trace s) e with
    | Some msg => (Raise msg, s')
    | None => (Ok tt, s')
    end.

(** An external call that answers a boolean, or raises. *)
Definition ask (e : event) : M bool :=
  fun s =>
    let s' := set_trace (trace s ++ [e]) s in
    match raises env (trace s) e with
    | Some msg => (Raise msg, s')
    | None => (Ok (succeeds env (trace s) e), s')
    end.

(** [pyautogui.screenshot()]. *)
Definition screenshot : M image :=
  fun s =>
    let s' := set_trace (trace s ++ [EScreenshot]) s in
    match raises env (trace s) EScreenshot with
    | Some msg => (Raise msg, s')
    | None => (Ok (screen env (trace s)), s')
    end.

(** [time.time()]. *)
Definition time_time : M Q :=
  fun s => (Ok (clock env (trace s)), set_trace (trace s ++ [ETime]) s).

(** [datetime.now().strftime('%Y%m%d_%H%M%S')]. *)
Definition now_strftime : M string :=
  fun s => (Ok (datestamp env (trace s)), set_trace (trace s ++ [EDatetimeNow]) s).

(** [datetime.now().isoformat()]. *)
Definition now_isoformat : M string :=
  fun s => (Ok (isoformat env (trace s)), set_trace (trace s ++ [EDatetimeNow]) s).

(** [time.sleep(q)] for a literal. *)
Definition sleep (secs : Q) : M unit := record (ESleep secs).

(** [time.sleep(v)] for a value read from a step. *)
Definition py_sleep (v : value) : M unit :=
  match as_number v with
  | Some q => if Qlt_bool q 0
              then raise "ValueError: sleep length must be non-negative"
              else sleep q
  | None => raise "TypeError: a number is required"
  end.

(* --------------------------------------------------------------------- *)
(* workflow_recorder.py                                                  *)
(* --------------------------------------------------------------------- *)

(** [mouse.Listener(...)] / [keyboard.Listener(...)]: a fresh object. *)
Definition new_listener (mouse : bool) : M nat :=
  id <- gets next_listener;;
  modify (set_next_listener (S id));;
  call (EListenerNew mouse id);;
  ret id.

(** [listener.start()]. *)
Definition start_listener (id : nat) : M unit :=
  call (EListenerStart id);;
  modify (fun s => set_running (running s ∪ {[ id ]}) s).

(** [listener.stop()], followed where the source has it by the bounded
    [join(timeout=2)] from another thread. *)
Definition stop_listener (id : nat) : M unit :=
  record (EListenerStop id);;
  modify (fun s => set_running (running s ∖ {[ id ]}) s).

(** [if l and l.running: l.stop(); l.join(timeout=2)]. *)
Definition stop_if_running (l : option nat) : M unit :=
  match l with
  | Some id =>
      alive <- gets (fun s => bool_decide (id ∈ running s));;
      if alive then stop_listener id else ret tt
  | None => ret tt
  end.

Definition _reset_state : M unit :=
  update_recorder (fun r =>
    mkRecorder false VNone None [] (mouse_listener r) (keyboard_listener r) true).

Definition _save_workflow : M (option string) :=
  try_except
    (call EMakedirs;;
     timestamp <- now_strftime;;
     r <- gets recorder;;
     match workflow_name r with
     | VStr name =>
         let filename := workflow_filename name timestamp in
         created_at <- now_isoformat;;
         duration <-
           match start_time r with
           | Some t0 => if Qeq_bool t0 0 then ret 0%Q
                        else (now <- time_time;; ret (now - t0)%Q)
           | None => ret 0%Q
           end;;
         let workflow :=
           mkWorkflow name created_at duration
                      (length (recorded_actions r)) (recorded_actions r) in
         call (EOpenWrite filename);;
         modify (fun s => set_files (<[ filename := FWorkflow workflow ]> (files s)) s);;
         _reset_state;;
         ret (Some filename)
     | _ => raise "TypeError: workflow_name is not iterable"
     end)
    (fun _ => ret None).

(** stop_recording, called from the API or the executor thread. *)
Definition stop_recording : M (option string) :=
  r <- gets recorder;;
  if negb (recording r) then ret None
  else
    update_recorder (fun r => with_stop_event true (with_recording false r));;
    try_except
      (r <- gets recorder;;
       stop_if_running (mouse_listener r);;
       stop_if_running (keyboard_listener r);;
       update_recorder (fun r => with_keyboard_listener None (with_mouse_listener None r));;
       filename <- _save_workflow;;
       match filename with
       | Some f => ret (Some f)
       | None => ret None
       end)
      (fun _ =>
         update_recorder (fun r =>
           with_keyboard_listener None (with_mouse_listener None (with_recording false r)));;
         ret None).

(** The try block of start_recording: create both listeners, start
    them; on any exception the recording flag is dropped. *)
Definition arm_listeners : M bool :=
  try_except
    (m <- new_listener true;;
     update_recorder (with_mouse_listener (Some m));;
     k <- new_listener false;;
     update_recorder (with_keyboard_listener (Some k));;
     start_listener m;;
     start_listener k;;
     ret true)
    (fun _ =>
       update_recorder (with_recording false);;
       ret false).

Definition start_recording (name : value) : M bool :=
  r <- gets recorder;;
  (if recording r then (stop_recording;; sleep 1) else ret tt);;
  now <- time_time;;
  update_recorder (fun r =>
    mkRecorder true name (Some now) [] (mouse_listener r) (keyboard_listener r) false);;
  arm_listeners.

Definition force_stop : M unit :=
  update_recorder (fun r => with_stop_event true (with_recording false r));;
  r <- gets recorder;;
  match mouse_listener r with
  | Some id => stop_listener id;; update_recorder (with_mouse_listener None)
  | None => ret tt
  end;;
  match keyboard_listener r with
  | Some id => stop_listener id;; update_recorder (with_keyboard_listener None)
  | None => ret tt
  end;;
  _reset_state.

(** The listener callbacks, run between two calls of the API. *)
Definition _on_mouse_click (x y : Z) (button : string) (pressed : bool) : M unit :=
  r <- gets recorder;;
  if negb (recording r) || stop_event r then ret tt
  else if pressed then
    now <- time_time;;
    match start_time r with
    | Some t0 =>
        update_recorder (fun r =>
          with_recorded_actions
            (recorded_actions r ++ [mouse_click x y button (now - t0)%Q]) r)
    | None => raise "TypeError: unsupported operand type(s) for -"
    end
  else ret tt.

Definition _on_mouse_scroll (x y dx dy : Z) : M unit :=
  r <- gets recorder;;
  if negb (recording r) || stop_event r then ret tt
  else
    now <- time_time;;
    match start_time r with
    | Some t0 =>
        update_recorder (fun r =>
          with_recorded_actions
            (recorded_actions r ++ [mouse_scroll x y dx dy (now - t0)%Q]) r)
    | None => raise "TypeError: unsupported operand type(s) for -"
    end.

(** One event of replay_workflow: the body of the loop's try block.  It
    answers the timestamp that becomes last_timestamp. *)
Definition replay_action (speed_multiplier : value) (last_timestamp : Q)
    (action : RecordedEvent) : M Q :=
  let current_timestamp := timestamp_of action in
  delay <- lift (py_div (current_timestamp - last_timestamp) speed_multiplier);;
  (if Qlt_bool 0 delay
   then sleep (if Qle_bool delay 2 then delay else 2)
   else ret tt);;
  match action with
  | mouse_click x y _ _ => call (EClick (VInt x) (VInt y))
  | key_press key _ =>
      if Nat.eqb (String.length key) 1
      then call (EWrite key)
      else call (EPress (VStr (mapped_key key)))
  | mouse_scroll x y _ dy _ => call (EScroll dy x y)
  end;;
  ret current_timestamp.

(** The for loop of replay_workflow; a failing event is skipped and does
    not update last_timestamp. *)
Fixpoint replay_actions (speed_multiplier : value) (last_timestamp : Q)
    (actions : list RecordedEvent) : M unit :=
  match actions with
  | [] => ret tt
  | action :: rest =>
      last <- try_except (replay_action speed_multiplier last_timestamp action)
                         (fun _ => ret last_timestamp);;
      replay_actions speed_multiplier last rest
  end.

Definition replay_workflow (workflow_file speed_multiplier : value) : M bool :=
  try_except
    (path <-
       match workflow_file with
       | VStr f => ret (workflow_path f)
       | _ => raise "AttributeError: no attribute 'startswith'"
       end;;
     fs <- gets files;;
     match fs !! path with
     | None => ret false
     | Some FInvalid => raise "JSONDecodeError"
     | Some (FWorkflow workflow) =>
         match wf_actions workflow with
         | [] => ret true
         | actions =>
             sleep 2;;
             replay_actions speed_multiplier 0 actions;;
             ret true
         end
     end)
    (fun _ => ret false).

(* --------------------------------------------------------------------- *)
(* error_recovery.py                                                     *)
(* --------------------------------------------------------------------- *)

(** The offsets tried by _recover_click_coordinates, in source order. *)
Definition offsets : list (Z * Z) :=
  [ (0, 0); (10, 0); (-10, 0); (0, 10); (0, -10); (20, 20); (-20, -20) ].

(** The default threshold of _detect_screen_change, in percent. *)
Definition threshold : Q := (1 # 10)%Q.

(** The try block for one offset: whether the click changed the screen. *)
Definition try_offset (original_x original_y : value) (d : Z * Z) : M bool :=
  new_x <- lift (py_add original_x (fst d));;
  new_y <- lift (py_add original_y (snd d));;
  before <- screenshot;;
  call (EClick new_x new_y);;
  sleep (1 # 2);;
  after <- screenshot;;
  ret (_detect_screen_change before after threshold).

(** The for loop: an offset that raises is skipped. *)
Fixpoint try_offsets (original_x original_y : value) (ds : list (Z * Z)) : M bool :=
  match ds with
  | [] => ret false
  | d :: rest =>
      changed <- try_except (try_offset original_x original_y d) (fun _ => ret false);;
      if changed then ret true else try_offsets original_x original_y rest
  end.

Definition _recover_click_coordinates (failed_step : step) : M bool :=
  let original_x := get_or failed_step "x" (VInt 0) in
  let original_y := get_or failed_step "y" (VInt 0) in
  try_offsets original_x original_y offsets.

Definition _recover_window_focus (failed_step : step) : M bool :=
  try_except
    (call (EKeyDown "alt");;
     call (EPress (VStr "tab"));;
     call (EKeyUp "alt");;
     sleep 1;;
     call (EClick (VInt 960) (VInt 1060));;
     sleep 1;;
     call (EPress (VStr "win"));;
     sleep (1 # 2);;
     call (EPress (VStr "escape"));;
     sleep (1 # 2);;
     ret true)
    (fun _ => ret false).

(** "Retry the action (simplified)": the if/elif chain without an else. *)
Definition retry_primitive (failed_step : step) : M unit :=
  if action_is failed_step "click_desktop_coordinates"
  then call (EClick (get failed_step "x") (get failed_step "y"))
  else if action_is failed_step "type_text"
  then call (ETypewrite (get failed_step "text"))
  else if action_is failed_step "press_key"
  then call (EPress (get failed_step "key"))
  else ret tt.

Fixpoint wait_and_retry (failed_step : step) (wait_times : list Q) : M bool :=
  match wait_times with
  | [] => ret false
  | wait_time :: rest =>
      finished <- try_except
                    (sleep wait_time;;
                     retry_primitive failed_step;;
                     ret true)
                    (fun _ => ret false);;
      if finished then ret true else wait_and_retry failed_step rest
  end.

Definition _recover_wait_and_retry (failed_step : step) : M bool :=
  wait_and_retry failed_step [2%Q; 5%Q; 10%Q].

(** [target.replace(a, b)] for single characters. *)
Definition replace_char (a b : ascii) (s : string) : string :=
  map_chars (fun c => if Ascii.eqb c a then b else c) s.

(** The loop body returns False at the first selector ("Placeholder"). *)
Fixpoint try_selectors (selectors : list string) : M bool :=
  match selectors with
  | [] => ret false
  | selector :: rest =>
      outcome <- try_except (sleep 1;; ret (Some false)) (fun _ => ret None);;
      match outcome with
      | Some b => ret b
      | None => try_selectors rest
      end
  end.

Definition _recover_alternative_selectors (failed_step : step) : M bool :=
  match get_or failed_step "target" (VStr "") with
  | VStr target =>
      try_selectors
        [ replace_char "#" "." target;
          replace_char "." "#" target;
          "[data-testid*='" +:+ target +:+ "']";
          "[aria-label*='" +:+ target +:+ "']";
          "[title*='" +:+ target +:+ "']" ]
  | _ => raise "AttributeError: no attribute 'replace'"
  end.

Definition _execute_recovery_action (sg : suggestion) : M bool :=
  record (EnterExecuteRecoveryAction sg);;
  try_except
    (let params := sg_parameters sg in
     (if suggested sg "click_desktop_coordinates"
      then call (EClick (get params "x") (get params "y"))
      else if suggested sg "type_text"
      then call (ETypewrite (get params "text"))
      else if suggested sg "press_key"
      then call (EPress (get params "key"))
      else if suggested sg "wait_seconds"
      then py_sleep (get_or params "seconds" (VInt 1))
      else ret tt);;
     sleep 1;;
     ret true)
    (fun _ => ret false).

(** The for loop over the parsed suggestions, in the order of the list. *)
Fixpoint try_suggestions (suggestions : list suggestion) : M bool :=
  match suggestions with
  | [] => ret false
  | sg :: rest =>
      confident <- lift (py_gt (default (VInt 0) (sg_confidence sg)) (6 # 10));;
      if confident then
        (* the log line reads suggestion['approach'] *)
        match sg_approach sg with
        | Some _ =>
            recovered <- _execute_recovery_action sg;;
            if recovered then ret true else try_suggestions rest
        | None => raise "KeyError: 'approach'"
        end
      else try_suggestions rest
  end.

Definition _ai_powered_recovery (failed_step : step) (error_message : string) : M bool :=
  try_except
    (key <- gets api_key;;
     if falsy key then ret false
     else
       history <- gets trace;;
       record EGenerateContent;;
       match generate_content env history with
       | ReplyRaises msg => raise msg
       | ReplyNotJson => ret false
       | ReplySuggestions suggestions => try_suggestions suggestions
       end)
    (fun _ => ret false).

Definition handle_failed_step (failed_step : step) (error_message : string)
    (attempt : nat) : M bool :=
  record (EnterHandleFailedStep failed_step error_message attempt);;
  _ <- screenshot;;
  call (ESaveImage "error_screenshot.png");;
  record EAnalyzeScreen;;
  let message := lower error_message in
  recovery_success <-
    (if action_is failed_step "click_desktop_coordinates"
     then _recover_click_coordinates failed_step
     else if contains "focus" message || contains "window" message
     then _recover_window_focus failed_step
     else if contains "timeout" message || contains "not found" message
     then _recover_wait_and_retry failed_step
     else if action_is failed_step "click_element"
     then _recover_alternative_selectors failed_step
     else ret false);;
  if negb recovery_success
  then _ai_powered_recovery failed_step error_message
  else ret recovery_success.

(* --------------------------------------------------------------------- *)
(* assistant_bot.py: ActionExecutor                                      *)
(* --------------------------------------------------------------------- *)

Definition type_text (text : value) : M unit :=
  call (ETypewrite text);; sleep 1.

Definition press_key (key : value) : M unit :=
  call (EPress key);; sleep 1.

Definition wait_seconds (seconds : value) : M unit :=
  py_sleep seconds.

(** The whole body is one try block that answers False on any exception.
    open_application, click_desktop_coordinates, take_screenshot and
    gentle_focus_application are calls to the outside. *)
Definition _execute_desktop_action (s : step) : M bool :=
  try_except
    (if action_is s "open_application"
     then call (EOpenApplication (get s "application"));; ret true
     else if action_is s "type_text"
     then type_text (get s "text");; ret true
     else if action_is s "press_key"
     then press_key (get s "key");; ret true
     else if action_is s "click_desktop_coordinates"
     then ask (EClickDesktopCoordinates (get s "x") (get s "y"))
     else if action_is s "take_screenshot"
     then call (ETakeScreenshot (get s "filename"));; ret true
     else if action_is s "wait_seconds"
     then wait_seconds (get_or s "seconds" (VInt 3));; ret true
     else if action_is s "gentle_focus_application"
     then ask (EGentleFocusApplication (get s "application"))
     else ret false)
    (fun _ => ret false).

Definition _execute_web_action (s : step) : M bool :=
  try_except
    (active <- gets selenium_active;;
     (if negb active
      then call EBrowserStart;; modify (set_selenium_active true)
      else ret tt);;
     if action_is s "navigate_url"
     then call (ENavigate (get s "url"));; ret true
     else if action_is s "search_google"
     then call (ESearchGoogle (get s "query"));; ret true
     else if action_is s "click_first_result"
     then call EClickFirstResult;; ret true
     else ret false)
    (fun _ => ret false).

(** Dispatch on the action kind.  The analysis, detection, scraping and
    chat collaborators answer their success flag or raise. *)
Definition _execute_action (s : step) : M bool :=
  if action_in s ["navigate_url"; "search_google"; "click_first_result"]
  then _execute_web_action s
  else if action_in s ["open_application"; "type_text"; "press_key";
                       "click_desktop_coordinates"; "take_screenshot";
                       "wait_seconds"]
  then _execute_desktop_action s
  else if action_is s "start_workflow_recording"
  then start_recording (get_or s "name" (VStr "untitled"))
  else if action_is s "stop_workflow_recording"
  then filename <- stop_recording;;
       ret (match filename with Some _ => true | None => false end)
  else if action_is s "replay_workflow"
  then replay_workflow (get s "file") (get_or s "speed" (VNum 1))
  else if action_is s "analyze_screen"
  then ask EAnalyzeScreen
  else if action_is s "extract_text_from_screen"
  then ask EExtractText
  else if action_is s "find_visual_element"
  then ask EFindButtons
  else if action_is s "scrape_website"
  then started <- ask EScraperStart;;
       if negb started then ret false
       else try_finally
              (ask (EScraperExtract (get s "url")
                      (get_or s "description" (VStr "Extract all relevant data"))))
              (call EScraperClose)
  else if action_is s "chat_with_ai"
  then ask (EChat (get_or s "message" (VStr "")))
  else ret false.

Definition max_retries (s : step) : nat :=
  if action_in s ["click_element"; "type_text"] then 2%nat else 1%nat.

(** One pass of [for attempt in range(max_retries)]: True when the body
    returned True from execute_step, False when the loop goes on. *)
Definition attempt_step (s : step) (attempt : nat) : M bool :=
  try_except
    ((if Nat.ltb 0 attempt then sleep 2 else ret tt);;
     record (EnterExecuteAction attempt s);;
     success <- _execute_action s;;
     if success then sleep (1 # 2);; ret true
     else ret false)
    (fun error_message =>
       if Nat.eqb attempt (max_retries s - 1)
       then handle_failed_step s error_message attempt
       else ret false).

Fixpoint attempts (s : step) (range : list nat) : M bool :=
  match range with
  | [] => ret false
  | attempt :: rest =>
      returned <- attempt_step s attempt;;
      if returned then ret true else attempts s rest
  end.

Definition execute_step (s : step) : M bool :=
  record (EnterExecuteStep s);;
  call (ESaveStep s);;
  attempts s (seq 0 (max_retries s)).

(* --------------------------------------------------------------------- *)
(* api.py: the plan loop of execute_automation                           *)
(* --------------------------------------------------------------------- *)

(** The JSON answer of a run that got as far as executing the plan. *)
Record response : Type := mkResponse {
  success : bool;
  steps_executed : nat;
  steps_total : nat;
  log : list log_entry
}.

(** [for i, step in enumerate(steps, 1)], with the log so far. *)
Fixpoint run_steps (i : nat) (steps : list step) (log : list log_entry)
    : M (list log_entry) :=
  match steps with
  | [] => ret log
  | s :: rest =>
      let action := get_or s "action" (VStr "unknown") in
      outcome <- try_except
                   (ok <- execute_step s;;
                    ret (LogResult i action ok))
                   (fun msg => ret (LogError i action msg));;
      let log' := (log ++ [outcome])%list in
      match outcome with
      | LogResult _ _ true => run_steps (S i) rest log'
      | _ => ret log'
      end
  end.

(** execute_automation from "Execute steps" on, for a generated plan. *)
Definition execute_automation (steps : list step) : M response :=
  log <- run_steps 1 steps [];;
  modify (fun s => set_execution_logs (execution_logs s ++ log) s);;
  ret (mkResponse true (length log) (length steps) log).

End Program.

(* --------------------------------------------------------------------- *)
(* Concrete worlds                                                       *)
(* --------------------------------------------------------------------- *)

(** A world where no call raises, collaborators succeed, the screen is
    blank, and the clock stands still. *)
Definition calm : Env :=
  mkEnv (fun _ _ => None) (fun _ _ => true) (fun _ => [])
        (fun _ => 100%Q) (fun _ => "20240101_120000")
        (fun _ => "2024-01-01T12:00:00") (fun _ => ReplyNotJson).

Definition idle_recorder : Recorder :=
  mkRecorder false VNone None [] None None false.

(** A fresh process: no trace, no files, no recording, no API key. *)
Definition init : State :=
  mkState [] ∅ ∅ 0 idle_recorder false [] None.

(** A workflow file with no events. *)
Definition empty_workflow : workflow_data :=
  mkWorkflow "demo" "2024-01-01T12:00:00" 0 0 [].

Definition with_empty_workflow : State :=
  set_files {[ "workflows/empty.json" := FWorkflow empty_workflow ]} init.

Definition analyze_step : step := {[ "action" := VStr "analyze_screen" ]}.

Definition click_step : step :=
  {[ "action" := VStr "click_desktop_coordinates"; "x" := VInt 100; "y" := VInt 200 ]}.

(** A screen of 1000 channels on which every click clears the one
    channel that was fully lit: the summed difference is 255 out of
    255000, a change of exactly 0.1%. *)
Definition lit_screen : image := 255 :: repeat 0 999%nat.


(* --------------------------------------------------------------------- *)
(* Vocabulary of the statements                                          *)
(* --------------------------------------------------------------------- *)

(** The state after appending events to the trace. *)
Definition after (st : State) (new : list event) : State :=
  set_trace (trace st ++ new) st.





(** How deep in the call structure an event is emitted: calls to the
    outside are level 0, the call markers are numbered from the innermost
    method outwards. *)
Definition level (e : event) : nat :=
  match e with
  | EnterExecuteRecoveryAction _ => 1
  | EnterHandleFailedStep _ _ _ => 2
  | EnterExecuteAction _ _ => 3
  | EnterExecuteStep _ => 4
  | _ => 0
  end.

(** Events of level at most [n]. *)
Definition upto (n : nat) (e : event) : Prop := (level e <= n)%nat.

(** A computation only appends to the trace, and appends only events
    that satisfy [P]. *)
Definition emits {A} (P : event -> Prop) (m : M A) : Prop :=
  forall st, exists new, trace (snd (m st)) = (trace st ++ new)%list /\ Forall P new.

(** A computation never raises. *)
Definition total {A} (m : M A) : Prop :=
  forall st, exists a st', m st = (Ok a, st').


(** [suggestion.get('confidence', 0) > 0.6], when the value is a number. *)
Definition confident (sg : suggestion) : bool :=
  match py_gt (default (VInt 0) (sg_confidence sg)) (6 # 10) with
  | Ok b => b
  | Raise _ => false
  end.







(** A process with an API key configured. *)
Definition with_key : State :=
  mkState [] ∅ ∅ 0 idle_recorder false [] (Some "key").

(** The attempt numbers of the calls of _execute_action, in order. *)
Fixpoint attempt_marks (t : list event) : list nat :=
  match t with
  | [] => []
  | EnterExecuteAction attempt _ :: t' => attempt :: attempt_marks t'
  | _ :: t' => attempt_marks t'
  end.

(** The steps for which handle_failed_step was entered, in order. *)
Fixpoint recoveries (t : list event) : list step :=
  match t with
  | [] => []
  | EnterHandleFailedStep s _ _ :: t' => s :: recoveries t'
  | _ :: t' => recoveries t'
  end.



(** A log entry "Step i: action - Success". *)
Definition succeeded (e : log_entry) : Prop :=
  match e with
  | LogResult _ _ true => True
  | _ => False
  end.

(** The plan of the specification's example: A succeeds, B always fails
    (click_element has no handler in _execute_action), C would succeed. *)
Definition step_A : step := {[ "action" := VStr "wait_seconds"; "seconds" := VInt 1 ]}.
Definition step_B : step := {[ "action" := VStr "click_element"; "target" := VStr "#submit" ]}.
Definition step_C : step := {[ "action" := VStr "wait_seconds"; "seconds" := VInt 2 ]}.

(** The kinds that _execute_action hands to _execute_web_action or to
    _execute_desktop_action. *)
Definition handled_by_wrapper (s : step) : bool :=
  action_in s ["navigate_url"; "search_google"; "click_first_result"]
  || action_in s ["open_application"; "type_text"; "press_key";
                  "click_desktop_coordinates"; "take_screenshot"; "wait_seconds"].

(** The state after [if l and l.running: l.stop(); l.join(timeout=2)]. *)
Definition stopped (l : option nat) (st : State) : State :=
  match l with
  | Some id =>
      if bool_decide (id ∈ running st)
      then set_running (running st ∖ {[ id ]}) (after st [EListenerStop id])
      else st
  | None => st
  end.

(** The listener handles a recorder holds. *)
Definition holds_listener (r : Recorder) (id : nat) : Prop :=
  mouse_listener r = Some id \/ keyboard_listener r = Some id.

(** Events that arm a listener. *)
Definition arming (e : event) : bool :=
  match e with
  | EListenerNew _ _ | EListenerStart _ => true
  | _ => false
  end.

(** A recorder that was started under the name "demo" and has captured
    nothing yet. *)
Definition armed_empty : State :=
  snd (start_recording calm (VStr "demo") init).

(** The same recorder after the mouse listener delivered one click. *)
Definition armed_clicked : State :=
  snd (_on_mouse_click calm 10 20 "left" true armed_empty).

(** Every listener handle in use was allocated: it is below the counter
    from which fresh handles are taken. *)
Definition handles_allocated (st : State) : Prop :=
  forall id, id ∈ running st \/ holds_listener (recorder st) id ->
             (id < next_listener st)%nat.

(* --------------------------------------------------------------------- *)
(* Vocabulary of further statements                                      *)
(* --------------------------------------------------------------------- *)

(** The action names for which _execute_action has a branch. *)
Definition known_actions : list string :=
  [ "navigate_url"; "search_google"; "click_first_result";
    "open_application"; "type_text"; "press_key"; "click_desktop_coordinates";
    "take_screenshot"; "wait_seconds";
    "start_workflow_recording"; "stop_workflow_recording"; "replay_workflow";
    "analyze_screen"; "extract_text_from_screen"; "find_visual_element";
    "scrape_website"; "chat_with_ai" ].

(** The step number and the action written in a log line. *)
Definition entry_index (e : log_entry) : nat :=
  match e with
  | LogResult i _ _ => i
  | LogError i _ _ => i
  end.

Definition entry_action (e : log_entry) : value :=
  match e with
  | LogResult _ a _ => a
  | LogError _ a _ => a
  end.

(** [step.get('action', 'unknown')] as the plan loop reads it. *)
Definition logged_action (s : step) : value :=
  get_or s "action" (VStr "unknown").

(** A world in which the memory file cannot be written. *)
Definition failing_memory : Env :=
  mkEnv (fun _ e => match e with ESaveStep _ => Some "disk full" | _ => None end)
        (fun _ _ => true) (fun _ => [])
        (fun _ => 100%Q) (fun _ => "20240101_120000")
        (fun _ => "2024-01-01T12:00:00") (fun _ => ReplyNotJson).

(** A world in which typing fails the first time and works afterwards. *)
Definition flaky_typing : Env :=
  mkEnv (fun t e =>
           match e with
           | ETypewrite _ =>
               if existsb (fun e' => match e' with ETypewrite _ => true | _ => false end) t
               then None else Some "keyboard busy"
           | _ => None
           end)
        (fun _ _ => true) (fun _ => [])
        (fun _ => 100%Q) (fun _ => "20240101_120000")
        (fun _ => "2024-01-01T12:00:00") (fun _ => ReplyNotJson).

(** A world in which the screen analysis of an analyze_screen step
    raises. *)
Definition failing_analysis : Env :=
  mkEnv (fun t e =>
           match e, last t with
           | EAnalyzeScreen, Some (EnterExecuteAction _ _) => Some "analysis timeout"
           | _, _ => None
           end)
        (fun _ _ => true) (fun _ => [])
        (fun _ => 100%Q) (fun _ => "20240101_120000")
        (fun _ => "2024-01-01T12:00:00") (fun _ => ReplyNotJson).

Definition type_step : step :=
  {[ "action" := VStr "type_text"; "text" := VStr "hello" ]}.

Definition focus_step : step :=
  {[ "action" := VStr "gentle_focus_application";
     "application" := VStr "Cisco Packet Tracer" ]}.

(** How many times the browser was started in a stretch of the trace. *)
Definition browser_starts (t : list event) : nat :=
  length (List.filter (fun e => match e with EBrowserStart => true | _ => false end) t).

Definition scrape_step : step :=
  {[ "action" := VStr "scrape_website"; "url" := VStr "https://example.com" ]}.

(** A world in which the extraction of a scrape raises. *)
Definition failing_extraction : Env :=
  mkEnv (fun _ e => match e with EScraperExtract _ _ => Some "no such page" | _ => None end)
        (fun _ _ => true) (fun _ => [])
        (fun _ => 100%Q) (fun _ => "20240101_120000")
        (fun _ => "2024-01-01T12:00:00") (fun _ => ReplyNotJson).

Definition wait_step : step := {[ "action" := VStr "wait_seconds" ]}.

Definition navigate_step : step :=
  {[ "action" := VStr "navigate_url"; "url" := VStr "https://example.com" ]}.

(** What _recover_window_focus does to the outside when nothing raises. *)
Definition focus_sequence : list event :=
  [ EKeyDown "alt"; EPress (VStr "tab"); EKeyUp "alt"; ESleep 1;
    EClick (VInt 960) (VInt 1060); ESleep 1;
    EPress (VStr "win"); ESleep (1 # 2);
    EPress (VStr "escape"); ESleep (1 # 2) ].

(** A suggestion whose action the recovery executor has no branch for. *)
Definition click_submit : suggestion :=
  mkSuggestion (Some "click the submit button") (Some "click_element")
               {[ "target" := VStr "#submit" ]} (Some (VNum (9 # 10))).

Definition suggesting_click_element : Env :=
  mkEnv (fun _ _ => None) (fun _ _ => true) (fun _ => [])
        (fun _ => 100%Q) (fun _ => "20240101_120000")
        (fun _ => "2024-01-01T12:00:00")
        (fun _ => ReplySuggestions [click_submit]).

(** The number of channels in which two screenshots differ. *)
Fixpoint differing (before after : image) : nat :=
  match before, after with
  | b :: before', a :: after' =>
      ((if Z.eqb b a then 0 else 1) + differing before' after')%nat
  | _, _ => 0%nat
  end.

(** A value of a uint8 array. *)
Definition uint8 (z : Z) : Prop := (0 <= z < 256)%Z.

(** A world without a display: every screenshot raises. *)
Definition no_display : Env :=
  mkEnv (fun _ e => match e with EScreenshot => Some "no display" | _ => None end)
        (fun _ _ => true) (fun _ => [])
        (fun _ => 100%Q) (fun _ => "20240101_120000")
        (fun _ => "2024-01-01T12:00:00") (fun _ => ReplyNotJson).

(** Calls that move the mouse or press keys. *)
Definition is_input (e : event) : bool :=
  match e with
  | EClick _ _ | ETypewrite _ | EWrite _ | EPress _
  | EKeyDown _ | EKeyUp _ | EScroll _ _ _ => true
  | _ => false
  end.

(** The input calls of a stretch of the trace, in order. *)
Definition inputs (t : list event) : list event := List.filter is_input t.

(** The call by which replay_workflow re-emits a recorded event. *)
Definition replayed (a : RecordedEvent) : event :=
  match a with
  | mouse_click x y _ _ => EClick (VInt x) (VInt y)
  | key_press key _ =>
      if Nat.eqb (String.length key) 1
      then EWrite key
      else EPress (VStr (mapped_key key))
  | mouse_scroll x y _ dy _ => EScroll dy x y
  end.

(** An event of a replay: an input call, or a pause of more than 0 and
    at most 2 seconds. *)
Definition replay_event (e : event) : Prop :=
  match e with
  | ESleep q => (0 < q)%Q /\ (q <= 2)%Q
  | _ => is_input e = true
  end.

(** A speed multiplier by which a delay can be divided. *)
Definition usable_speed (v : value) : bool :=
  match as_number v with
  | Some q => negb (Qeq_bool q 0)
  | None => false
  end.

(** A world in which every click raises. *)
Definition no_mouse : Env :=
  mkEnv (fun _ e => match e with EClick _ _ => Some "fail-safe triggered" | _ => None end)
        (fun _ _ => true) (fun _ => [])
        (fun _ => 100%Q) (fun _ => "20240101_120000")
        (fun _ => "2024-01-01T12:00:00") (fun _ => ReplyNotJson).

(** A recorded workflow of three events, the last one a minute after the
    second. *)
Definition demo_workflow : workflow_data :=
  mkWorkflow "demo" "2024-01-01T12:00:00" 62 3
             [ mouse_click 10 20 "left" 1; key_press "a" (3 # 2);
               key_press "enter" 62 ].

Definition with_demo_workflow : State :=
  set_files {[ "workflows/demo.json" := FWorkflow demo_workflow;
               "workflows/broken.json" := FInvalid ]} init.

(** A world in which the workflows directory cannot be created. *)
Definition read_only_disk : Env :=
  mkEnv (fun _ e => match e with EMakedirs => Some "read-only file system" | _ => None end)
        (fun _ _ => true) (fun _ => [])
        (fun _ => 100%Q) (fun _ => "20240101_120000")
        (fun _ => "2024-01-01T12:00:00") (fun _ => ReplyNotJson).

(** A world in which the keyboard listener (the second handle of a fresh
    process) cannot be started. *)
Definition no_keyboard : Env :=
  mkEnv (fun _ e => match e with EListenerStart 1 => Some "no keyboard access" | _ => None end)
        (fun _ _ => true) (fun _ => [])
        (fun _ => 100%Q) (fun _ => "20240101_120000")
        (fun _ => "2024-01-01T12:00:00") (fun _ => ReplyNotJson).

(** What the mouse listener's thread hands to the recorder's callbacks. *)
Inductive delivery : Type :=
  | Click (x y : Z) (button : string) (pressed : bool)
  | Scroll (x y dx dy : Z).

Definition deliver (env : Env) (d : delivery) : M unit :=
  match d with
  | Click x y button pressed => _on_mouse_click env x y button pressed
  | Scroll x y dx dy => _on_mouse_scroll env x y dx dy
  end.

(** The callbacks run one after the other, in the order of delivery. *)
Fixpoint deliver_all (env : Env) (ds : list delivery) : M unit :=
  match ds with
  | [] => ret tt
  | d :: rest => bind (deliver env d) (fun _ => deliver_all env rest)
  end.

(** The input call a delivery stands for, if it is one the recorder
    keeps: button presses and scrolls, not button releases. *)
Definition captured (d : delivery) : option event :=
  match d with
  | Click x y _ true => Some (EClick (VInt x) (VInt y))
  | Click _ _ _ false => None
  | Scroll x y _ dy => Some (EScroll dy x y)
  end.

(** The characters a saved workflow's file name is made of. *)
Definition safe_char (c : ascii) : bool :=
  isalnum c || Ascii.eqb c "-" || Ascii.eqb c "_".

Fixpoint all_chars (p : ascii -> bool) (s : string) : bool :=
  match s with
  | EmptyString => true
  | String c s' => p c && all_chars p s'
  end.

(* --------------------------------------------------------------------- *)
(* workflow_recorder.py: list_workflows                                  *)
(* --------------------------------------------------------------------- *)

(** One entry of the list: the file name inside workflows/ and the
    fields read from the file. *)
Record workflow_info : Type := mkInfo {
  wi_filename : string;
  wi_name : string;
  wi_created_at : string;
  wi_actions_count : nat;
  wi_duration : Q
}.

(** [s[len(p):]] when [s.startswith(p)]. *)
Fixpoint strip_prefix (p s : string) : option string :=
  match p with
  | EmptyString => Some s
  | String a p' =>
      match s with
      | EmptyString => None
      | String b s' => if Ascii.eqb a b then strip_prefix p' s' else None
      end
  end.

(** [s.endswith(suffix)]. *)
Fixpoint ends_with (suffix s : string) : bool :=
  String.eqb s suffix ||
  match s with
  | EmptyString => false
  | String _ s' => ends_with suffix s'
  end.

Definition no_slash (s : string) : bool :=
  all_chars (fun c => negb (Ascii.eqb c "/")) s.

(** [os.listdir('workflows')]: the names of the files directly inside
    the directory, with their contents. *)
Definition dir_entry (kv : string * file) : option (string * file) :=
  match strip_prefix "workflows/" (fst kv) with
  | Some name => if no_slash name then Some (name, snd kv) else None
  | None => None
  end.

Definition listdir (fs : gmap string file) : list (string * file) :=
  omap dir_entry (map_to_list fs).

(** The body of the loop: files that do not end in .json are passed
    over, files that cannot be read as a workflow are reported and
    skipped. *)
Definition read_info (entry : string * file) : option workflow_info :=
  if ends_with ".json" (fst entry)
  then match snd entry with
       | FWorkflow w =>
           Some (mkInfo (fst entry) (wf_name w) (wf_created_at w)
                        (wf_actions_count w) (wf_duration w))
       | FInvalid => None
       end
  else None.

(** [sorted(workflows, key=created_at, reverse=True)]: a stable sort,
    entries with equal keys stay in their order. *)
Fixpoint insert_newest (x : workflow_info) (l : list workflow_info) : list workflow_info :=
  match l with
  | [] => [x]
  | y :: l' =>
      if String.ltb (wi_created_at y) (wi_created_at x)
      then x :: y :: l'
      else y :: insert_newest x l'
  end.

Definition sorted_newest_first (l : list workflow_info) : list workflow_info :=
  fold_left (fun acc x => insert_newest x acc) l [].

Definition list_workflows : M (list workflow_info) :=
  bind (gets files) (fun fs => ret (sorted_newest_first (omap read_info (listdir fs)))).

(** [b] is not newer than [a]. *)
Definition not_newer (a b : workflow_info) : Prop :=
  String.leb (wi_created_at b) (wi_created_at a) = true.

(** What list_workflows reports for a workflow file. *)
Definition info_of (filename : string) (w : workflow_data) : workflow_info :=
  mkInfo filename (wf_name w) (wf_created_at w) (wf_actions_count w) (wf_duration w).

(* --------------------------------------------------------------------- *)
(* assistant_bot.py: create_fallback_plan                                *)
(* --------------------------------------------------------------------- *)

(** [c.isspace()] for one character below 256. *)
Definition isspace (c : ascii) : bool :=
  let n := code c in
  (((9 <=? n) && (n <=? 13)) || ((28 <=? n) && (n <=? 32)) ||
   (n =? 133) || (n =? 160))%N.

Fixpoint lstrip (s : string) : string :=
  match s with
  | EmptyString => EmptyString
  | String c s' => if isspace c then lstrip s' else s
  end.

Fixpoint rstrip (s : string) : string :=
  match s with
  | EmptyString => EmptyString
  | String c s' =>
      match rstrip s' with
      | EmptyString => if isspace c then EmptyString else String c EmptyString
      | r => String c r
      end
  end.

(** [s.strip()]. *)
Definition strip (s : string) : string := lstrip (rstrip s).

(** [hay.find(needle)]: the index of the first occurrence, or -1. *)
Fixpoint find_from (needle hay : string) (i : nat) : Z :=
  if String.prefix needle hay then Z.of_nat i
  else match hay with
       | EmptyString => (-1)%Z
       | String _ hay' => find_from needle hay' (S i)
       end.

Definition find (needle hay : string) : Z := find_from needle hay 0.

Fixpoint drop_chars (n : nat) (s : string) : string :=
  match n, s with
  | O, _ => s
  | S n', String _ s' => drop_chars n' s'
  | S _, EmptyString => EmptyString
  end.

(** [s[start:]]. *)
Definition slice_from (start : Z) (s : string) : string :=
  if (start <? 0)%Z
  then drop_chars (String.length s - Z.to_nat (- start)) s
  else drop_chars (Z.to_nat start) s.

(** [s.split()]: the words between runs of whitespace. *)
Fixpoint split_words (s cur : string) : list string :=
  match s with
  | EmptyString => match cur with EmptyString => [] | _ => [cur] end
  | String c s' =>
      if isspace c
      then match cur with
           | EmptyString => split_words s' EmptyString
           | _ => cur :: split_words s' EmptyString
           end
      else split_words s' (cur +:+ String c EmptyString)
  end.

Definition split (s : string) : list string := split_words s EmptyString.

(** [sep.join(words)]. *)
Fixpoint join (sep : string) (words : list string) : string :=
  match words with
  | [] => EmptyString
  | [w] => w
  | w :: rest => w +:+ sep +:+ join sep rest
  end.

(** [next((i for i, x in enumerate(l) if p(x)), -1)]. *)
Fixpoint first_index {A : Type} (p : A -> bool) (l : list A) (i : nat) : option nat :=
  match l with
  | [] => None
  | x :: l' => if p x then Some i else first_index p l' (S i)
  end.

(** [s.replace(c, '')] for a single character. *)
Definition remove_char (c : ascii) (s : string) : string :=
  filter_chars (fun c' => negb (Ascii.eqb c' c)) s.

Definition double_quote : ascii := ascii_of_nat 34.

Definition step_open (application : string) : step :=
  {[ "action" := VStr "open_application"; "application" := VStr application ]}.
Definition step_wait (seconds : Z) : step :=
  {[ "action" := VStr "wait_seconds"; "seconds" := VInt seconds ]}.
Definition step_shot (filename : string) : step :=
  {[ "action" := VStr "take_screenshot"; "filename" := VStr filename ]}.
Definition step_focus (application : string) : step :=
  {[ "action" := VStr "gentle_focus_application"; "application" := VStr application ]}.
Definition step_click (x y : Z) : step :=
  {[ "action" := VStr "click_desktop_coordinates"; "x" := VInt x; "y" := VInt y ]}.
Definition step_key (key : string) : step :=
  {[ "action" := VStr "press_key"; "key" := VStr key ]}.
Definition step_navigate (url : string) : step :=
  {[ "action" := VStr "navigate_url"; "url" := VStr url ]}.
Definition step_click_element (target : string) : step :=
  {[ "action" := VStr "click_element"; "target" := VStr target ]}.
Definition step_type (text : string) : step :=
  {[ "action" := VStr "type_text"; "text" := VStr text ]}.

(** The search term of the YouTube plan. *)
Definition fallback_search_term (user_prompt : string) : string :=
  let prompt_lower := lower user_prompt in
  let search_term :=
    if contains "search for" prompt_lower
    then strip (slice_from (find "search for" prompt_lower + 10) user_prompt)
    else if contains "search" prompt_lower
    then let words := split user_prompt in
         match first_index (fun word => contains "search" (lower word)) words 0 with
         | Some search_idx =>
             if Nat.ltb (search_idx + 1) (length words)
             then join " " (drop (search_idx + 1) words)
             else "mrbeast"
         | None => "mrbeast"
         end
    else "mrbeast" in
  strip (remove_char "'" (remove_char double_quote search_term)).

Definition create_fallback_plan (user_prompt : string) : list step :=
  let prompt_lower := lower user_prompt in
  if contains "cisco" prompt_lower && contains "packet tracer" prompt_lower
  then
    if contains "connect" prompt_lower
       && (contains "pc" prompt_lower || contains "computer" prompt_lower)
    then
      [ step_open "cisco packet tracer"; step_wait 12;
        step_shot "1_packet_tracer_opened.png";
        step_focus "cisco packet tracer"; step_wait 3;
        step_click 50 220; step_wait 3; step_shot "2_end_devices_clicked.png";
        step_click 80 260; step_wait 2; step_shot "3_pc_selected.png";
        step_click 450 350; step_wait 3; step_shot "4_first_pc_placed.png";
        step_click 80 260; step_wait 2;
        step_click 650 350; step_wait 3; step_shot "5_second_pc_placed.png";
        step_click 50 380; step_wait 3; step_shot "6_connections_clicked.png";
        step_click 80 420; step_wait 2; step_shot "7_cable_selected.png";
        step_click 450 350; step_wait 2; step_key "Enter"; step_wait 1;
        step_click 650 350; step_wait 2; step_key "Enter"; step_wait 1;
        step_shot "8_pcs_connected_final.png" ]
    else
      [ step_open "cisco packet tracer"; step_wait 12;
        step_focus "cisco packet tracer";
        step_shot "packet_tracer_opened.png" ]
  else if contains "youtube" prompt_lower
          && (contains "search" prompt_lower || contains "mrbeast" prompt_lower)
  then
    [ step_open "chrome"; step_wait 3;
      step_navigate "https://www.youtube.com"; step_wait 4;
      step_click_element "input#search"; step_wait 1;
      step_type (fallback_search_term user_prompt); step_wait 1;
      step_key "Enter" ]
  else if contains "chrome" prompt_lower && contains "youtube" prompt_lower
  then
    [ step_open "chrome"; step_wait 3;
      step_navigate "https://www.youtube.com"; step_wait 3 ]
  else if contains "notepad" prompt_lower
  then
    [ step_open "notepad"; step_wait 2 ]
    ++ (if contains "type" prompt_lower
        then match strip (slice_from (find "type" prompt_lower + 4) user_prompt) with
             | EmptyString => []
             | text_to_type => [step_type text_to_type]
             end
        else [])
  else if contains "calculator" prompt_lower || contains "calc" prompt_lower
  then [ step_open "calculator"; step_wait 2 ]
  else if contains "screenshot" prompt_lower
  then [ step_shot "screenshot.png" ]
  else [ step_wait 1 ].

(* --------------------------------------------------------------------- *)
(* assistant_bot.py: take_screenshot and scrape_website_data             *)
(* --------------------------------------------------------------------- *)

(** [not v]: Python's truth value of a step field. *)
Definition value_falsy (v : value) : bool :=
  match v with
  | VNone => true
  | VBool b => negb b
  | VInt z => Z.eqb z 0
  | VNum q => Qeq_bool q 0
  | VStr s => match s with EmptyString => true | _ => false end
  end.

(** [name.lower().endswith(('.png', '.jpg', '.jpeg'))]. *)
Definition has_image_extension (name : string) : bool :=
  let l := lower name in
  ends_with ".png" l || ends_with ".jpg" l || ends_with ".jpeg" l.

(** The file name take_screenshot saves under. *)
Definition screenshot_filename (filename : value) : result string :=
  if value_falsy filename
  then Ok "screenshot.png"
  else match filename with
       | VStr name => Ok (if has_image_extension name then name else name +:+ ".png")
       | _ => Raise "AttributeError: object has no attribute 'lower'"
       end.

Definition take_screenshot (env : Env) (filename : value) : M unit :=
  bind (screenshot env) (fun _ =>
  bind (lift (screenshot_filename filename)) (fun name =>
  bind (call env (ESaveImage name)) (fun _ =>
  sleep 1))).

(** The dictionary scrape_website_data answers: the extraction's result,
    or success False with an error text. *)
Inductive scrape_result : Type :=
  | Scraped
  | ScrapeFailed (error : string).

(** [for attempt in range(max_retries)] around ai_powered_extraction. *)
Fixpoint extraction_attempts (env : Env) (url description : value) (range : list nat)
    : M scrape_result :=
  match range with
  | [] => ret (ScrapeFailed "All extraction attempts failed")
  | attempt :: rest =>
      bind (try_except
              (bind (ask env (EScraperExtract url description)) (fun ok =>
               if ok then ret (Some Scraped)
               else bind (if Nat.ltb attempt 1 then sleep 2 else ret tt)
                         (fun _ => ret None)))
              (fun msg =>
                 if Nat.ltb attempt 1
                 then bind (sleep 2) (fun _ => ret None)
                 else raise msg))
           (fun outcome =>
              match outcome with
              | Some r => ret r
              | None => extraction_attempts env url description rest
              end)
  end.

Definition scrape_website_data (env : Env) (url description : value) : M scrape_result :=
  try_except
    (bind (ask env EScraperStart) (fun started =>
     if negb started then ret (ScrapeFailed "Failed to start browser")
     else try_finally (extraction_attempts env url description (seq 0 2))
                      (call env EScraperClose)))
    (fun msg => ret (ScrapeFailed ("Scraping failed: " +:+ msg))).

(* ===================================================================== *)
(* Properties                                                            *)
(* ===================================================================== *)

Lemma after_nil (st : State) : after st [] = st.
Proof. unfold after, set_trace. rewrite app_nil_r. destruct st; reflexivity. Qed.

Lemma after_after (st : State) (a b : list event) :
  after (after st a) b = after st (a ++ b).
Proof. unfold after, set_trace; simpl. rewrite <- app_assoc. reflexivity. Qed.

Lemma trace_after (st : State) (new : list event) :
  trace (after st new) = (trace st ++ new)%list.
Proof. reflexivity. Qed.

(* --------------------------------------------------------------------- *)
(* The replayer's key mapping                                            *)
(* --------------------------------------------------------------------- *)

(** Every value of the table is mapped to itself. *)
Lemma key_mapping_values_fixed (k v : string) :
  key_mapping !! k = Some v -> mapped_key v = v.
Proof.
  intros Hk. apply elem_of_list_to_map_2 in Hk.
  repeat (apply elem_of_cons in Hk as [Hk | Hk];
          [ inversion Hk; subst; vm_compute; reflexivity | ]).
  apply elem_of_nil in Hk. destruct Hk.
Qed.

(** C9. The special-key mapping of the replayer is idempotent: mapping a
    mapped key again changes nothing, for every key name; in particular
    the canonical name "enter" is left as it is. *)
Theorem mapped_key_idempotent :
  (forall key : string, mapped_key (mapped_key key) = mapped_key key) /\
  mapped_key "enter" = "enter".
Proof.
  split; [ | vm_compute; reflexivity ].
  intros key. unfold mapped_key at 2 3.
  destruct (key_mapping !! lower key) as [v | ] eqn:Hlookup; simpl.
  - eapply key_mapping_values_fixed; eassumption.
  - unfold mapped_key. rewrite Hlookup. reflexivity.
Qed.

(* --------------------------------------------------------------------- *)
(* Replay of a missing or empty workflow                                 *)
(* --------------------------------------------------------------------- *)

(** replay_workflow catches everything: it always answers a boolean. *)
Lemma replay_workflow_no_raise (env : Env) (workflow_file speed : value) (st : State) :
  exists b st', replay_workflow env workflow_file speed st = (Ok b, st').
Proof.
  unfold replay_workflow, try_except.
  match goal with
  | |- context [match ?m st with _ => _ end] => destruct (m st) as [[b | msg] st']
  end.
  - eauto.
  - unfold ret. eauto.
Qed.

(** C6. Replaying a workflow whose file does not exist answers False and
    raises nothing; replaying an existing workflow with no events answers
    True at once: the state, and so the trace, is untouched (no settle
    pause, no input event).  No replay ever raises. *)
Theorem replay_missing_or_empty (env : Env) (f : string) (speed : value) (st : State) :
  (files st !! workflow_path f = None ->
     replay_workflow env (VStr f) speed st = (Ok false, st)) /\
  (forall w, files st !! workflow_path f = Some (FWorkflow w) ->
     wf_actions w = [] ->
     replay_workflow env (VStr f) speed st = (Ok true, st)) /\
  (forall workflow_file, exists b st',
     replay_workflow env workflow_file speed st = (Ok b, st')).
Proof.
  split; [ | split ].
  - intros Hmissing.
    unfold replay_workflow, try_except, bind, ret, gets. simpl.
    rewrite Hmissing. reflexivity.
  - intros w Hfile Hempty.
    unfold replay_workflow, try_except, bind, ret, gets. simpl.
    rewrite Hfile, Hempty. reflexivity.
  - intros workflow_file. apply replay_workflow_no_raise.
Qed.

Lemma replay_missing_or_empty_witness :
  replay_workflow calm (VStr "nofile.json") (VNum 1) init = (Ok false, init) /\
  replay_workflow calm (VStr "empty.json") (VNum 1) with_empty_workflow
    = (Ok true, with_empty_workflow).
Proof.
  split.
  - apply (proj1 (replay_missing_or_empty calm "nofile.json" (VNum 1) init)).
    vm_compute. reflexivity.
  - apply (proj1 (proj2 (replay_missing_or_empty calm "empty.json" (VNum 1)
                           with_empty_workflow)) empty_workflow).
    + vm_compute. reflexivity.
    + reflexivity.
Defined.

(* --------------------------------------------------------------------- *)
(* Wait-and-retry recovery                                               *)
(* --------------------------------------------------------------------- *)

(** For a step that is no coordinate click, no typing and no key press,
    the retry re-executes nothing. *)
Lemma retry_primitive_other (env : Env) (failed_step : step) (st : State) :
  action_in failed_step ["click_desktop_coordinates"; "type_text"; "press_key"] = false ->
  retry_primitive env failed_step st = (Ok tt, st).
Proof.
  unfold action_in; simpl. intros Hkind.
  apply orb_false_elim in Hkind as [Hclick Hkind].
  apply orb_false_elim in Hkind as [Htype Hkind].
  apply orb_false_elim in Hkind as [Hpress _].
  unfold retry_primitive. rewrite Hclick, Htype, Hpress. reflexivity.
Qed.

(** C10. For a failed step whose action is none of
    click_desktop_coordinates, type_text and press_key, wait-and-retry
    recovery sleeps 2 seconds once, re-executes nothing, and reports
    success.  Through handle_failed_step: when the error message mentions
    "timeout" or "not found" (and neither "focus" nor "window", which are
    tested first) and the error screenshot can be taken and saved, the
    failed step counts as recovered after exactly that one wait, and the
    AI fallback is not consulted. *)
Theorem wait_and_retry_vacuous_success
    (env : Env) (failed_step : step) (error_message : string) (attempt : nat) (st : State) :
  action_in failed_step ["click_desktop_coordinates"; "type_text"; "press_key"] = false ->
  _recover_wait_and_retry env failed_step st = (Ok true, after st [ESleep 2]) /\
  (let entered := EnterHandleFailedStep failed_step error_message attempt in
   contains "timeout" (lower error_message) || contains "not found" (lower error_message) = true ->
   contains "focus" (lower error_message) || contains "window" (lower error_message) = false ->
   raises env (trace st ++ [entered]) EScreenshot = None ->
   raises env (trace st ++ [entered; EScreenshot]) (ESaveImage "error_screenshot.png") = None ->
   handle_failed_step env failed_step error_message attempt st
     = (Ok true, after st [entered; EScreenshot; ESaveImage "error_screenshot.png";
                           EAnalyzeScreen; ESleep 2])).
Proof.
  intros Hkind.
  assert (Hwait : forall st0, _recover_wait_and_retry env failed_step st0
                              = (Ok true, after st0 [ESleep 2])).
  { intros st0. unfold _recover_wait_and_retry; simpl.
    unfold bind, try_except, sleep, record, modify, ret; simpl.
    rewrite (retry_primitive_other env failed_step _ Hkind). reflexivity. }
  split; [ apply Hwait | ].
  intros entered Hmsg Hfocus Hshot Hsave.
  assert (Hclick : action_is failed_step "click_desktop_coordinates" = false).
  { unfold action_in in Hkind; simpl in Hkind.
    apply orb_false_elim in Hkind as [Hclick _]. exact Hclick. }
  unfold handle_failed_step.
  unfold bind at 1. unfold record at 1, modify at 1.
  unfold bind at 1. unfold screenshot at 1. cbn [trace set_trace].
  fold entered. rewrite Hshot.
  unfold bind at 1. unfold call at 1. cbn [trace set_trace].
  rewrite <- app_assoc. cbn [app]. rewrite Hsave.
  unfold bind at 1. unfold record at 1, modify at 1.
  rewrite Hclick, Hfocus, Hmsg.
  unfold bind at 1. rewrite Hwait. cbn [negb].
  unfold ret, after, set_trace; cbn [trace files running next_listener recorder
    selenium_active execution_logs api_key].
  repeat rewrite <- app_assoc. reflexivity.
Qed.

Lemma wait_and_retry_vacuous_success_witness :
  _recover_wait_and_retry calm analyze_step init = (Ok true, after init [ESleep 2]) /\
  handle_failed_step calm analyze_step "Request timeout" 0 init
    = (Ok true,
       after init [EnterHandleFailedStep analyze_step "Request timeout" 0;
                   EScreenshot; ESaveImage "error_screenshot.png";
                   EAnalyzeScreen; ESleep 2]).
Proof.
  assert (Hkind : action_in analyze_step
                    ["click_desktop_coordinates"; "type_text"; "press_key"] = false)
    by (vm_compute; reflexivity).
  destruct (wait_and_retry_vacuous_success calm analyze_step "Request timeout" 0 init Hkind)
    as [Hwait Hhandle].
  split; [ exact Hwait | ].
  apply Hhandle; vm_compute; reflexivity.
Defined.

(* --------------------------------------------------------------------- *)
(* Screen change detection                                               *)
(* --------------------------------------------------------------------- *)

Lemma pixel_diff_nonneg (before after : image) : 0 <= pixel_diff before after.
Proof.
  revert after. induction before as [ | b before IH]; intros [ | a after]; simpl; try lia.
  specialize (IH after). unfold uint8_sub.
  pose proof (Z.mod_pos_bound (b - a) 256). lia.
Qed.



(* --------------------------------------------------------------------- *)
(* Coordinate-perturbation recovery                                      *)
(* --------------------------------------------------------------------- *)

Section ClickRecovery.

Context (env : Env).
Hypothesis screenshot_ok : forall t, raises env t EScreenshot = None.
Hypothesis click_ok : forall t x y, raises env t (EClick x y) = None.




End ClickRecovery.




(* --------------------------------------------------------------------- *)
(* What a computation appends to the trace                               *)
(* --------------------------------------------------------------------- *)

Section Emits.

Context (env : Env) (P : event -> Prop).

Lemma emits_ret {A} (a : A) : emits P (ret a).
Proof. intros st. exists []. rewrite app_nil_r. split; [ reflexivity | constructor ]. Qed.

Lemma emits_raise {A} (msg : string) : emits P (@raise A msg).
Proof. intros st. exists []. rewrite app_nil_r. split; [ reflexivity | constructor ]. Qed.

Lemma emits_lift {A} (r : result A) : emits P (lift r).
Proof. intros st. exists []. rewrite app_nil_r. split; [ reflexivity | constructor ]. Qed.

Lemma emits_gets {A} (f : State -> A) : emits P (gets f).
Proof. intros st. exists []. rewrite app_nil_r. split; [ reflexivity | constructor ]. Qed.

Lemma emits_modify (f : State -> State) :
  (forall st, trace (f st) = trace st) -> emits P (modify f).
Proof.
  intros Hf st. exists []. rewrite app_nil_r. split; [ apply Hf | constructor ].
Qed.

Lemma emits_update_recorder (f : Recorder -> Recorder) : emits P (update_recorder f).
Proof. apply emits_modify. reflexivity. Qed.

Lemma emits_bind {A B} (m : M A) (k : A -> M B) :
  emits P m -> (forall a, emits P (k a)) -> emits P (bind m k).
Proof.
  intros Hm Hk st. unfold bind.
  destruct (Hm st) as (new1 & Htrace1 & Hnew1).
  destruct (m st) as [[a | msg] st1]; simpl in Htrace1.
  - destruct (Hk a st1) as (new2 & Htrace2 & Hnew2).
    exists (new1 ++ new2)%list. split.
    + rewrite Htrace2, Htrace1, app_assoc. reflexivity.
    + apply Forall_app. split; assumption.
  - exists new1. split; assumption.
Qed.

Lemma emits_try_except {A} (m : M A) (h : string -> M A) :
  emits P m -> (forall msg, emits P (h msg)) -> emits P (try_except m h).
Proof.
  intros Hm Hh st. unfold try_except.
  destruct (Hm st) as (new1 & Htrace1 & Hnew1).
  destruct (m st) as [[a | msg] st1]; simpl in Htrace1.
  - exists new1. split; assumption.
  - destruct (Hh msg st1) as (new2 & Htrace2 & Hnew2).
    exists (new1 ++ new2)%list. split.
    + rewrite Htrace2, Htrace1, app_assoc. reflexivity.
    + apply Forall_app. split; assumption.
Qed.

Lemma emits_try_finally {A} (m : M A) (f : M unit) :
  emits P m -> emits P f -> emits P (try_finally m f).
Proof.
  intros Hm Hf st. unfold try_finally.
  destruct (Hm st) as (new1 & Htrace1 & Hnew1).
  destruct (m st) as [[a | msg] st1]; simpl in Htrace1;
    destruct (Hf st1) as (new2 & Htrace2 & Hnew2);
    destruct (f st1) as [[[] | msg'] st2]; simpl in Htrace2;
    exists (new1 ++ new2)%list;
    (split; [ simpl; rewrite Htrace2, Htrace1, app_assoc; reflexivity
            | apply Forall_app; split; assumption ]).
Qed.

Lemma emits_record (e : event) : P e -> emits P (record e).
Proof.
  intros He st. exists [e]. split; [ reflexivity | repeat constructor; exact He ].
Qed.

Lemma emits_call (e : event) : P e -> emits P (call env e).
Proof.
  intros He st. exists [e]. unfold call.
  destruct (raises env (trace st) e); (split; [ reflexivity | repeat constructor; exact He ]).
Qed.

Lemma emits_ask (e : event) : P e -> emits P (ask env e).
Proof.
  intros He st. exists [e]. unfold ask.
  destruct (raises env (trace st) e); (split; [ reflexivity | repeat constructor; exact He ]).
Qed.

Lemma emits_screenshot : P EScreenshot -> emits P (screenshot env).
Proof.
  intros He st. exists [EScreenshot]. unfold screenshot.
  destruct (raises env (trace st) EScreenshot);
    (split; [ reflexivity | repeat constructor; exact He ]).
Qed.

Lemma emits_time_time : P ETime -> emits P (time_time env).
Proof.
  intros He st. exists [ETime]. split; [ reflexivity | repeat constructor; exact He ].
Qed.

Lemma emits_now_strftime : P EDatetimeNow -> emits P (now_strftime env).
Proof.
  intros He st. exists [EDatetimeNow]. split; [ reflexivity | repeat constructor; exact He ].
Qed.

Lemma emits_now_isoformat : P EDatetimeNow -> emits P (now_isoformat env).
Proof.
  intros He st. exists [EDatetimeNow]. split; [ reflexivity | repeat constructor; exact He ].
Qed.

End Emits.

Lemma emits_weaken {A} (P Q : event -> Prop) (m : M A) :
  (forall e, P e -> Q e) -> emits P m -> emits Q m.
Proof.
  intros HPQ Hm st. destruct (Hm st) as (new & Htrace & Hnew).
  exists new. split; [ exact Htrace | ].
  eapply Forall_impl; [ exact Hnew | exact HPQ ].
Qed.

(** One step of a syntax-directed proof of [emits]. *)
Ltac emits_step :=
  lazymatch goal with
  | |- emits _ (ret _) => apply emits_ret
  | |- emits _ (raise _) => apply emits_raise
  | |- emits _ (lift _) => apply emits_lift
  | |- emits _ (gets _) => apply emits_gets
  | |- emits _ (update_recorder _) => apply emits_update_recorder
  | |- emits _ (modify _) => apply emits_modify; intros; reflexivity
  | |- emits _ (bind _ _) => apply emits_bind; [ | intros ? ]
  | |- emits _ (try_except _ _) => apply emits_try_except; [ | intros ? ]
  | |- emits _ (try_finally _ _) => apply emits_try_finally
  | |- emits _ (record _) => apply emits_record
  | |- emits _ (call _ _) => apply emits_call
  | |- emits _ (ask _ _) => apply emits_ask
  | |- emits _ (screenshot _) => apply emits_screenshot
  | |- emits _ (time_time _) => apply emits_time_time
  | |- emits _ (now_strftime _) => apply emits_now_strftime
  | |- emits _ (now_isoformat _) => apply emits_now_isoformat
  | |- emits _ (if ?b then _ else _) => destruct b
  | |- emits _ (match ?x with _ => _ end) => destruct x
  | |- emits _ (let _ := _ in _) => cbv zeta
  | |- upto _ _ => unfold upto; simpl; lia
  end.

Ltac emits_auto := repeat emits_step.

Section EmitsProgram.

Context (env : Env).

Lemma emits_sleep (n : nat) (secs : Q) : emits (upto n) (sleep secs).
Proof. unfold sleep. emits_auto. Qed.

Lemma emits_py_sleep (n : nat) (v : value) : emits (upto n) (py_sleep v).
Proof. unfold py_sleep. emits_auto; apply emits_sleep. Qed.

Lemma emits__save_workflow (n : nat) : emits (upto n) (_save_workflow env).
Proof. unfold _save_workflow, _reset_state. emits_auto. Qed.

Lemma emits_stop_if_running (n : nat) (l : option nat) :
  emits (upto n) (stop_if_running l).
Proof. unfold stop_if_running, stop_listener. emits_auto. Qed.

Lemma emits_stop_recording (n : nat) : emits (upto n) (stop_recording env).
Proof.
  unfold stop_recording. emits_auto;
    first [ apply emits_stop_if_running | apply emits__save_workflow ].
Qed.

Lemma emits_start_recording (n : nat) (name : value) :
  emits (upto n) (start_recording env name).
Proof.
  unfold start_recording, arm_listeners, new_listener, start_listener.
  emits_auto; first [ apply emits_stop_recording | apply emits_sleep ].
Qed.

Lemma emits_replay_actions (n : nat) (speed : value) (actions : list RecordedEvent) :
  forall last, emits (upto n) (replay_actions env speed last actions).
Proof.
  induction actions as [ | action rest IH]; intros last; cbn [replay_actions].
  - emits_auto.
  - unfold replay_action. emits_auto; first [ apply emits_sleep | apply IH ].
Qed.

Lemma emits_replay_workflow (n : nat) (workflow_file speed : value) :
  emits (upto n) (replay_workflow env workflow_file speed).
Proof.
  unfold replay_workflow.
  emits_auto; first [ apply emits_sleep | apply emits_replay_actions ].
Qed.

Lemma emits__execute_action (n : nat) (s : step) :
  emits (upto n) (_execute_action env s).
Proof.
  unfold _execute_action, _execute_web_action, _execute_desktop_action,
    type_text, press_key, wait_seconds.
  emits_auto;
    first [ apply emits_sleep | apply emits_py_sleep | apply emits_start_recording
          | apply emits_stop_recording | apply emits_replay_workflow ].
Qed.

End EmitsProgram.

(* --------------------------------------------------------------------- *)
(* AI-suggested recovery                                                 *)
(* --------------------------------------------------------------------- *)

Lemma total_try_except {A} (m : M A) (h : string -> M A) :
  (forall msg, total (h msg)) -> total (try_except m h).
Proof.
  intros Hh st. unfold try_except.
  destruct (m st) as [[a | msg] st1]; [ eauto | apply Hh ].
Qed.

Lemma total_ret {A} (a : A) : total (ret a).
Proof. intros st. unfold ret. eauto. Qed.



Section AiRecovery.

Context (env : Env).




End AiRecovery.




(* --------------------------------------------------------------------- *)
(* What the recovery strategies append to the trace                      *)
(* --------------------------------------------------------------------- *)

Section EmitsRecovery.

Context (env : Env) (n : nat).
Hypothesis level_2 : (2 <= n)%nat.







End EmitsRecovery.

(* --------------------------------------------------------------------- *)
(* The retry policy of execute_step                                      *)
(* --------------------------------------------------------------------- *)






Section RetryPolicy.

Context (env : Env).



End RetryPolicy.


(* --------------------------------------------------------------------- *)
(* A final attempt that fails without raising                            *)
(* --------------------------------------------------------------------- *)

(** click_element has no branch in _execute_action: the call answers
    False and touches nothing. *)
Lemma _execute_action_click_element (env : Env) (s : step) (st : State) :
  get s "action" = VStr "click_element" ->
  _execute_action env s st = (Ok false, st).
Proof.
  intros Haction.
  unfold _execute_action, action_in, action_is; simpl.
  rewrite Haction. reflexivity.
Qed.

(** C3 (the code at the failing input). A click_element step fails on
    both of its attempts, the second one being the final one, and
    execute_step answers False without ever entering handle_failed_step:
    recovery is wired to the except branch only, and an attempt that
    fails by answering False never reaches it. *)
Theorem final_failure_without_recovery (env : Env) (s : step) (st : State) :
  get s "action" = VStr "click_element" ->
  raises env (trace st ++ [EnterExecuteStep s]) (ESaveStep s) = None ->
  let new := [ EnterExecuteStep s; ESaveStep s; EnterExecuteAction 0 s;
               ESleep 2; EnterExecuteAction 1 s ] in
  max_retries s = 2%nat /\
  execute_step env s st = (Ok false, after st new) /\
  attempt_marks new = [0; 1]%nat /\
  recoveries new = [].
Proof.
  intros Haction Hsave new.
  assert (Hretries : max_retries s = 2%nat).
  { unfold max_retries, action_in, action_is; simpl. rewrite Haction. reflexivity. }
  split; [ exact Hretries | ]. split; [ | split; reflexivity ].
  unfold execute_step. rewrite Hretries. cbn [seq attempts].
  unfold bind at 1, record at 1, modify at 1.
  unfold bind at 1, call at 1. cbn [trace set_trace]. rewrite Hsave.
  unfold attempt_step, try_except, bind, sleep, record, modify, ret.
  cbn [Nat.ltb Nat.leb trace set_trace].
  repeat (rewrite _execute_action_click_element by exact Haction;
          cbn [trace set_trace]).
  unfold after, set_trace, new; cbn [trace files running next_listener recorder
    selenium_active execution_logs api_key].
  rewrite <- !app_assoc. reflexivity.
Qed.

Lemma final_failure_without_recovery_witness :
  execute_step calm step_B init
  = (Ok false,
     after init [ EnterExecuteStep step_B; ESaveStep step_B;
                  EnterExecuteAction 0 step_B; ESleep 2;
                  EnterExecuteAction 1 step_B ]).
Proof.
  apply (final_failure_without_recovery calm step_B init).
  - vm_compute. reflexivity.
  - reflexivity.
Defined.

(* --------------------------------------------------------------------- *)
(* Recovery is out of reach for the web and desktop handlers             *)
(* --------------------------------------------------------------------- *)

Lemma total_bind {A B} (m : M A) (k : A -> M B) :
  total m -> (forall a, total (k a)) -> total (bind m k).
Proof.
  intros Hm Hk st. unfold bind.
  destruct (Hm st) as (a & st1 & ->). apply Hk.
Qed.

Lemma total_record (e : event) : total (record e).
Proof. intros st. unfold record, modify. eauto. Qed.

Lemma emits_try_except_total {A} (P : event -> Prop) (m : M A) (h : string -> M A) :
  total m -> emits P m -> emits P (try_except m h).
Proof.
  intros Htotal Hm st. unfold try_except.
  destruct (Hm st) as (new & Htrace & Hnew).
  destruct (Htotal st) as (a & st1 & Hrun). rewrite Hrun in Htrace |- *.
  exists new. split; assumption.
Qed.

Lemma recoveries_app (a b : list event) :
  recoveries (a ++ b) = (recoveries a ++ recoveries b)%list.
Proof.
  induction a as [ | e a IH]; [ reflexivity | ].
  destruct e; simpl; rewrite ?IH; reflexivity.
Qed.

Lemma recoveries_none (new : list event) :
  Forall (fun e => level e <> 2%nat) new -> recoveries new = [].
Proof.
  induction 1 as [ | e new He _ IH]; [ reflexivity | ].
  destruct e; simpl; try exact IH. simpl in He. congruence.
Qed.

Section Unreachable.

Context (env : Env).

(** The two wrappers catch every exception and answer False. *)
Lemma handled_by_wrapper_total (s : step) :
  handled_by_wrapper s = true -> total (_execute_action env s).
Proof.
  unfold handled_by_wrapper, _execute_action. intros Hkind.
  destruct (action_in s ["navigate_url"; "search_google"; "click_first_result"]).
  - apply total_try_except. intros msg. apply total_ret.
  - cbn [orb] in Hkind. rewrite Hkind.
    apply total_try_except. intros msg. apply total_ret.
Qed.

Lemma attempt_step_no_recovery (s : step) (attempt : nat) :
  total (_execute_action env s) ->
  emits (fun e => level e <> 2%nat) (attempt_step env s attempt).
Proof.
  intros Htotal. unfold attempt_step.
  assert (Hexec : emits (fun e => level e <> 2%nat) (_execute_action env s)).
  { eapply emits_weaken; [ | apply (emits__execute_action env 0) ].
    unfold upto. intros e He. lia. }
  apply emits_try_except_total.
  - apply total_bind; [ destruct (Nat.ltb 0 attempt);
                        [ apply total_record | apply total_ret ] | intros _ ].
    apply total_bind; [ apply total_record | intros _ ].
    apply total_bind; [ exact Htotal | ].
    intros ok. destruct ok; [ | apply total_ret ].
    apply total_bind; [ apply total_record | intros _; apply total_ret ].
  - unfold sleep.
    emits_auto; first [ exact Hexec | simpl; discriminate ].
Qed.

(** An attempt that is not the last one never enters handle_failed_step,
    whether it raises or not. *)
Lemma non_final_attempt_no_recovery (s : step) (attempt : nat) :
  attempt <> (max_retries s - 1)%nat ->
  emits (fun e => level e <> 2%nat) (attempt_step env s attempt).
Proof.
  intros Hnot_last. apply Nat.eqb_neq in Hnot_last.
  unfold attempt_step. rewrite Hnot_last. unfold sleep.
  emits_auto;
    first [ simpl; discriminate
          | eapply emits_weaken; [ | apply (emits__execute_action env 0) ];
            unfold upto; intros e He; lia ].
Qed.

(** For a step handled by one of the two wrappers, whatever happens
    during its attempts, execute_step never enters handle_failed_step. *)
Lemma recovery_unreachable_from_wrappers (s : step) (st : State) :
  handled_by_wrapper s = true ->
  exists new,
    trace (snd (execute_step env s st)) = (trace st ++ new)%list /\
    recoveries new = [].
Proof.
  intros Hkind.
  assert (Hloop : forall range, emits (fun e => level e <> 2%nat) (attempts env s range)).
  { induction range as [ | attempt rest IH]; cbn [attempts].
    - apply emits_ret.
    - apply emits_bind;
        [ apply attempt_step_no_recovery, handled_by_wrapper_total, Hkind | ].
      intros returned. destruct returned; [ apply emits_ret | apply IH ]. }
  assert (Hstep : emits (fun e => level e <> 2%nat) (execute_step env s)).
  { unfold execute_step.
    emits_auto; first [ apply Hloop | simpl; discriminate ]. }
  destruct (Hstep st) as (new & Htrace & Hnew).
  exists new. split; [ exact Htrace | apply recoveries_none, Hnew ].
Qed.

End Unreachable.

(* --------------------------------------------------------------------- *)
(* The plan loop                                                         *)
(* --------------------------------------------------------------------- *)

Section PlanLoop.

Context (env : Env).

(** As long as every step so far succeeded, the loop over a longer plan
    carries on where the loop over the prefix ended. *)
Lemma run_steps_prefix (pre rest : list step) :
  forall (i : nat) (acc log1 : list log_entry) (st st1 : State),
    run_steps env i pre acc st = (Ok log1, st1) ->
    Forall succeeded log1 ->
    run_steps env i (pre ++ rest) acc st = run_steps env (i + length pre) rest log1 st1 /\
    length log1 = (length acc + length pre)%nat.
Proof.
  induction pre as [ | s pre IH]; intros i acc log1 st st1 Hrun Hlog.
  - cbn [run_steps] in Hrun. unfold ret in Hrun. inversion Hrun; subst.
    simpl. rewrite !Nat.add_0_r. split; reflexivity.
  - cbn [run_steps app] in Hrun |- *.
    unfold bind at 1 in Hrun. unfold bind at 1.
    match goal with
    | |- context [try_except ?m ?h st] => destruct (try_except m h st) as [[outcome | msg] st0]
    end; [ | discriminate ].
    destruct outcome as [j action [ | ] | j action msg].
    + destruct (IH (S i) _ _ _ _ Hrun Hlog) as [Hcontinue Hlength].
      rewrite Hcontinue. cbn [length]. rewrite Nat.add_succ_r.
      split; [ reflexivity | ].
      rewrite Hlength, length_app. simpl. lia.
    + unfold ret in Hrun. inversion Hrun; subst.
      apply Forall_app in Hlog as [_ Hlast]. inversion Hlast; subst. contradiction.
    + unfold ret in Hrun. inversion Hrun; subst.
      apply Forall_app in Hlog as [_ Hlast]. inversion Hlast; subst. contradiction.
Qed.

End PlanLoop.

(** C1. When the steps before index i all succeed and execute_step
    answers False for the step at index i, plan execution halts there:
    the log has one entry per earlier step plus the failed one (i+1
    entries), the state in which the run ends is the state in which the
    failed step ended (only the log is filed), so no later step was
    attempted, and the answer carries steps_executed = i+1, steps_total =
    the length of the plan, and the log. *)
Theorem plan_halts_at_first_failure
    (env : Env) (pre : list step) (s : step) (post : list step)
    (log1 : list log_entry) (st st1 st2 : State) :
  run_steps env 1 pre [] st = (Ok log1, st1) ->
  Forall succeeded log1 ->
  execute_step env s st1 = (Ok false, st2) ->
  let i := length pre in
  let failed := LogResult (S i) (get_or s "action" (VStr "unknown")) false in
  exists resp,
    execute_automation env (pre ++ s :: post) st
    = (Ok resp, set_execution_logs (execution_logs st2 ++ log resp) st2) /\
    log resp = (log1 ++ [failed])%list /\
    length (log resp) = S i /\
    steps_executed resp = S i /\
    steps_total resp = (S i + length post)%nat.
Proof.
  intros Hpre Hlog Hfail i failed.
  destruct (run_steps_prefix env pre (s :: post) 1 [] log1 st st1 Hpre Hlog)
    as [Hcontinue Hlength].
  unfold execute_automation. unfold bind at 1. rewrite Hcontinue.
  cbn [run_steps]. unfold bind at 1, try_except at 1, bind at 1.
  rewrite Hfail. unfold ret at 1. cbn iota beta.
  unfold ret at 1. unfold bind, modify, ret.
  exists (mkResponse true (length (log1 ++ [failed])) (length (pre ++ s :: post))
                     (log1 ++ [failed])).
  cbn [log steps_executed steps_total].
  rewrite !length_app, Hlength. cbn [length].
  split; [ | split; [ | split; [ | split ] ] ]; try reflexivity; try lia.
Qed.

Lemma plan_halts_at_first_failure_witness :
  exists resp st',
    execute_automation calm [step_A; step_B; step_C] init = (Ok resp, st') /\
    length (log resp) = 2%nat /\
    steps_executed resp = 2%nat /\
    steps_total resp = 3%nat.
Proof.
  set (r := run_steps calm 1 [step_A] [] init).
  set (log1 := match fst r with Ok l => l | Raise _ => [] end).
  set (e := execute_step calm step_B (snd r)).
  destruct (plan_halts_at_first_failure calm [step_A] step_B [step_C]
              log1 init (snd r) (snd e))
    as (resp & Hrun & _ & Hlength & Hexecuted & Htotal).
  - vm_compute. reflexivity.
  - vm_compute. repeat constructor.
  - vm_compute. reflexivity.
  - exists resp. eexists. split; [ exact Hrun | ].
    split; [ exact Hlength | ]. split; [ exact Hexecuted | exact Htotal ].
Defined.

(* --------------------------------------------------------------------- *)
(* Stopping a recording                                                  *)
(* --------------------------------------------------------------------- *)

Section StopRecording.

Context (env : Env).

Lemma stop_if_running_run (l : option nat) (st : State) :
  stop_if_running l st = (Ok tt, stopped l st).
Proof.
  unfold stop_if_running, stopped. destruct l as [id | ]; [ | reflexivity ].
  unfold bind, gets. destruct (bool_decide (id ∈ running st)); reflexivity.
Qed.

Lemma stopped_recorder (l : option nat) (st : State) :
  recorder (stopped l st) = recorder st.
Proof.
  unfold stopped. destruct l as [id | ]; [ | reflexivity ].
  destruct (bool_decide (id ∈ running st)); reflexivity.
Qed.

Lemma stopped_files (l : option nat) (st : State) :
  files (stopped l st) = files st.
Proof.
  unfold stopped. destruct l as [id | ]; [ | reflexivity ].
  destruct (bool_decide (id ∈ running st)); reflexivity.
Qed.

(** When the directory and the file can be written, _save_workflow
    writes the workflow, whatever the buffer holds, and resets the
    recorder. *)
Lemma _save_workflow_ok (st : State) (name : string) :
  workflow_name (recorder st) = VStr name ->
  (forall t, raises env t EMakedirs = None) ->
  (forall t p, raises env t (EOpenWrite p) = None) ->
  exists (t : list event) (created_at : string) (duration : Q) (st' : State),
    let filename := workflow_filename name (datestamp env t) in
    let buffer := recorded_actions (recorder st) in
    _save_workflow env st = (Ok (Some filename), st') /\
    files st'
    = <[ filename := FWorkflow (mkWorkflow name created_at duration
                                           (length buffer) buffer) ]> (files st) /\
    recorder st'
    = mkRecorder false VNone None []
                 (mouse_listener (recorder st)) (keyboard_listener (recorder st)) true.
Proof.
  intros Hname Hmkdir Hopen.
  unfold _save_workflow, try_except.
  unfold bind at 1, call at 1. rewrite Hmkdir. cbn iota beta zeta.
  unfold bind at 1, now_strftime at 1. cbn [trace set_trace].
  unfold bind at 1, gets at 1. cbn [recorder set_trace]. rewrite Hname.
  unfold bind at 1, now_isoformat at 1. cbn [trace set_trace].
  destruct (start_time (recorder st)) as [t0 | ]; [ destruct (Qeq_bool t0 0) | ];
    unfold bind, ret, time_time, call, modify, _reset_state, update_recorder;
    cbn [trace set_trace]; rewrite Hopen; cbn;
    do 4 eexists; (split; [ reflexivity | split; reflexivity ]).
Qed.

End StopRecording.

(** C7 (the code at the failing input, and at every other buffer). When
    the workflows directory and the file can be written, stop_recording
    on an armed recorder writes the workflow (name, creation time,
    duration, event count and the events in order) to
    workflows/<sanitized name>_<timestamp>.json, clears the recorder, and
    returns that file name.  This holds for every buffer: with an empty
    buffer a workflow of zero events is persisted and its file name is
    returned, where the claim expects an indication that nothing was
    recorded. *)
Theorem stop_recording_persists_any_buffer (env : Env) (st : State) (name : string) :
  recording (recorder st) = true ->
  workflow_name (recorder st) = VStr name ->
  (forall t, raises env t EMakedirs = None) ->
  (forall t p, raises env t (EOpenWrite p) = None) ->
  exists (t : list event) (created_at : string) (duration : Q) (st' : State),
    let filename := workflow_filename name (datestamp env t) in
    let buffer := recorded_actions (recorder st) in
    stop_recording env st = (Ok (Some filename), st') /\
    files st' !! filename
    = Some (FWorkflow (mkWorkflow name created_at duration (length buffer) buffer)) /\
    recorder st' = mkRecorder false VNone None [] None None true /\
    (buffer = [] ->
     files st' !! filename = Some (FWorkflow (mkWorkflow name created_at duration 0 []))).
Proof.
  intros Harmed Hname Hmkdir Hopen.
  unfold stop_recording.
  unfold bind at 1, gets at 1. rewrite Harmed. cbn [negb].
  unfold bind at 1, update_recorder at 1, modify at 1.
  unfold try_except at 1.
  unfold bind at 1, gets at 1.
  unfold bind at 1. rewrite stop_if_running_run.
  unfold bind at 1. rewrite stop_if_running_run.
  unfold bind at 1, update_recorder at 1, modify at 1.
  match goal with
  | |- context [bind (_save_workflow env) _ ?st3] =>
      destruct (_save_workflow_ok env st3 name) as
        (t & created_at & duration & st' & Hsave & Hfiles & Hrecorder);
      [ cbn [recorder set_recorder]; rewrite !stopped_recorder; cbn; exact Hname
      | exact Hmkdir | exact Hopen | ]
  end.
  cbv zeta in Hsave.
  exists t, created_at, duration, st'. cbv zeta.
  unfold bind at 1. rewrite Hsave. unfold ret.
  split; [ reflexivity | ].
  cbn [recorder set_recorder workflow_name recorded_actions with_keyboard_listener
       with_mouse_listener mouse_listener keyboard_listener] in Hfiles, Hrecorder.
  rewrite !stopped_recorder in Hfiles. rewrite ?stopped_recorder in Hrecorder.
  cbn in Hfiles, Hrecorder.
  assert (Hlookup : files st' !! workflow_filename name (datestamp env t)
                    = Some (FWorkflow (mkWorkflow name created_at duration
                              (length (recorded_actions (recorder st)))
                              (recorded_actions (recorder st))))).
  { rewrite Hfiles. apply lookup_insert_eq. }
  split; [ exact Hlookup | ]. split; [ exact Hrecorder | ].
  intros Hempty. rewrite Hlookup, Hempty. reflexivity.
Qed.

Lemma stop_recording_persists_any_buffer_witness :
  (recorded_actions (recorder armed_empty) = [] /\
   exists (created_at : string) (duration : Q) (st' : State),
     stop_recording calm armed_empty
     = (Ok (Some "workflows/demo_20240101_120000.json"), st') /\
     files st' !! "workflows/demo_20240101_120000.json"
     = Some (FWorkflow (mkWorkflow "demo" created_at duration 0 []))) /\
  (exists (created_at : string) (duration : Q) (st' : State),
     stop_recording calm armed_clicked
     = (Ok (Some "workflows/demo_20240101_120000.json"), st') /\
     files st' !! "workflows/demo_20240101_120000.json"
     = Some (FWorkflow (mkWorkflow "demo" created_at duration 1
                                   [mouse_click 10 20 "left" (100 - 100)]))).
Proof.
  split.
  - split; [ vm_compute; reflexivity | ].
    destruct (stop_recording_persists_any_buffer calm armed_empty "demo")
      as (t & created_at & duration & st' & Hstop & _ & _ & Hempty).
    + vm_compute. reflexivity.
    + vm_compute. reflexivity.
    + intros t. reflexivity.
    + intros t p. reflexivity.
    + exists created_at, duration, st'. split.
      * exact Hstop.
      * apply Hempty. vm_compute. reflexivity.
  - destruct (stop_recording_persists_any_buffer calm armed_clicked "demo")
      as (t & created_at & duration & st' & Hstop & Hfile & _).
    + vm_compute. reflexivity.
    + vm_compute. reflexivity.
    + intros t. reflexivity.
    + intros t p. reflexivity.
    + exists created_at, duration, st'. split.
      * exact Hstop.
      * exact Hfile.
Defined.

(* --------------------------------------------------------------------- *)
(* Starting a recording while one is armed                               *)
(* --------------------------------------------------------------------- *)

(* set_solver clears hypotheses by name; the names need not exist. *)
#[local] Set Warnings "-clear-no-such-hyp".

Section StartRecording.

Context (env : Env).

Lemma stopped_running (l : option nat) (st : State) :
  running (stopped l st) ⊆ running st /\
  (forall id, l = Some id -> id ∉ running (stopped l st)).
Proof.
  unfold stopped. destruct l as [id | ].
  - destruct (bool_decide (id ∈ running st)) eqn:Halive.
    + cbn. split; [ set_solver | ].
      intros id' Hid. inversion Hid; subst. set_solver.
    + apply bool_decide_eq_false in Halive. split; [ set_solver | ].
      intros id' Hid. inversion Hid; subst. exact Halive.
  - split; [ set_solver | discriminate ].
Qed.

Lemma stopped_next_listener (l : option nat) (st : State) :
  next_listener (stopped l st) = next_listener st.
Proof.
  unfold stopped. destruct l as [id | ]; [ | reflexivity ].
  destruct (bool_decide (id ∈ running st)); reflexivity.
Qed.

Lemma stopped_trace (l : option nat) (st : State) :
  exists mid, trace (stopped l st) = (trace st ++ mid)%list /\
              Forall (fun e => arming e = false) mid.
Proof.
  unfold stopped. destruct l as [id | ].
  - destruct (bool_decide (id ∈ running st)).
    + exists [EListenerStop id]. split; [ reflexivity | repeat constructor ].
    + exists []. rewrite app_nil_r. split; [ reflexivity | constructor ].
  - exists []. rewrite app_nil_r. split; [ reflexivity | constructor ].
Qed.

Lemma emits__save_workflow_no_arming :
  emits (fun e => arming e = false) (_save_workflow env).
Proof. unfold _save_workflow, _reset_state. emits_auto; reflexivity. Qed.

(** _save_workflow never raises and leaves the listeners alone. *)
Lemma _save_workflow_frame (st : State) :
  exists r st',
    _save_workflow env st = (Ok r, st') /\
    running st' = running st /\
    next_listener st' = next_listener st /\
    mouse_listener (recorder st') = mouse_listener (recorder st) /\
    keyboard_listener (recorder st') = keyboard_listener (recorder st) /\
    (recording (recorder st) = false -> recording (recorder st') = false).
Proof.
  unfold _save_workflow, try_except, bind, call, now_strftime, now_isoformat, time_time,
    gets, modify, ret, raise, _reset_state, update_recorder.
  cbn [trace set_trace recorder].
  repeat match goal with
         | |- context [match raises env ?t ?e with _ => _ end] =>
             destruct (raises env t e); cbn [trace set_trace recorder]
         | |- context [match workflow_name ?r with _ => _ end] =>
             destruct (workflow_name r)
         | |- context [match start_time ?r with _ => _ end] =>
             destruct (start_time r)
         | |- context [if Qeq_bool ?a ?b then _ else _] =>
             destruct (Qeq_bool a b)
         end;
    cbn; do 2 eexists; (split; [ reflexivity | ]); repeat split; auto.
Qed.

(** Stopping an armed recorder: nothing raises, the listeners it held
    are no longer running, none is armed, and no handle is allocated. *)
Lemma stop_recording_armed (st : State) :
  recording (recorder st) = true ->
  exists r st1 mid,
    stop_recording env st = (Ok r, st1) /\
    trace st1 = (trace st ++ mid)%list /\
    Forall (fun e => arming e = false) mid /\
    running st1 ⊆ running st /\
    (forall id, holds_listener (recorder st) id -> id ∉ running st1) /\
    next_listener st1 = next_listener st /\
    recording (recorder st1) = false /\
    mouse_listener (recorder st1) = None /\
    keyboard_listener (recorder st1) = None.
Proof.
  intros Harmed.
  unfold stop_recording.
  unfold bind at 1, gets at 1. rewrite Harmed. cbn [negb].
  unfold bind at 1, update_recorder at 1, modify at 1.
  unfold try_except at 1.
  unfold bind at 1, gets at 1.
  unfold bind at 1. rewrite stop_if_running_run.
  unfold bind at 1. rewrite stop_if_running_run.
  unfold bind at 1, update_recorder at 1, modify at 1.
  cbn [recorder set_recorder mouse_listener keyboard_listener with_stop_event
       with_recording].
  set (st_a := set_recorder (with_stop_event true (with_recording false (recorder st))) st).
  set (st_b := stopped (mouse_listener (recorder st)) st_a).
  set (st_c := stopped (keyboard_listener (recorder st)) st_b).
  set (st_d := set_recorder _ st_c).
  destruct (_save_workflow_frame st_d)
    as (r & st1 & Hsave & Hrunning & Hnext & Hmouse & Hkeyboard & Hflag).
  destruct (emits__save_workflow_no_arming st_d) as (mid3 & Htrace3 & Hmid3).
  rewrite Hsave in Htrace3; simpl in Htrace3.
  destruct (stopped_trace (mouse_listener (recorder st)) st_a) as (mid1 & Htrace1 & Hmid1).
  destruct (stopped_trace (keyboard_listener (recorder st)) st_b) as (mid2 & Htrace2 & Hmid2).
  destruct (stopped_running (mouse_listener (recorder st)) st_a) as [Hsub1 Hout1].
  destruct (stopped_running (keyboard_listener (recorder st)) st_b) as [Hsub2 Hout2].
  fold st_b in Htrace1, Hsub1, Hout1. fold st_c in Htrace2, Hsub2, Hout2.
  unfold bind at 1. rewrite Hsave.
  exists (match r with Some f => Some f | None => None end), st1, (mid1 ++ mid2 ++ mid3)%list.
  split; [ destruct r; reflexivity | ].
  split.
  { rewrite Htrace3. unfold st_d; cbn [trace set_recorder].
    rewrite Htrace2, Htrace1. unfold st_a; cbn [trace set_recorder].
    rewrite <- !app_assoc. reflexivity. }
  split; [ rewrite !Forall_app; auto | ].
  assert (Hrun : running st1 = running st_c) by (rewrite Hrunning; reflexivity).
  split; [ rewrite Hrun; unfold st_a in Hsub1; cbn in Hsub1; set_solver | ].
  split.
  { intros id [Hid | Hid]; rewrite Hrun.
    - specialize (Hout1 id Hid). set_solver.
    - exact (Hout2 id Hid). }
  split.
  { rewrite Hnext. unfold st_d, st_c, st_b, st_a; cbn [next_listener set_recorder].
    rewrite !stopped_next_listener. reflexivity. }
  split.
  { apply Hflag. unfold st_d, st_c, st_b; cbn [recorder set_recorder recording
      with_keyboard_listener with_mouse_listener].
    rewrite !stopped_recorder. reflexivity. }
  split; [ rewrite Hmouse | rewrite Hkeyboard ]; reflexivity.
Qed.

(** Arming: the events are listener creations and starts only; at most
    the two fresh handles start running; the buffer, the start time and
    the name are left as start_recording has just set them; the answer
    is the recording flag. *)
Lemma arm_listeners_run (st : State) :
  let n := next_listener st in
  exists b st' arm,
    arm_listeners env st = (Ok b, st') /\
    trace st' = (trace st ++ arm)%list /\
    Forall (fun e => arming e = true) arm /\
    running st' ⊆ running st ∪ {[ n; S n ]} /\
    recorded_actions (recorder st') = recorded_actions (recorder st) /\
    start_time (recorder st') = start_time (recorder st) /\
    workflow_name (recorder st') = workflow_name (recorder st) /\
    recording (recorder st') = (recording (recorder st) && b) /\
    (b = true ->
     mouse_listener (recorder st') = Some n /\
     keyboard_listener (recorder st') = Some (S n) /\
     running st' = running st ∪ {[ n; S n ]}).
Proof.
  intros n. subst n.
  unfold arm_listeners, try_except, new_listener, start_listener, update_recorder,
    bind, call, gets, modify, ret.
  cbv beta iota zeta.
  cbn [trace set_trace set_next_listener next_listener recorder set_recorder].
  repeat match goal with
         | |- context [match raises env ?t ?e with _ => _ end] =>
             destruct (raises env t e);
             cbv beta iota zeta;
             cbn [trace set_trace set_next_listener next_listener recorder set_recorder
                  set_running running]
         end;
    cbn; do 3 eexists;
    (split; [ reflexivity | ]);
    (split; [ rewrite <- ?app_assoc; reflexivity | ]);
    (split; [ repeat constructor | ]);
    (split; [ set_solver | ]);
    rewrite ?andb_false_r, ?andb_true_r;
    repeat split; try reflexivity; try discriminate; try set_solver.
Qed.

End StartRecording.

(* --------------------------------------------------------------------- *)
(* Listener handles stay allocated                                       *)
(* --------------------------------------------------------------------- *)

Lemma handles_allocated_init : handles_allocated init.
Proof.
  intros id [Hin | [Hid | Hid]].
  - apply not_elem_of_empty in Hin. destruct Hin.
  - discriminate.
  - discriminate.
Qed.

Section Handles.

Context (env : Env).

Lemma stop_recording_handles (st : State) :
  handles_allocated st -> handles_allocated (snd (stop_recording env st)).
Proof.
  intros Hst. destruct (recording (recorder st)) eqn:Hflag.
  - destruct (stop_recording_armed env st Hflag)
      as (r & st1 & mid & Hstop & _ & _ & Hsub & _ & Hnext & _ & Hmouse & Hkeyboard).
    rewrite Hstop. cbn [snd].
    intros id [Hin | [Hid | Hid]].
    + rewrite Hnext. apply Hst. left. apply Hsub, Hin.
    + rewrite Hmouse in Hid. discriminate.
    + rewrite Hkeyboard in Hid. discriminate.
  - unfold stop_recording, bind, gets. rewrite Hflag. exact Hst.
Qed.

Lemma arm_listeners_handles (st : State) :
  handles_allocated st -> handles_allocated (snd (arm_listeners env st)).
Proof.
  intros Hst.
  unfold arm_listeners, try_except, new_listener, start_listener, update_recorder,
    bind, call, gets, modify, ret.
  cbv beta iota zeta.
  cbn [trace set_trace set_next_listener next_listener recorder set_recorder].
  repeat match goal with
         | |- context [match raises env ?t ?e with _ => _ end] =>
             destruct (raises env t e);
             cbv beta iota zeta;
             cbn [trace set_trace set_next_listener next_listener recorder set_recorder
                  set_running running]
         end;
    cbn [snd]; unfold handles_allocated, holds_listener;
    cbn [running recorder next_listener set_running set_trace set_next_listener
         set_recorder mouse_listener keyboard_listener with_recording
         with_mouse_listener with_keyboard_listener];
    intros id Hid;
    repeat match goal with
           | H : _ \/ _ |- _ => destruct H
           | H : _ ∈ _ ∪ _ |- _ => apply elem_of_union in H
           | H : _ ∈ {[ _ ]} |- _ => apply elem_of_singleton in H
           | H : Some _ = Some _ |- _ => inversion H; clear H
           end;
    subst; try lia;
    match goal with
    | H : ?x ∈ running st |- _ =>
        assert (x < next_listener st)%nat by (apply Hst; left; exact H); lia
    | H : mouse_listener (recorder st) = Some ?x |- _ =>
        assert (x < next_listener st)%nat by (apply Hst; right; left; exact H); lia
    | H : keyboard_listener (recorder st) = Some ?x |- _ =>
        assert (x < next_listener st)%nat by (apply Hst; right; right; exact H); lia
    end.
Qed.

Lemma start_recording_handles (name : value) (st : State) :
  handles_allocated st -> handles_allocated (snd (start_recording env name st)).
Proof.
  intros Hst.
  assert (Hprepared :
            forall st0 now, handles_allocated st0 ->
              handles_allocated
                (set_recorder
                   (mkRecorder true name (Some now) []
                               (mouse_listener (recorder st0))
                               (keyboard_listener (recorder st0)) false)
                   (set_trace (trace st0 ++ [ETime]) st0))).
  { intros st0 now Hst0 id Hid. apply Hst0. exact Hid. }
  unfold start_recording.
  unfold bind at 1, gets at 1.
  destruct (recording (recorder st)) eqn:Hflag.
  - pose proof (stop_recording_handles st Hst) as Hstopped.
    destruct (stop_recording_armed env st Hflag) as (r & st1 & mid & Hstop & _).
    rewrite Hstop in Hstopped. cbn [snd] in Hstopped.
    unfold bind at 1. unfold bind at 1. rewrite Hstop.
    unfold sleep, record. unfold modify at 1.
    unfold bind at 1, time_time at 1.
    unfold bind at 1, update_recorder at 1, modify at 1.
    apply arm_listeners_handles.
    cbn [trace set_trace recorder set_recorder].
    apply (Hprepared (set_trace (trace st1 ++ [ESleep 1]) st1)).
    intros id Hid. apply Hstopped. exact Hid.
  - unfold bind at 1. unfold ret at 1.
    unfold bind at 1, time_time at 1.
    unfold bind at 1, update_recorder at 1, modify at 1.
    apply arm_listeners_handles.
    cbn [trace set_trace recorder set_recorder].
    apply Hprepared, Hst.
Qed.

Lemma force_stop_handles (st : State) :
  handles_allocated st -> handles_allocated (snd (force_stop st)).
Proof.
  intros Hst.
  unfold force_stop, stop_listener, _reset_state, update_recorder, record, bind, gets,
    modify, ret.
  cbv beta iota zeta.
  cbn [recorder set_recorder mouse_listener keyboard_listener with_stop_event
       with_recording].
  destruct (mouse_listener (recorder st)) as [m | ] eqn:Hmouse;
    destruct (keyboard_listener (recorder st)) as [k | ] eqn:Hkeyboard;
    cbv beta iota zeta;
    cbn [snd running recorder next_listener set_running set_trace set_recorder
         mouse_listener keyboard_listener with_mouse_listener with_keyboard_listener
         with_stop_event with_recording];
    unfold handles_allocated, holds_listener;
    cbn [snd running recorder next_listener set_running set_trace set_recorder
         mouse_listener keyboard_listener with_mouse_listener with_keyboard_listener
         with_stop_event with_recording];
    intros id [Hin | [Hid | Hid]];
    try discriminate;
    repeat match goal with
           | H : _ ∈ _ ∖ _ |- _ => apply elem_of_difference in H as [H _]
           end;
    first [ apply Hst; left; exact Hin | congruence ].
Qed.

End Handles.



(* ===================================================================== *)
(* Further properties of the plan loop and of execute_step               *)
(* ===================================================================== *)

Section PlanShape.

Context (env : Env).

(** One pass of the plan loop never raises: it produces a log line with
    the step's number and action. *)
Lemma plan_step_outcome (i : nat) (s : step) (st : State) :
  exists outcome st',
    try_except
      (bind (execute_step env s) (fun ok => ret (LogResult i (get_or s "action" (VStr "unknown")) ok)))
      (fun msg => ret (LogError i (get_or s "action" (VStr "unknown")) msg)) st
    = (Ok outcome, st') /\
    entry_index outcome = i /\
    entry_action outcome = logged_action s.
Proof.
  unfold try_except, bind, ret.
  destruct (execute_step env s st) as [[ok | msg] st']; eauto.
Qed.

Lemma run_steps_shape (steps : list step) :
  forall (i : nat) (acc : list log_entry) (st : State),
  exists (new : list log_entry) (st' : State),
    run_steps env i steps acc st = (Ok (acc ++ new)%list, st') /\
    (length new <= length steps)%nat /\
    (steps <> [] -> (1 <= length new)%nat) /\
    map entry_index new = seq i (length new) /\
    map entry_action new = map logged_action (take (length new) steps) /\
    (forall k e, new !! k = Some e -> (S k < length new)%nat -> succeeded e) /\
    (forall e, last new = Some e -> (length new < length steps)%nat -> ~ succeeded e).
Proof.
  induction steps as [ | s rest IH]; intros i acc st.
  - exists [], st. cbn [run_steps]. unfold ret. rewrite app_nil_r.
    split; [ reflexivity | ]. split; [ simpl; lia | ].
    split; [ congruence | ]. split; [ reflexivity | ]. split; [ reflexivity | ].
    split; [ intros k e Hk; discriminate | intros e He; discriminate ].
  - cbn [run_steps]. unfold bind at 1.
    destruct (plan_step_outcome i s st) as (outcome & st1 & Hstep & Hindex & Haction).
    rewrite Hstep.
    assert (Hstop : (length [outcome] <= length (s :: rest))%nat /\
              (s :: rest <> [] -> (1 <= length [outcome])%nat) /\
              map entry_index [outcome] = seq i (length [outcome]) /\
              map entry_action [outcome]
              = map logged_action (take (length [outcome]) (s :: rest)) /\
              (forall k e, [outcome] !! k = Some e -> (S k < length [outcome])%nat ->
                           succeeded e)).
    { simpl. rewrite Hindex, Haction.
      split; [ lia | ]. split; [ lia | ]. split; [ reflexivity | ].
      split; [ reflexivity | ]. intros k e _ Hk. lia. }
    destruct outcome as [j action [ | ] | j action msg].
    + destruct (IH (S i) (acc ++ [LogResult j action true])%list st1)
        as (new & st' & Hrun & Hlen & Hone & Hidx & Hact & Hinit & Hlast).
      exists (LogResult j action true :: new), st'.
      split; [ rewrite Hrun, <- app_assoc; reflexivity | ].
      split; [ simpl; lia | ]. split; [ simpl; lia | ].
      split; [ simpl in *; rewrite Hindex, Hidx; reflexivity | ].
      split; [ simpl in *; rewrite Haction, Hact; reflexivity | ].
      split.
      * intros k e Hk Hbound. destruct k as [ | k]; simpl in Hk.
        -- inversion Hk; subst. exact I.
        -- apply (Hinit k e Hk). simpl in Hbound. lia.
      * intros e He Hbound. destruct new as [ | e0 new'].
        -- simpl in Hbound. destruct rest; [ simpl in Hbound; lia | ].
           specialize (Hone ltac:(discriminate)). simpl in Hone. lia.
        -- apply Hlast; [ exact He | simpl in *; lia ].
    + exists [LogResult j action false], st1. unfold ret.
      destruct Hstop as (H1 & H2 & H3 & H4 & H5).
      repeat (split; [ assumption || reflexivity | ]).
      intros e He _. inversion He; subst. simpl. tauto.
    + exists [LogError j action msg], st1. unfold ret.
      destruct Hstop as (H1 & H2 & H3 & H4 & H5).
      repeat (split; [ assumption || reflexivity | ]).
      intros e He _. inversion He; subst. simpl. tauto.
Qed.

End PlanShape.

(** X1. Whatever the steps of a generated plan (which is never empty)
    do, execute_automation answers, without raising, with success =
    True, also when a step failed; steps_total is the length of the plan
    and steps_executed the length of the log, which is at least 1 and at
    most steps_total.  The log lines are numbered 1, 2, ... and carry
    the actions of the steps in plan order; every line but the last
    reports a success, and when fewer steps were executed than planned
    the last line reports a failure or an error. *)
Theorem execute_automation_log_shape (env : Env) (steps : list step) (st : State) :
  steps <> [] ->
  exists (resp : response) (st' : State),
    execute_automation env steps st = (Ok resp, st') /\
    success resp = true /\
    steps_total resp = length steps /\
    steps_executed resp = length (log resp) /\
    (1 <= length (log resp) <= length steps)%nat /\
    map entry_index (log resp) = seq 1 (length (log resp)) /\
    map entry_action (log resp) = map logged_action (take (length (log resp)) steps) /\
    (forall k e, log resp !! k = Some e -> (S k < length (log resp))%nat -> succeeded e) /\
    (forall e, last (log resp) = Some e -> (length (log resp) < length steps)%nat ->
               ~ succeeded e).
Proof.
  intros Hplan.
  destruct (run_steps_shape env steps 1 [] st)
    as (new & st1 & Hrun & Hlen & Hone & Hidx & Hact & Hinit & Hlast).
  specialize (Hone Hplan).
  unfold execute_automation, bind. rewrite Hrun. cbn [app].
  unfold modify, ret.
  eexists. eexists. split; [ reflexivity | ]. cbn [success steps_total steps_executed log].
  split; [ reflexivity | ]. split; [ reflexivity | ]. split; [ reflexivity | ].
  split; [ lia | ]. split; [ exact Hidx | ]. split; [ exact Hact | ].
  split; [ exact Hinit | exact Hlast ].
Qed.

Lemma execute_automation_log_shape_witness :
  exists (resp : response) (st' : State),
    execute_automation calm [step_A; step_B; step_C] init = (Ok resp, st') /\
    success resp = true /\
    (1 <= length (log resp) <= 3)%nat /\
    map entry_index (log resp) = seq 1 (length (log resp)).
Proof.
  destruct (execute_automation_log_shape calm [step_A; step_B; step_C] init)
    as (resp & st' & Hrun & Hsuccess & _ & _ & Hlength & Hindex & _).
  - discriminate.
  - exists resp, st'. split; [ exact Hrun | ]. split; [ exact Hsuccess | ].
    split; [ exact Hlength | exact Hindex ].
Defined.

(** X2. When the steps before index i all succeed and execute_step
    raises for the step at index i (the memory file cannot be written,
    or recovery itself raised), the loop catches the exception, writes
    an error line with the message for that step and halts: no later
    step is run, and the answer still has success = True. *)
Theorem plan_halts_at_first_exception (env : Env) (pre : list step) (s : step)
    (post : list step) (log1 : list log_entry) (st st1 st2 : State) (msg : string) :
  run_steps env 1 pre [] st = (Ok log1, st1) ->
  Forall succeeded log1 ->
  execute_step env s st1 = (Raise msg, st2) ->
  let line := LogError (S (length pre)) (logged_action s) msg in
  execute_automation env (pre ++ s :: post) st
  = (Ok (mkResponse true (S (length pre)) (length pre + S (length post))
                    (log1 ++ [line])),
     set_execution_logs (execution_logs st2 ++ log1 ++ [line]) st2).
Proof.
  intros Hpre Hlog Hraise line.
  destruct (run_steps_prefix env pre (s :: post) 1 [] log1 st st1 Hpre Hlog)
    as [Hcontinue Hlength].
  unfold execute_automation. unfold bind at 1. rewrite Hcontinue.
  cbn [run_steps]. unfold bind at 1, try_except at 1, bind at 1.
  rewrite Hraise. unfold ret at 1. cbn iota beta.
  unfold ret at 1. unfold bind, modify, ret.
  rewrite !length_app, Hlength. cbn [length].
  replace (0 + length pre + 1)%nat with (S (length pre)) by lia.
  reflexivity.
Qed.

Lemma plan_halts_at_first_exception_witness :
  exists st',
    execute_automation failing_memory [step_A; step_B] init
    = (Ok (mkResponse true 1 2 [LogError 1 (logged_action step_A) "disk full"]), st').
Proof.
  eexists.
  apply (plan_halts_at_first_exception failing_memory [] step_A [step_B] [] init init
           (snd (execute_step failing_memory step_A init)) "disk full").
  - reflexivity.
  - constructor.
  - vm_compute. reflexivity.
Defined.

Section UnknownAction.

Context (env : Env).

Lemma _execute_action_unknown (s : step) (st : State) :
  action_in s known_actions = false ->
  _execute_action env s st = (Ok false, st).
Proof.
  unfold action_in, known_actions. cbn [existsb]. intros Hunknown.
  repeat (apply orb_false_elim in Hunknown as [? Hunknown]).
  unfold _execute_action, action_in. cbn [existsb].
  repeat match goal with
         | H : action_is s _ = false |- _ => rewrite H; clear H
         end.
  reflexivity.
Qed.

Lemma attempts_unknown (s : step) (range : list nat) :
  action_in s known_actions = false ->
  forall st, exists st', attempts env s range st = (Ok false, st').
Proof.
  intros Hunknown. induction range as [ | attempt rest IH]; intros st.
  - exists st. reflexivity.
  - cbn [attempts]. unfold bind at 1, attempt_step, try_except, bind at 1.
    destruct (Nat.ltb 0 attempt).
    + unfold sleep, record, modify, bind at 1. unfold bind at 1.
      rewrite _execute_action_unknown by exact Hunknown. unfold ret at 1.
      apply IH.
    + unfold ret at 1. unfold record, modify, bind at 1. unfold bind at 1.
      rewrite _execute_action_unknown by exact Hunknown. unfold ret at 1.
      apply IH.
Qed.

(** execute_step up to its loop: the step is announced and saved to
    memory; if that raises, so does execute_step. *)
Lemma execute_step_saves_first (s : step) (st : State) :
  execute_step env s st
  = match raises env (trace st ++ [EnterExecuteStep s]) (ESaveStep s) with
    | Some msg => (Raise msg, after st [EnterExecuteStep s; ESaveStep s])
    | None => attempts env s (seq 0 (max_retries s))
                       (after st [EnterExecuteStep s; ESaveStep s])
    end.
Proof.
  unfold execute_step.
  unfold bind at 1, record at 1, modify at 1.
  unfold bind at 1, call at 1. cbn [trace set_trace].
  unfold after, set_trace; cbn [trace files running next_listener recorder
    selenium_active execution_logs api_key].
  rewrite <- !app_assoc. cbn [app].
  destruct (raises env (trace st ++ [EnterExecuteStep s]) (ESaveStep s)); reflexivity.
Qed.

End UnknownAction.

(** X3. A step whose action is not one of the names _execute_action
    dispatches on (a missing action, or a name only the planner knows,
    such as gentle_focus_application or drag_and_drop) does nothing:
    _execute_action answers False with the state untouched, and
    execute_step never answers True for it; it answers False, or raises
    when the step cannot be saved to memory. *)
Theorem unknown_action_never_succeeds (env : Env) (s : step) (st : State) :
  action_in s known_actions = false ->
  _execute_action env s st = (Ok false, st) /\
  ((exists st', execute_step env s st = (Ok false, st')) \/
   (exists msg st', execute_step env s st = (Raise msg, st') /\
                    raises env (trace st ++ [EnterExecuteStep s]) (ESaveStep s) = Some msg)).
Proof.
  intros Hunknown.
  split; [ apply _execute_action_unknown; exact Hunknown | ].
  rewrite execute_step_saves_first.
  destruct (raises env (trace st ++ [EnterExecuteStep s]) (ESaveStep s)) as [msg | ].
  - right. eexists. eexists. split; reflexivity.
  - left. apply attempts_unknown. exact Hunknown.
Qed.

Lemma unknown_action_never_succeeds_witness :
  _execute_action calm focus_step init = (Ok false, init) /\
  ((exists st', execute_step calm focus_step init = (Ok false, st')) \/
   (exists msg st', execute_step calm focus_step init = (Raise msg, st') /\
                    raises calm (trace init ++ [EnterExecuteStep focus_step])
                           (ESaveStep focus_step) = Some msg)).
Proof.
  apply (unknown_action_never_succeeds calm focus_step init). reflexivity.
Defined.

Section AttemptOutcome.

Context (env : Env).

(** One pass of the retry loop in terms of what _execute_action does. *)
Lemma attempt_step_outcome (s : step) (attempt : nat) (st : State) :
  attempt_step env s attempt st
  = match _execute_action env s
            (after st ((if Nat.ltb 0 attempt then [ESleep 2] else [])
                       ++ [EnterExecuteAction attempt s])) with
    | (Ok true, st2) => (Ok true, after st2 [ESleep (1 # 2)])
    | (Ok false, st2) => (Ok false, st2)
    | (Raise msg, st2) =>
        if Nat.eqb attempt (max_retries s - 1)
        then handle_failed_step env s msg attempt st2
        else (Ok false, st2)
    end.
Proof.
  unfold attempt_step, try_except. unfold bind at 1.
  destruct (Nat.ltb 0 attempt).
  - unfold sleep at 1, record at 1, modify at 1.
    unfold bind at 1, record at 1, modify at 1. unfold bind at 1.
    change (set_trace (trace st ++ [ESleep 2]) st) with (after st [ESleep 2]).
    change (set_trace (trace (after st [ESleep 2]) ++ [EnterExecuteAction attempt s])
                      (after st [ESleep 2]))
      with (after (after st [ESleep 2]) [EnterExecuteAction attempt s]).
    rewrite after_after.
    destruct (_execute_action env s _) as [[[ | ] | msg] st2]; try reflexivity.
    destruct (Nat.eqb attempt (max_retries s - 1)); reflexivity.
  - unfold ret at 1.
    unfold bind at 1, record at 1, modify at 1. unfold bind at 1.
    change (set_trace (trace st ++ [EnterExecuteAction attempt s]) st)
      with (after st [EnterExecuteAction attempt s]).
    cbn [app].
    destruct (_execute_action env s _) as [[[ | ] | msg] st2]; try reflexivity.
    destruct (Nat.eqb attempt (max_retries s - 1)); reflexivity.
Qed.

End AttemptOutcome.

(** X4. Once the step is saved to memory, execute_step answers True as
    soon as an attempt succeeds, after the half-second settle pause:
    at the first attempt for any step, and for a step with two attempts
    (click_element, type_text) also when the first attempt answered
    False and the second, made after the 2-second pause, answers True.
    Recovery plays no part in either case. *)
Theorem execute_step_succeeds_within_retries (env : Env) (s : step) (st : State) :
  raises env (trace st ++ [EnterExecuteStep s]) (ESaveStep s) = None ->
  let st1 := after st [EnterExecuteStep s; ESaveStep s; EnterExecuteAction 0 s] in
  (forall st2,
      _execute_action env s st1 = (Ok true, st2) ->
      execute_step env s st = (Ok true, after st2 [ESleep (1 # 2)])) /\
  (forall st2 st3,
      max_retries s = 2%nat ->
      _execute_action env s st1 = (Ok false, st2) ->
      _execute_action env s (after st2 [ESleep 2; EnterExecuteAction 1 s]) = (Ok true, st3) ->
      execute_step env s st = (Ok true, after st3 [ESleep (1 # 2)])).
Proof.
  intros Hsave st1. rewrite execute_step_saves_first, Hsave.
  assert (Hfirst : after (after st [EnterExecuteStep s; ESaveStep s])
                         ((if Nat.ltb 0 0 then [ESleep 2] else []) ++ [EnterExecuteAction 0 s])
                   = st1).
  { rewrite after_after. reflexivity. }
  split.
  - intros st2 Hok.
    assert (Hrange : exists rest, seq 0 (max_retries s) = 0%nat :: rest).
    { unfold max_retries. destruct (action_in s _); eexists; reflexivity. }
    destruct Hrange as [rest ->]. cbn [attempts]. unfold bind at 1.
    rewrite attempt_step_outcome, Hfirst, Hok. reflexivity.
  - intros st2 st3 Hretries Hfail Hok. rewrite Hretries. cbn [seq attempts].
    unfold bind at 1. rewrite attempt_step_outcome, Hfirst, Hfail.
    unfold bind at 1. rewrite attempt_step_outcome. cbn [Nat.ltb Nat.leb app].
    rewrite Hok. reflexivity.
Qed.

Lemma execute_step_succeeds_within_retries_witness :
  fst (execute_step flaky_typing type_step init) = Ok true /\
  attempt_marks (trace (snd (execute_step flaky_typing type_step init))) = [0; 1]%nat.
Proof.
  destruct (execute_step_succeeds_within_retries flaky_typing type_step init) as [_ Hsecond].
  - reflexivity.
  - rewrite (Hsecond
               (snd (_execute_action flaky_typing type_step
                       (after init [EnterExecuteStep type_step; ESaveStep type_step;
                                    EnterExecuteAction 0 type_step])))
               (snd (_execute_action flaky_typing type_step
                       (after
                          (snd (_execute_action flaky_typing type_step
                                  (after init [EnterExecuteStep type_step; ESaveStep type_step;
                                               EnterExecuteAction 0 type_step])))
                          [ESleep 2; EnterExecuteAction 1 type_step])))).
    + split; vm_compute; reflexivity.
    + vm_compute. reflexivity.
    + vm_compute. reflexivity.
    + vm_compute. reflexivity.
Defined.

(** X5. For a step with a single attempt, when that attempt raises,
    execute_step hands the step, the message and the attempt number 0
    to handle_failed_step and answers whatever recovery answers: True
    when recovery reports success, although the step's own action did
    not complete, and an exception when recovery itself raises, for
    instance while taking the error screenshot. *)
Theorem final_exception_hands_over_to_recovery (env : Env) (s : step)
    (st st2 : State) (msg : string) :
  max_retries s = 1%nat ->
  raises env (trace st ++ [EnterExecuteStep s]) (ESaveStep s) = None ->
  _execute_action env s
    (after st [EnterExecuteStep s; ESaveStep s; EnterExecuteAction 0 s]) = (Raise msg, st2) ->
  execute_step env s st = handle_failed_step env s msg 0 st2.
Proof.
  intros Hretries Hsave Hraise.
  rewrite execute_step_saves_first, Hsave, Hretries. cbn [seq attempts].
  unfold bind at 1. rewrite attempt_step_outcome, after_after. cbn [Nat.ltb Nat.leb app].
  rewrite Hraise, Hretries. cbn [Nat.sub Nat.eqb].
  destruct (handle_failed_step env s msg 0 st2) as [[[ | ] | msg'] st3]; reflexivity.
Qed.

Lemma final_exception_hands_over_to_recovery_witness :
  fst (execute_step failing_analysis analyze_step init) = Ok true /\
  recoveries (trace (snd (execute_step failing_analysis analyze_step init)))
  = [analyze_step].
Proof.
  rewrite (final_exception_hands_over_to_recovery failing_analysis analyze_step init
             (snd (_execute_action failing_analysis analyze_step
                     (after init [EnterExecuteStep analyze_step; ESaveStep analyze_step;
                                  EnterExecuteAction 0 analyze_step])))
             "analysis timeout").
  - split; vm_compute; reflexivity.
  - reflexivity.
  - reflexivity.
  - vm_compute. reflexivity.
Defined.

(* ===================================================================== *)
(* Further properties of the dispatcher                                  *)
(* ===================================================================== *)

Lemma action_is_of_get (s : step) (a name : string) :
  get s "action" = VStr a -> action_is s name = String.eqb a name.
Proof. intros H. unfold action_is. rewrite H. reflexivity. Qed.

Lemma action_is_true (s : step) (name : string) :
  action_is s name = true -> get s "action" = VStr name.
Proof.
  unfold action_is. destruct (get s "action"); try discriminate.
  intros H. apply String.eqb_eq in H. congruence.
Qed.

Lemma call_run (env : Env) (e : event) (st : State) :
  call env e st
  = (match raises env (trace st) e with Some msg => Raise msg | None => Ok tt end,
     after st [e]).
Proof. unfold call. destruct (raises env (trace st) e); reflexivity. Qed.

Lemma ask_run (env : Env) (e : event) (st : State) :
  ask env e st
  = (match raises env (trace st) e with
     | Some msg => Raise msg
     | None => Ok (succeeds env (trace st) e)
     end,
     after st [e]).
Proof. unfold ask. destruct (raises env (trace st) e); reflexivity. Qed.

Lemma screenshot_run (env : Env) (st : State) :
  screenshot env st
  = (match raises env (trace st) EScreenshot with
     | Some msg => Raise msg
     | None => Ok (screen env (trace st))
     end,
     after st [EScreenshot]).
Proof. unfold screenshot. destruct (raises env (trace st) EScreenshot); reflexivity. Qed.

Lemma record_run (e : event) (st : State) : record e st = (Ok tt, after st [e]).
Proof. reflexivity. Qed.

Lemma sleep_run (q : Q) (st : State) : sleep q st = (Ok tt, after st [ESleep q]).
Proof. reflexivity. Qed.



(** X7. _execute_web_action never raises and starts the browser on
    demand: not at all when selenium_active is already set (and the flag
    stays set), exactly once when it is not.  When that start raises the
    step answers False, nothing else is attempted and the flag stays
    unset; when it does not raise the flag is set, whatever the action
    itself then does. *)
Theorem browser_started_on_demand (env : Env) (s : step) (st : State) :
  exists (b : bool) (st' : State) (new : list event),
    _execute_web_action env s st = (Ok b, st') /\
    trace st' = (trace st ++ new)%list /\
    browser_starts new = (if selenium_active st then 0 else 1)%nat /\
    (selenium_active st = true -> selenium_active st' = true) /\
    (selenium_active st = false ->
       match raises env (trace st) EBrowserStart with
       | Some _ => b = false /\ new = [EBrowserStart] /\ selenium_active st' = false
       | None => selenium_active st' = true
       end).
Proof.
  unfold _execute_web_action, try_except. unfold bind at 1, gets at 1.
  destruct (selenium_active st) eqn:Hactive; cbn [negb].
  - unfold bind at 1, ret at 1.
    destruct (action_is s "navigate_url");
      [ | destruct (action_is s "search_google");
          [ | destruct (action_is s "click_first_result") ] ];
      unfold bind, call, ret;
      repeat match goal with
             | |- context [raises env ?t ?e] => destruct (raises env t e)
             end;
      cbn [trace set_trace selenium_active];
      eexists; eexists; eexists;
      (split; [ reflexivity | ]);
      (split; [ first [ reflexivity | symmetry; apply app_nil_r ] | ]);
      (split; [ reflexivity | ]);
      (split; [ intros _; exact Hactive | discriminate ]).
  - unfold bind at 1, bind at 1, call at 1.
    destruct (raises env (trace st) EBrowserStart) as [msg | ] eqn:Hstart.
    + unfold ret. exists false. eexists. exists [EBrowserStart].
      split; [ reflexivity | ]. split; [ reflexivity | ]. split; [ reflexivity | ].
      split; [ discriminate | ]. intros _.
      split; [ reflexivity | ]. split; [ reflexivity | exact Hactive ].
    + unfold modify at 1.
      destruct (action_is s "navigate_url");
        [ | destruct (action_is s "search_google");
            [ | destruct (action_is s "click_first_result") ] ];
        unfold bind, call, ret;
        cbn [trace set_trace selenium_active set_selenium_active];
        repeat match goal with
               | |- context [raises env ?t ?e] =>
                   lazymatch e with
                   | EBrowserStart => fail
                   | _ => destruct (raises env t e)
                   end
               end;
        cbn [trace set_trace selenium_active set_selenium_active];
        eexists; eexists; eexists;
        (split; [ reflexivity | ]);
        (split; [ rewrite <- ?app_assoc; reflexivity | ]);
        (split; [ reflexivity | ]);
        (split; [ discriminate | ]);
        intros _; reflexivity.
Qed.

Lemma browser_started_on_demand_witness :
  exists (b : bool) (st' : State),
    _execute_web_action calm navigate_step init = (Ok b, st') /\
    trace st' = [EBrowserStart; ENavigate (VStr "https://example.com")] /\
    selenium_active st' = true.
Proof.
  destruct (browser_started_on_demand calm navigate_step init)
    as (b & st' & new & Hrun & Htrace & _ & _ & Hinactive).
  exists b, st'. split; [ exact Hrun | ]. split.
  - assert (Hsnd : trace (snd (_execute_web_action calm navigate_step init)) = trace st')
      by (rewrite Hrun; reflexivity).
    rewrite <- Hsnd. reflexivity.
  - exact (Hinactive eq_refl).
Defined.

(** X8. A scrape_website step whose browser start answers True always
    closes the browser, exactly once and right after the extraction,
    also when the extraction raises; the step answers the extraction's
    flag only if neither the extraction nor the close raised.  When the
    browser start answers False, nothing is extracted or closed and the
    step answers False. *)
Theorem scrape_step_releases_browser (env : Env) (s : step) (st : State) :
  action_is s "scrape_website" = true ->
  raises env (trace st) EScraperStart = None ->
  let extract := EScraperExtract (get s "url")
                   (get_or s "description" (VStr "Extract all relevant data")) in
  (succeeds env (trace st) EScraperStart = false ->
     _execute_action env s st = (Ok false, after st [EScraperStart])) /\
  (succeeds env (trace st) EScraperStart = true ->
     exists r,
       _execute_action env s st = (r, after st [EScraperStart; extract; EScraperClose]) /\
       forall b, r = Ok b ->
         raises env (trace st ++ [EScraperStart]) extract = None /\
         raises env (trace st ++ [EScraperStart; extract]) EScraperClose = None /\
         b = succeeds env (trace st ++ [EScraperStart]) extract).
Proof.
  intros Haction Hstart extract. apply action_is_true in Haction.
  assert (Hrun : _execute_action env s st
                 = (started <- ask env EScraperStart;;
                    if negb started then ret false
                    else try_finally (ask env extract) (call env EScraperClose)) st).
  { unfold _execute_action, action_in. cbn [existsb].
    rewrite !(action_is_of_get s _ _ Haction). reflexivity. }
  rewrite Hrun.
  assert (Hask : ask env EScraperStart st
                 = (Ok (succeeds env (trace st) EScraperStart), after st [EScraperStart])).
  { unfold ask. rewrite Hstart. reflexivity. }
  split; intros Hflag; unfold bind; rewrite Hask, Hflag; cbn [negb].
  - reflexivity.
  - unfold try_finally. rewrite ask_run, call_run, !after_after, !trace_after.
    cbn [app].
    destruct (raises env (trace st ++ [EScraperStart]) extract) as [m1 | ];
      destruct (raises env (trace st ++ [EScraperStart; extract]) EScraperClose) as [m2 | ];
      eexists; (split; [ reflexivity | ]); intros b Hb; inversion Hb; subst.
    split; [ reflexivity | split; reflexivity ].
Qed.

Lemma scrape_step_releases_browser_witness :
  exists r,
    _execute_action failing_extraction scrape_step init
    = (r, after init [ EScraperStart;
                       EScraperExtract (VStr "https://example.com")
                                       (VStr "Extract all relevant data");
                       EScraperClose ]).
Proof.
  destruct (scrape_step_releases_browser failing_extraction scrape_step init)
    as [_ Hclosed]; [ reflexivity | reflexivity | ].
  destruct (Hclosed eq_refl) as (r & Hrun & _).
  exists r. exact Hrun.
Defined.

(* ===================================================================== *)
(* Further properties of error recovery                                  *)
(* ===================================================================== *)

(** X9. handle_failed_step with nothing to try: for a step that is
    neither click_desktop_coordinates nor click_element, an error
    message without "focus", "window", "timeout" or "not found" (in any
    letter case) and no API key, recovery takes the error screenshot,
    has the screen analysed and answers False without touching mouse or
    keyboard. *)
Theorem recovery_without_strategy (env : Env) (s : step) (msg : string)
    (attempt : nat) (st : State) :
  action_is s "click_desktop_coordinates" = false ->
  action_is s "click_element" = false ->
  contains "focus" (lower msg) = false ->
  contains "window" (lower msg) = false ->
  contains "timeout" (lower msg) = false ->
  contains "not found" (lower msg) = false ->
  falsy (api_key st) = true ->
  raises env (trace st ++ [EnterHandleFailedStep s msg attempt]) EScreenshot = None ->
  raises env (trace st ++ [EnterHandleFailedStep s msg attempt; EScreenshot])
         (ESaveImage "error_screenshot.png") = None ->
  handle_failed_step env s msg attempt st
  = (Ok false, after st [ EnterHandleFailedStep s msg attempt; EScreenshot;
                          ESaveImage "error_screenshot.png"; EAnalyzeScreen ]).
Proof.
  intros Hclick Helement Hfocus Hwindow Htimeout Hfound Hkey Hshot Hsave.
  unfold handle_failed_step. rewrite Hclick, Helement, Hfocus, Hwindow, Htimeout, Hfound.
  cbn [orb].
  unfold bind at 1. rewrite record_run.
  unfold bind at 1. rewrite screenshot_run, trace_after. cbn [app]. rewrite Hshot, after_after.
  unfold bind at 1. rewrite call_run, trace_after. cbn [app]. rewrite Hsave, after_after.
  unfold bind at 1. rewrite record_run, after_after.
  unfold bind at 1, ret at 1. cbn [negb app].
  unfold _ai_powered_recovery, try_except, bind, gets.
  change (api_key (after st _)) with (api_key st). rewrite Hkey. reflexivity.
Qed.

Lemma recovery_without_strategy_witness :
  handle_failed_step calm analyze_step "model overloaded" 0 init
  = (Ok false, after init [ EnterHandleFailedStep analyze_step "model overloaded" 0;
                            EScreenshot; ESaveImage "error_screenshot.png";
                            EAnalyzeScreen ]).
Proof.
  apply (recovery_without_strategy calm analyze_step "model overloaded" 0 init);
    reflexivity.
Defined.

(** X10. When the error screenshot cannot be taken or saved,
    handle_failed_step raises that exception before any strategy is
    tried. *)
Theorem recovery_preamble_failure_escapes (env : Env) (s : step) (msg : string)
    (attempt : nat) (st : State) (m : string) :
  (raises env (trace st ++ [EnterHandleFailedStep s msg attempt]) EScreenshot = Some m ->
   handle_failed_step env s msg attempt st
   = (Raise m, after st [EnterHandleFailedStep s msg attempt; EScreenshot])) /\
  (raises env (trace st ++ [EnterHandleFailedStep s msg attempt]) EScreenshot = None ->
   raises env (trace st ++ [EnterHandleFailedStep s msg attempt; EScreenshot])
          (ESaveImage "error_screenshot.png") = Some m ->
   handle_failed_step env s msg attempt st
   = (Raise m, after st [ EnterHandleFailedStep s msg attempt; EScreenshot;
                          ESaveImage "error_screenshot.png" ])).
Proof.
  split.
  - intros Hshot. unfold handle_failed_step.
    unfold bind at 1. rewrite record_run.
    unfold bind at 1. rewrite screenshot_run, trace_after. cbn [app]. rewrite Hshot, after_after.
    reflexivity.
  - intros Hshot Hsave. unfold handle_failed_step.
    unfold bind at 1. rewrite record_run.
    unfold bind at 1. rewrite screenshot_run, trace_after. cbn [app]. rewrite Hshot, after_after.
    unfold bind at 1. rewrite call_run, trace_after. cbn [app]. rewrite Hsave, after_after.
    reflexivity.
Qed.

Lemma recovery_preamble_failure_escapes_witness :
  handle_failed_step no_display analyze_step "analysis timeout" 0 init
  = (Raise "no display",
     after init [EnterHandleFailedStep analyze_step "analysis timeout" 0; EScreenshot]).
Proof.
  apply (proj1 (recovery_preamble_failure_escapes no_display analyze_step
                  "analysis timeout" 0 init "no display")).
  reflexivity.
Defined.

(** X11. Alternative-selector recovery is a placeholder: for a step
    whose target is a string (or missing) it sleeps one second and
    answers False at the first selector, without clicking or typing
    anything; for a target that is not a string it raises. *)
Theorem alternative_selectors_never_act (s : step) (st : State) :
  match get_or s "target" (VStr "") with
  | VStr _ => _recover_alternative_selectors s st = (Ok false, after st [ESleep 1])
  | _ => exists m, _recover_alternative_selectors s st = (Raise m, st)
  end.
Proof.
  unfold _recover_alternative_selectors.
  destruct (get_or s "target" (VStr "")); first [ reflexivity | eexists; reflexivity ].
Qed.

(** X12. Window-focus recovery never raises and does not look at the
    failed step or at the screen: it sends a prefix of one fixed
    sequence of keys, clicks and pauses, and answers True exactly when
    the whole sequence went through, that is when no call raised. *)
Theorem window_focus_recovery_is_blind (env : Env) (s : step) (st : State) :
  exists (b : bool) (new : list event),
    _recover_window_focus env s st = (Ok b, after st new) /\
    new `prefix_of` focus_sequence /\
    (b = true <-> new = focus_sequence).
Proof.
  unfold _recover_window_focus, try_except, focus_sequence.
  repeat (first
            [ progress (unfold bind at 1; rewrite ?after_after, ?trace_after)
            | rewrite call_run
            | rewrite sleep_run
            | match goal with
              | |- context [match raises env ?t ?e with _ => _ end] =>
                  destruct (raises env t e)
              end ];
          cbn beta iota);
    unfold ret; rewrite ?after_after; cbn [app];
    eexists; eexists; (split; [ reflexivity | ]);
    (split; [ | split; [ intros; discriminate || reflexivity
                       | intros; discriminate || reflexivity ] ]);
    repeat first [ apply prefix_cons | apply prefix_nil ]; reflexivity.
Qed.

(** X13. AI recovery counts a suggestion it cannot execute as a
    success: when an API key is set and the first suggestion of the
    model's answer has a confidence above 0.6, an approach and an action
    other than click_desktop_coordinates, type_text, press_key or
    wait_seconds (click_element, say, or no action at all), recovery
    sleeps one second, does nothing else and answers True; the other
    suggestions are not looked at. *)
Theorem ai_recovery_counts_unsupported_as_success (env : Env) (s : step) (msg : string)
    (st : State) (sg : suggestion) (rest : list suggestion) :
  falsy (api_key st) = false ->
  generate_content env (trace st) = ReplySuggestions (sg :: rest) ->
  confident sg = true ->
  is_Some (sg_approach sg) ->
  suggested sg "click_desktop_coordinates" = false ->
  suggested sg "type_text" = false ->
  suggested sg "press_key" = false ->
  suggested sg "wait_seconds" = false ->
  _ai_powered_recovery env s msg st
  = (Ok true, after st [EGenerateContent; EnterExecuteRecoveryAction sg; ESleep 1]).
Proof.
  intros Hkey Hreply Hconfident [approach Happroach] Hclick Htype Hpress Hwait.
  assert (Hgt : py_gt (default (VInt 0) (sg_confidence sg)) (6 # 10) = Ok true).
  { unfold confident in Hconfident.
    destruct (py_gt (default (VInt 0) (sg_confidence sg)) (6 # 10)) as [b | m];
      [ congruence | discriminate ]. }
  unfold _ai_powered_recovery, try_except.
  unfold bind at 1, gets at 1. rewrite Hkey.
  unfold bind at 1, gets at 1. unfold bind at 1. rewrite record_run, Hreply.
  cbn [try_suggestions]. unfold bind at 1, lift at 1. rewrite Hgt, Happroach.
  unfold _execute_recovery_action. rewrite Hclick, Htype, Hpress, Hwait.
  unfold bind at 1. unfold bind at 1. rewrite record_run, after_after.
  unfold try_except, bind, ret. rewrite sleep_run, after_after. reflexivity.
Qed.

Lemma ai_recovery_counts_unsupported_as_success_witness :
  _ai_powered_recovery suggesting_click_element click_step "element not clickable" with_key
  = (Ok true, after with_key [ EGenerateContent; EnterExecuteRecoveryAction click_submit;
                               ESleep 1 ]).
Proof.
  apply (ai_recovery_counts_unsupported_as_success suggesting_click_element click_step
           "element not clickable" with_key click_submit []);
    first [ reflexivity | eexists; reflexivity ].
Defined.

(* --------------------------------------------------------------------- *)
(* Screen change detection                                               *)
(* --------------------------------------------------------------------- *)

Lemma pixel_diff_upper (before after : image) :
  (pixel_diff before after <= 255 * Z.of_nat (length before))%Z.
Proof.
  revert after. induction before as [ | b before IH]; intros [ | a after];
    cbn [pixel_diff length]; try lia.
  specialize (IH after). unfold uint8_sub.
  pose proof (Z.mod_pos_bound (b - a) 256 ltac:(lia)). lia.
Qed.

Lemma pixel_diff_same (img : image) : pixel_diff img img = 0%Z.
Proof.
  induction img as [ | b img IH]; cbn [pixel_diff]; [ reflexivity | ].
  unfold uint8_sub. rewrite Z.sub_diag, IH. reflexivity.
Qed.

(** X14. The change percentage of two screenshots lies between 0 and
    100, so that a threshold of 100 or more is never exceeded, and it is
    0 for two identical screenshots: with any threshold that is not
    negative, and so with the default 0.1, a click that leaves the
    screen as it was does not register. *)
Theorem change_percentage_bounded (before after : image) (limit : Q) :
  (0 <= change_percentage before after)%Q /\
  (change_percentage before after <= 100)%Q /\
  ((100 <= limit)%Q -> _detect_screen_change before after limit = false) /\
  ((0 <= limit)%Q -> _detect_screen_change before before limit = false).
Proof.
  pose proof (pixel_diff_nonneg before after) as Hlow.
  pose proof (pixel_diff_upper before after) as Hhigh.
  assert (Hbounds : (0 <= change_percentage before after)%Q /\
                    (change_percentage before after <= 100)%Q).
  { unfold change_percentage.
    destruct (length before) as [ | n] eqn:Hlen.
    - simpl in Hhigh. assert (pixel_diff before after = 0%Z) as -> by lia.
      split; vm_compute; discriminate.
    - set (d := pixel_diff before after) in *.
      set (size := (Z.of_nat (S n) * 255)%Z).
      assert (Hsize : (0 < size)%Z) by (unfold size; lia).
      assert (Hq : (0 < inject_Z size)%Q) by (unfold Qlt; simpl; lia).
      split.
      + apply Qmult_le_0_compat; [ | discriminate ].
        apply Qle_shift_div_l; [ exact Hq | ].
        rewrite Qmult_0_l. unfold Qle; simpl. lia.
      + apply Qle_trans with (1 * 100)%Q; [ | discriminate ].
        apply Qmult_le_compat_r; [ | discriminate ].
        apply Qle_shift_div_r; [ exact Hq | ].
        rewrite Qmult_1_l. unfold Qle; simpl. unfold size. lia. }
  destruct Hbounds as [H0 H100].
  split; [ exact H0 | ]. split; [ exact H100 | ]. split.
  - intros Hlimit. unfold _detect_screen_change.
    destruct (Nat.eqb (length before) (length after)); [ | reflexivity ].
    unfold Qlt_bool. apply negb_false_iff. apply Qle_bool_iff.
    eapply Qle_trans; [ exact H100 | exact Hlimit ].
  - intros Hlimit. unfold _detect_screen_change. rewrite Nat.eqb_refl.
    unfold Qlt_bool. apply negb_false_iff. apply Qle_bool_iff.
    unfold change_percentage. rewrite pixel_diff_same.
    eapply Qle_trans; [ | exact Hlimit ].
    unfold Qdiv. rewrite !Qmult_0_l. discriminate.
Qed.

Lemma change_percentage_bounded_witness :
  _detect_screen_change lit_screen lit_screen threshold = false.
Proof.
  apply (change_percentage_bounded lit_screen lit_screen threshold). discriminate.
Defined.

(** X15. The difference of two screenshots is taken in uint8 arithmetic,
    which wraps around: over two screenshots of the same size, the
    summed difference in one direction and the summed difference in the
    other add up to 256 for every channel in which they differ.  A
    channel that gets brighter by d therefore counts as 256 - d, not d:
    the measure is not the absolute difference. *)
Theorem pixel_diff_wraps_around (before after : image) :
  Forall uint8 before ->
  Forall uint8 after ->
  length before = length after ->
  (pixel_diff before after + pixel_diff after before
   = 256 * Z.of_nat (differing before after))%Z.
Proof.
  intros Hbefore. revert after.
  induction Hbefore as [ | b before Hb _ IH]; intros after Hafter Hlen.
  - destruct after; [ reflexivity | discriminate ].
  - destruct after as [ | a after]; [ discriminate | ].
    inversion Hafter as [ | ? ? Ha Hrest]; subst.
    cbn [pixel_diff differing]. injection Hlen as Hlen.
    specialize (IH after Hrest Hlen).
    unfold uint8 in Hb, Ha. unfold uint8_sub.
    destruct (Z.eqb_spec b a) as [-> | Hneq].
    + rewrite Z.sub_diag. cbn [Nat.add]. change (0 mod 256)%Z with 0%Z. lia.
    + assert (Hsum : ((b - a) mod 256 + (a - b) mod 256 = 256)%Z).
      { destruct (Z_lt_ge_dec a b).
        - rewrite (Z.mod_small (b - a)) by lia.
          rewrite <- (Z_mod_plus_full (a - b) 1 256).
          rewrite Z.mod_small by lia. lia.
        - rewrite (Z.mod_small (a - b)) by lia.
          rewrite <- (Z_mod_plus_full (b - a) 1 256).
          rewrite Z.mod_small by lia. lia. }
      rewrite Nat2Z.inj_add. change (Z.of_nat 1) with 1%Z. lia.
Qed.

Lemma pixel_diff_wraps_around_witness :
  (pixel_diff [10%Z] [11%Z] + pixel_diff [11%Z] [10%Z] = 256)%Z /\
  pixel_diff [10%Z] [11%Z] = 255%Z.
Proof.
  split; [ | reflexivity ].
  apply (pixel_diff_wraps_around [10%Z] [11%Z]).
  - constructor; [ unfold uint8; lia | constructor ].
  - constructor; [ unfold uint8; lia | constructor ].
  - reflexivity.
Defined.

(* ===================================================================== *)
(* Further properties of replay                                          *)
(* ===================================================================== *)

Lemma is_input_replayed (a : RecordedEvent) : is_input (replayed a) = true.
Proof.
  destruct a as [x y button ts | x y dx dy ts | key ts]; cbn [replayed]; try reflexivity.
  destruct (Nat.eqb (String.length key) 1); reflexivity.
Qed.

Section Replay.

Context (env : Env) (speed : value).

(** One event of the loop, with the exception handler around it. *)
Lemma replay_action_run (last : Q) (a : RecordedEvent) (st : State) :
  exists (last' : Q) (new : list event),
    try_except (replay_action env speed last a) (fun _ => ret last) st
    = (Ok last', after st new) /\
    Forall replay_event new /\
    (usable_speed speed = true -> inputs new = [replayed a]) /\
    (usable_speed speed = false -> new = []).
Proof.
  unfold try_except, replay_action. unfold bind at 1, lift at 1.
  unfold usable_speed, py_div.
  destruct (as_number speed) as [q | ].
  2:{ exists last, []. rewrite after_nil. unfold ret.
      split; [ reflexivity | ]. split; [ constructor | ].
      split; [ discriminate | reflexivity ]. }
  destruct (Qeq_bool q 0).
  { exists last, []. rewrite after_nil. unfold ret.
    split; [ reflexivity | ]. split; [ constructor | ].
    split; [ discriminate | reflexivity ]. }
  cbn [negb].
  set (delay := ((timestamp_of a - last) / q)%Q).
  assert (Hcall : forall st0,
            exists last',
              (let (r, s') :=
                 (match a with
                  | mouse_click x y _ _ => call env (EClick (VInt x) (VInt y))
                  | mouse_scroll x y _ dy _ => call env (EScroll dy x y)
                  | key_press key _ =>
                      if Nat.eqb (String.length key) 1
                      then call env (EWrite key)
                      else call env (EPress (VStr (mapped_key key)))
                  end;; ret (timestamp_of a)) st0 in
               match r with
               | Ok a0 => (Ok a0, s')
               | Raise msg => ret last s'
               end) = (Ok last', after st0 [replayed a])).
  { intros st0. unfold bind.
    destruct a as [x y button ts | x y dx dy ts | key ts]; cbn [replayed];
      try destruct (Nat.eqb (String.length key) 1);
      rewrite call_run;
      match goal with
      | |- context [raises env ?t ?e] => destruct (raises env t e)
      end; eexists; reflexivity. }
  unfold bind at 1.
  destruct (Qlt_bool 0 delay) eqn:Hpositive.
  - rewrite sleep_run.
    match goal with
    | |- context [after st [ESleep ?d]] =>
        destruct (Hcall (after st [ESleep d])) as [last' Hrun];
        exists last', [ESleep d; replayed a]
    end.
    unfold bind in Hrun |- *. rewrite after_after in Hrun.
    split; [ exact Hrun | ]. split.
    + constructor; [ | constructor; [ | constructor ] ].
      * cbn [replay_event]. unfold Qlt_bool in Hpositive.
        apply negb_true_iff in Hpositive.
        assert (Hlt : (0 < delay)%Q).
        { apply Qnot_le_lt. intros Hle. apply Qle_bool_iff in Hle. congruence. }
        destruct (Qle_bool delay 2) eqn:Hcap.
        -- split; [ exact Hlt | apply Qle_bool_iff; exact Hcap ].
        -- split; [ reflexivity | discriminate ].
      * pose proof (is_input_replayed a) as Hin.
        destruct (replayed a); try discriminate; exact Hin.
    + split; [ | discriminate ]. intros _.
      unfold inputs. cbn [List.filter is_input]. rewrite is_input_replayed. reflexivity.
  - unfold ret at 1.
    destruct (Hcall st) as [last' Hrun]. exists last', [replayed a].
    unfold bind in Hrun |- *.
    split; [ exact Hrun | ]. split.
    + constructor; [ | constructor ].
      pose proof (is_input_replayed a) as Hin.
      destruct (replayed a); try discriminate; exact Hin.
    + split; [ | discriminate ]. intros _.
      unfold inputs. cbn [List.filter]. rewrite is_input_replayed. reflexivity.
Qed.

Lemma replay_actions_run (actions : list RecordedEvent) :
  forall (last : Q) (st : State),
  exists new : list event,
    replay_actions env speed last actions st = (Ok tt, after st new) /\
    Forall replay_event new /\
    (usable_speed speed = true -> inputs new = map replayed actions) /\
    (usable_speed speed = false -> new = []).
Proof.
  induction actions as [ | a rest IH]; intros last st.
  - exists []. rewrite after_nil. split; [ reflexivity | ]. split; [ constructor | ].
    split; reflexivity.
  - cbn [replay_actions]. unfold bind at 1.
    destruct (replay_action_run last a st) as (last' & new1 & Hrun & Hshape & Hin & Hnone).
    rewrite Hrun.
    destruct (IH last' (after st new1)) as (new2 & Hrest & Hshape2 & Hin2 & Hnone2).
    exists (new1 ++ new2)%list. rewrite Hrest, after_after.
    split; [ reflexivity | ]. split; [ apply Forall_app; split; assumption | ].
    split.
    + intros Husable. unfold inputs in *. rewrite List.filter_app.
      rewrite (Hin Husable), (Hin2 Husable). reflexivity.
    + intros Hnot. rewrite (Hnone Hnot), (Hnone2 Hnot). reflexivity.
Qed.

End Replay.

(** X16. Replay is best effort.  For a workflow file that holds at
    least one event, and a speed multiplier that is a number other than
    0, replay_workflow answers True whatever the input calls do (every
    one of them may raise): it pauses 2 seconds, then issues the
    recorded events as input calls in the recorded order, one call per
    event, and every pause between them is longer than 0 and at most 2
    seconds, however far apart the events were recorded.  Nothing but
    the trace changes. *)
Theorem replay_is_best_effort (env : Env) (f : string) (speed : value)
    (st : State) (w : workflow_data) :
  files st !! workflow_path f = Some (FWorkflow w) ->
  wf_actions w <> [] ->
  usable_speed speed = true ->
  exists new : list event,
    replay_workflow env (VStr f) speed st = (Ok true, after st (ESleep 2 :: new)) /\
    inputs new = map replayed (wf_actions w) /\
    Forall replay_event new.
Proof.
  intros Hfile Hactions Hspeed.
  unfold replay_workflow, try_except. unfold bind at 1, ret at 1.
  unfold bind at 1, gets at 1. rewrite Hfile.
  destruct (wf_actions w) as [ | a rest] eqn:Hw; [ congruence | ].
  unfold bind at 1. rewrite sleep_run. unfold bind at 1.
  destruct (replay_actions_run env speed (a :: rest) 0 (after st [ESleep 2]))
    as (new & Hrun & Hshape & Hin & _).
  rewrite Hrun, after_after. exists new.
  split; [ reflexivity | ]. split; [ apply Hin; exact Hspeed | exact Hshape ].
Qed.

Lemma replay_is_best_effort_witness :
  exists new : list event,
    replay_workflow no_mouse (VStr "demo.json") (VNum 1) with_demo_workflow
    = (Ok true, after with_demo_workflow (ESleep 2 :: new)) /\
    inputs new = [EClick (VInt 10) (VInt 20); EWrite "a"; EPress (VStr "enter")] /\
    Forall replay_event new.
Proof.
  apply (replay_is_best_effort no_mouse "demo.json" (VNum 1) with_demo_workflow
           demo_workflow).
  - reflexivity.
  - discriminate.
  - reflexivity.
Defined.

(** X17. With a speed multiplier of 0, or one that is not a number, the
    delay of every event cannot be computed: replay_workflow sends no
    input at all and still answers True after its 2-second pause. *)
Theorem replay_at_speed_zero_does_nothing (env : Env) (f : string) (speed : value)
    (st : State) (w : workflow_data) :
  files st !! workflow_path f = Some (FWorkflow w) ->
  wf_actions w <> [] ->
  usable_speed speed = false ->
  replay_workflow env (VStr f) speed st = (Ok true, after st [ESleep 2]).
Proof.
  intros Hfile Hactions Hspeed.
  unfold replay_workflow, try_except. unfold bind at 1, ret at 1.
  unfold bind at 1, gets at 1. rewrite Hfile.
  destruct (wf_actions w) as [ | a rest] eqn:Hw; [ congruence | ].
  unfold bind at 1. rewrite sleep_run. unfold bind at 1.
  destruct (replay_actions_run env speed (a :: rest) 0 (after st [ESleep 2]))
    as (new & Hrun & _ & _ & Hnone).
  rewrite Hrun, after_after, (Hnone Hspeed). reflexivity.
Qed.

Lemma replay_at_speed_zero_does_nothing_witness :
  replay_workflow calm (VStr "demo.json") (VInt 0) with_demo_workflow
  = (Ok true, after with_demo_workflow [ESleep 2]).
Proof.
  apply (replay_at_speed_zero_does_nothing calm "demo.json" (VInt 0) with_demo_workflow
           demo_workflow).
  - reflexivity.
  - discriminate.
  - reflexivity.
Defined.

(* ===================================================================== *)
(* Further properties of the recorder                                    *)
(* ===================================================================== *)

#[local] Set Warnings "-clear-no-such-hyp".

Section RecorderFailures.

Context (env : Env).

(** When _save_workflow answers None it has written no file and has not
    reset the recorder. *)
Lemma _save_workflow_none (st st' : State) :
  _save_workflow env st = (Ok None, st') ->
  files st' = files st /\ recorder st' = recorder st /\ running st' = running st.
Proof.
  unfold _save_workflow, try_except, bind, call, now_strftime, now_isoformat, time_time,
    gets, modify, ret, raise, _reset_state, update_recorder.
  cbn [trace set_trace recorder].
  repeat match goal with
         | |- context [match raises env ?t ?e with _ => _ end] =>
             destruct (raises env t e); cbn [trace set_trace recorder]
         | |- context [match workflow_name ?r with _ => _ end] =>
             destruct (workflow_name r)
         | |- context [match start_time ?r with _ => _ end] =>
             destruct (start_time r)
         | |- context [if Qeq_bool ?a ?b then _ else _] =>
             destruct (Qeq_bool a b)
         end;
    intros Hsave; inversion Hsave; subst; cbn; auto.
Qed.

(** stop_recording on an armed recorder, up to the attempt to save. *)
Lemma stop_recording_then_save (st : State) :
  recording (recorder st) = true ->
  let r := recorder st in
  let st_d :=
    set_recorder
      (mkRecorder false (workflow_name r) (start_time r) (recorded_actions r) None None true)
      (stopped (keyboard_listener r)
         (stopped (mouse_listener r)
            (set_recorder (with_stop_event true (with_recording false r)) st))) in
  stop_recording env st = _save_workflow env st_d.
Proof.
  intros Harmed r st_d.
  unfold stop_recording.
  unfold bind at 1, gets at 1. rewrite Harmed. cbn [negb].
  unfold bind at 1, update_recorder at 1, modify at 1.
  unfold try_except at 1.
  unfold bind at 1, gets at 1.
  unfold bind at 1. rewrite stop_if_running_run.
  unfold bind at 1. rewrite stop_if_running_run.
  unfold bind at 1, update_recorder at 1, modify at 1.
  cbn [recorder set_recorder mouse_listener keyboard_listener with_stop_event
       with_recording].
  rewrite !stopped_recorder.
  cbn [recorder set_recorder mouse_listener keyboard_listener with_stop_event
       with_recording with_keyboard_listener with_mouse_listener workflow_name
       start_time recorded_actions stop_event recording].
  unfold bind.
  match goal with
  | |- context [_save_workflow env (set_recorder ?r0 ?s0)] =>
      change (set_recorder r0 s0) with st_d
  end.
  destruct (_save_workflow_frame env st_d) as (res & st1 & Hsave & _).
  rewrite Hsave. destruct res; reflexivity.
Qed.

End RecorderFailures.

(** X18. When stop_recording on an armed recorder answers None (the
    workflow could not be saved: the directory or the file cannot be
    written, or the name is not a string), no file has been written, the
    listeners are released and the recording flag is down, but the
    captured events, the name and the start time are still in the
    recorder; and stopping again does not save them: with the flag down
    stop_recording answers None at once. *)
Theorem failed_save_cannot_be_retried (env : Env) (st st' : State) :
  recording (recorder st) = true ->
  stop_recording env st = (Ok None, st') ->
  files st' = files st /\
  recorder st'
  = mkRecorder false (workflow_name (recorder st)) (start_time (recorder st))
               (recorded_actions (recorder st)) None None true /\
  (forall id, holds_listener (recorder st) id -> id ∉ running st') /\
  stop_recording env st' = (Ok None, st').
Proof.
  intros Harmed Hstop.
  rewrite (stop_recording_then_save env st Harmed) in Hstop.
  apply _save_workflow_none in Hstop as (Hfiles & Hrecorder & Hrunning).
  cbn [files recorder set_recorder] in Hfiles, Hrecorder.
  rewrite !stopped_files in Hfiles. cbn [files set_recorder] in Hfiles.
  split; [ exact Hfiles | ]. split; [ exact Hrecorder | ]. split.
  - intros id Hid. rewrite Hrunning. cbn [running set_recorder].
    set (st_a := set_recorder _ st).
    destruct (stopped_running (mouse_listener (recorder st)) st_a) as [Hsub1 Hout1].
    destruct (stopped_running (keyboard_listener (recorder st))
                (stopped (mouse_listener (recorder st)) st_a)) as [Hsub2 Hout2].
    destruct Hid as [Hid | Hid].
    + specialize (Hout1 id Hid). set_solver.
    + exact (Hout2 id Hid).
  - unfold stop_recording, bind, gets. rewrite Hrecorder. reflexivity.
Qed.

Lemma failed_save_cannot_be_retried_witness :
  fst (stop_recording read_only_disk armed_clicked) = Ok None /\
  recorded_actions (recorder (snd (stop_recording read_only_disk armed_clicked)))
  = [mouse_click 10 20 "left" (100 - 100)] /\
  files (snd (stop_recording read_only_disk armed_clicked)) = files armed_clicked.
Proof.
  destruct (failed_save_cannot_be_retried read_only_disk armed_clicked
              (snd (stop_recording read_only_disk armed_clicked)))
    as (Hfiles & Hrecorder & _ & _).
  - vm_compute. reflexivity.
  - vm_compute. reflexivity.
  - split; [ vm_compute; reflexivity | ].
    split; [ rewrite Hrecorder; vm_compute; reflexivity | exact Hfiles ].
Defined.

(** X19. force_stop never raises and always leaves the recorder idle:
    flag down, no name, no start time, an empty buffer and no listener
    references; the listeners it held are stopped, no file is written
    (captured events are discarded, not saved), and a second force_stop
    changes nothing. *)
Theorem force_stop_discards (st : State) :
  exists st' : State,
    force_stop st = (Ok tt, st') /\
    recorder st' = mkRecorder false VNone None [] None None true /\
    files st' = files st /\
    (forall id, holds_listener (recorder st) id -> id ∉ running st') /\
    force_stop st' = (Ok tt, st').
Proof.
  unfold force_stop.
  unfold bind at 1, update_recorder at 1, modify at 1.
  unfold bind at 1, gets at 1.
  cbn [recorder set_recorder mouse_listener keyboard_listener with_stop_event
       with_recording].
  destruct (mouse_listener (recorder st)) as [m | ] eqn:Hmouse;
    destruct (keyboard_listener (recorder st)) as [k | ] eqn:Hkeyboard;
    unfold bind, stop_listener, record, update_recorder, modify, ret, _reset_state, gets;
    cbn;
    eexists; (split; [ reflexivity | ]); cbn; rewrite ?Hmouse, ?Hkeyboard;
    (split; [ reflexivity | ]);
    (split; [ reflexivity | ]);
    (split; [ | reflexivity ]);
    intros id [Hid | Hid]; rewrite ?Hmouse, ?Hkeyboard in Hid;
    try discriminate; inversion Hid; subst; set_solver.
Qed.

Lemma force_stop_discards_witness :
  exists st' : State,
    force_stop armed_clicked = (Ok tt, st') /\
    recorded_actions (recorder st') = [] /\
    files st' = files armed_clicked.
Proof.
  destruct (force_stop_discards armed_clicked) as (st' & Hrun & Hrecorder & Hfiles & _).
  exists st'. split; [ exact Hrun | ].
  split; [ rewrite Hrecorder; reflexivity | exact Hfiles ].
Defined.

(** X20. start_recording on an idle recorder never raises.  It reads
    the clock, installs the name, the start time and an empty buffer,
    then creates and starts the two listeners; its answer is the
    recording flag it leaves.  When it answers True the recorder holds
    two fresh listeners and both are running.  When it answers False
    (a listener could not be created or started) the flag is down, so
    stop_recording does nothing and answers None. *)
Theorem start_recording_from_idle (env : Env) (name : value) (st : State) :
  recording (recorder st) = false ->
  let n := next_listener st in
  exists (b : bool) (st' : State) (arm : list event),
    start_recording env name st = (Ok b, st') /\
    trace st' = (trace st ++ ETime :: arm)%list /\
    Forall (fun e => arming e = true) arm /\
    recording (recorder st') = b /\
    recorded_actions (recorder st') = [] /\
    workflow_name (recorder st') = name /\
    start_time (recorder st') = Some (clock env (trace st)) /\
    (b = true ->
     mouse_listener (recorder st') = Some n /\
     keyboard_listener (recorder st') = Some (S n) /\
     running st' = running st ∪ {[ n; S n ]}) /\
    (b = false -> stop_recording env st' = (Ok None, st')).
Proof.
  intros Hidle n.
  unfold start_recording.
  unfold bind at 1, gets at 1. rewrite Hidle.
  unfold bind at 1, ret at 1. unfold bind at 1, time_time at 1.
  unfold bind at 1, update_recorder at 1, modify at 1.
  match goal with
  | |- context [arm_listeners env ?s] =>
      destruct (arm_listeners_run env s)
        as (b & st' & arm & Harm & Htrace & Harming & _ & Hbuffer & Hstart & Hname
            & Hflag & Hfresh)
  end.
  cbn [trace set_trace recorder set_recorder recorded_actions start_time workflow_name
       recording next_listener running andb] in *.
  exists b, st', arm.
  split; [ exact Harm | ].
  split; [ rewrite Htrace, <- app_assoc; reflexivity | ].
  split; [ exact Harming | ]. split; [ exact Hflag | ].
  split; [ exact Hbuffer | ]. split; [ exact Hname | ]. split; [ exact Hstart | ].
  split; [ exact Hfresh | ].
  intros ->. unfold stop_recording, bind, gets. rewrite Hflag. reflexivity.
Qed.

Lemma start_recording_from_idle_witness :
  exists (st' : State) (arm : list event),
    start_recording calm (VStr "demo") init = (Ok true, st') /\
    trace st' = ETime :: arm /\
    keyboard_listener (recorder st') = Some 1%nat.
Proof.
  destruct (start_recording_from_idle calm (VStr "demo") init eq_refl)
    as (b & st' & arm & Hrun & Htrace & _ & _ & _ & _ & _ & Hfresh & _).
  assert (Hb : b = true).
  { assert (Hfst : fst (start_recording calm (VStr "demo") init) = Ok b)
      by (rewrite Hrun; reflexivity).
    vm_compute in Hfst. congruence. }
  subst b. exists st', arm. split; [ exact Hrun | ]. split; [ exact Htrace | ].
  apply Hfresh. reflexivity.
Defined.

(** X21. A start that fails half way leaks a listener.  When the mouse
    listener starts and the keyboard listener's start raises,
    start_recording answers False with the recording flag down while
    the mouse listener is running and still referenced.  stop_recording
    then does nothing (it answers None and the listener keeps running);
    only force_stop stops it. *)
Theorem failed_start_leaks_listener (env : Env) (name : value) (st : State) (m : string) :
  recording (recorder st) = false ->
  let n := next_listener st in
  (forall t mouse id, raises env t (EListenerNew mouse id) = None) ->
  (forall t, raises env t (EListenerStart n) = None) ->
  (forall t, raises env t (EListenerStart (S n)) = Some m) ->
  exists st' : State,
    start_recording env name st = (Ok false, st') /\
    recording (recorder st') = false /\
    mouse_listener (recorder st') = Some n /\
    n ∈ running st' /\
    stop_recording env st' = (Ok None, st') /\
    n ∉ running (snd (force_stop st')).
Proof.
  intros Hidle n Hnew Hmouse Hkeyboard.
  unfold start_recording.
  unfold bind at 1, gets at 1. rewrite Hidle.
  unfold bind at 1, ret at 1. unfold bind at 1, time_time at 1.
  unfold bind at 1, update_recorder at 1, modify at 1.
  unfold arm_listeners, try_except, new_listener, start_listener.
  unfold update_recorder, bind, gets, modify, ret, call.
  subst n.
  cbn [trace set_trace next_listener set_next_listener set_recorder].
  repeat (first [ rewrite Hnew | rewrite Hmouse | rewrite Hkeyboard ];
          cbn [trace set_trace next_listener set_next_listener set_recorder
               set_running recorder]).
  eexists. split; [ reflexivity | ]. cbn.
  split; [ reflexivity | ]. split; [ reflexivity | ].
  split; [ set_solver | ]. split; [ reflexivity | ].
  unfold force_stop, bind, gets, modify, update_recorder, ret, stop_listener, record,
    _reset_state. cbn. set_solver.
Qed.

Lemma failed_start_leaks_listener_witness :
  exists st' : State,
    start_recording no_keyboard (VStr "demo") init = (Ok false, st') /\
    0%nat ∈ running st' /\
    stop_recording no_keyboard st' = (Ok None, st').
Proof.
  destruct (failed_start_leaks_listener no_keyboard (VStr "demo") init "no keyboard access")
    as (st' & Hrun & _ & _ & Hrunning & Hstop & _).
  - reflexivity.
  - intros t mouse id. reflexivity.
  - intros t. reflexivity.
  - intros t. reflexivity.
  - exists st'. split; [ exact Hrun | ]. split; [ exact Hrunning | exact Hstop ].
Defined.

(* ===================================================================== *)
(* Recording, saving and replaying                                       *)
(* ===================================================================== *)

Section Capture.

Context (env : Env).

(** One callback on a recorder that is armed: at most one event is
    appended, and only the buffer and the trace change. *)
Lemma deliver_armed (d : delivery) (st : State) (t0 : Q) :
  recording (recorder st) = true ->
  stop_event (recorder st) = false ->
  start_time (recorder st) = Some t0 ->
  exists (new : list RecordedEvent) (st' : State),
    deliver env d st = (Ok tt, st') /\
    recorder st' = with_recorded_actions (recorded_actions (recorder st) ++ new) (recorder st) /\
    map replayed new = from_option (fun e => [e]) [] (captured d) /\
    files st' = files st /\
    running st' = running st.
Proof.
  intros Harmed Hevent Hstart.
  destruct d as [x y button [ | ] | x y dx dy]; cbn [deliver captured from_option].
  - unfold _on_mouse_click, bind, gets, time_time, update_recorder, modify.
    rewrite Harmed, Hevent, Hstart. cbn [negb orb].
    eexists [_]. eexists. split; [ reflexivity | ]. cbn.
    split; [ reflexivity | ]. split; reflexivity || (split; reflexivity).
  - unfold _on_mouse_click, bind, gets, ret. rewrite Harmed, Hevent. cbn [negb orb].
    exists [], st. rewrite app_nil_r.
    split; [ reflexivity | ]. split; [ destruct (recorder st); reflexivity | ].
    split; [ reflexivity | split; reflexivity ].
  - unfold _on_mouse_scroll, bind, gets, time_time, update_recorder, modify.
    rewrite Harmed, Hevent, Hstart. cbn [negb orb].
    eexists [_]. eexists. split; [ reflexivity | ]. cbn.
    split; [ reflexivity | ]. split; reflexivity || (split; reflexivity).
Qed.

Lemma deliver_all_armed (ds : list delivery) :
  forall (st : State) (t0 : Q),
    recording (recorder st) = true ->
    stop_event (recorder st) = false ->
    start_time (recorder st) = Some t0 ->
    exists (new : list RecordedEvent) (st' : State),
      deliver_all env ds st = (Ok tt, st') /\
      recorder st'
      = with_recorded_actions (recorded_actions (recorder st) ++ new) (recorder st) /\
      map replayed new = omap captured ds /\
      files st' = files st /\
      running st' = running st.
Proof.
  induction ds as [ | d rest IH]; intros st t0 Harmed Hevent Hstart.
  - exists [], st. rewrite app_nil_r. split; [ reflexivity | ].
    split; [ destruct (recorder st); reflexivity | ].
    split; [ reflexivity | split; reflexivity ].
  - cbn [deliver_all]. unfold bind.
    destruct (deliver_armed d st t0 Harmed Hevent Hstart)
      as (new1 & st1 & Hrun & Hrecorder & Hmap & Hfiles & Hrunning).
    rewrite Hrun.
    destruct (IH st1 t0) as (new2 & st2 & Hrun2 & Hrecorder2 & Hmap2 & Hfiles2 & Hrunning2);
      try (rewrite Hrecorder; assumption).
    exists (new1 ++ new2)%list, st2. split; [ exact Hrun2 | ].
    split; [ rewrite Hrecorder2, Hrecorder; cbn; rewrite <- app_assoc; reflexivity | ].
    split.
    + rewrite map_app, Hmap, Hmap2. cbn [omap list_omap].
      destruct (captured d); reflexivity.
    + split; congruence.
Qed.

Lemma deliver_all_ignored (ds : list delivery) (st : State) :
  recording (recorder st) = false \/ stop_event (recorder st) = true ->
  deliver_all env ds st = (Ok tt, st).
Proof.
  intros Hoff. induction ds as [ | d rest IH]; [ reflexivity | ].
  cbn [deliver_all]. unfold bind.
  assert (Hgate : negb (recording (recorder st)) || stop_event (recorder st) = true).
  { destruct Hoff as [-> | ->]; [ reflexivity | apply orb_true_r ]. }
  assert (Hone : deliver env d st = (Ok tt, st)).
  { destruct d; cbn [deliver];
      unfold _on_mouse_click, _on_mouse_scroll, bind, gets; rewrite Hgate; reflexivity. }
  rewrite Hone. exact IH.
Qed.

(** Saving from an armed recorder when the file system cooperates. *)
Lemma stop_recording_saves (st : State) (name : string) :
  recording (recorder st) = true ->
  workflow_name (recorder st) = VStr name ->
  (forall t, raises env t EMakedirs = None) ->
  (forall t p, raises env t (EOpenWrite p) = None) ->
  exists (t : list event) (created_at : string) (duration : Q) (st' : State),
    let buffer := recorded_actions (recorder st) in
    let filename := workflow_filename name (datestamp env t) in
    stop_recording env st = (Ok (Some filename), st') /\
    files st'
    = <[ filename
         := FWorkflow (mkWorkflow name created_at duration (length buffer) buffer) ]>
        (files st).
Proof.
  intros Harmed Hname Hmkdir Hopen.
  rewrite (stop_recording_then_save env st Harmed).
  match goal with
  | |- context [_save_workflow env ?s] =>
      destruct (_save_workflow_ok env s name) as
        (t & created_at & duration & st' & Hsave & Hfiles & _);
      [ exact Hname | exact Hmkdir | exact Hopen | ]
  end.
  cbv zeta in Hsave. exists t, created_at, duration, st'. cbv zeta.
  split; [ exact Hsave | ].
  rewrite Hfiles. cbn [files recorder set_recorder recorded_actions].
  rewrite !stopped_files. reflexivity.
Qed.

(** Replay of a readable file with a usable speed. *)
Lemma replay_workflow_run (f : string) (speed : value) (st : State) (w : workflow_data) :
  files st !! workflow_path f = Some (FWorkflow w) ->
  usable_speed speed = true ->
  exists new : list event,
    replay_workflow env (VStr f) speed st = (Ok true, after st new) /\
    inputs new = map replayed (wf_actions w).
Proof.
  intros Hfile Hspeed.
  unfold replay_workflow, try_except. unfold bind at 1, ret at 1.
  unfold bind at 1, gets at 1. rewrite Hfile.
  destruct (wf_actions w) as [ | a rest] eqn:Hw.
  - exists []. rewrite after_nil. split; reflexivity.
  - unfold bind at 1. rewrite sleep_run. unfold bind at 1.
    destruct (replay_actions_run env speed (a :: rest) 0 (after st [ESleep 2]))
      as (new & Hrun & _ & Hin & _).
    rewrite Hrun, after_after. exists (ESleep 2 :: new).
    split; [ reflexivity | ]. exact (Hin Hspeed).
Qed.

End Capture.

Lemma prefix_append (a b : string) : String.prefix a (a +:+ b) = true.
Proof.
  induction a as [ | c a IH].
  - destruct b; reflexivity.
  - change (String c a +:+ b) with (String c (a +:+ b)). cbn [String.prefix].
    destruct (ascii_dec c c) as [_ | Hneq]; [ exact IH | congruence ].
Qed.

Lemma workflow_path_of_filename (name stamp : string) :
  workflow_path (workflow_filename name stamp) = workflow_filename name stamp.
Proof.
  unfold workflow_path, workflow_filename. rewrite prefix_append. reflexivity.
Qed.

(** X22. While a recorder is armed, the mouse callbacks only append:
    each button press and each scroll adds exactly one event at the end
    of the buffer, in the order of delivery, button releases add
    nothing, and nothing already captured is changed or dropped.  On a
    recorder that is not recording, or whose stop event is set, the
    callbacks do nothing at all. *)
Theorem mouse_callbacks_append_in_order (env : Env) (ds : list delivery) (st : State) :
  (recording (recorder st) = false \/ stop_event (recorder st) = true ->
   deliver_all env ds st = (Ok tt, st)) /\
  (recording (recorder st) = true ->
   stop_event (recorder st) = false ->
   is_Some (start_time (recorder st)) ->
   exists (new : list RecordedEvent) (st' : State),
     deliver_all env ds st = (Ok tt, st') /\
     recorder st'
     = with_recorded_actions (recorded_actions (recorder st) ++ new) (recorder st) /\
     map replayed new = omap captured ds /\
     files st' = files st).
Proof.
  split; [ apply deliver_all_ignored | ].
  intros Harmed Hevent [t0 Hstart].
  destruct (deliver_all_armed env ds st t0 Harmed Hevent Hstart)
    as (new & st' & Hrun & Hrecorder & Hmap & Hfiles & _).
  exists new, st'. split; [ exact Hrun | ]. split; [ exact Hrecorder | ].
  split; [ exact Hmap | exact Hfiles ].
Qed.

Lemma mouse_callbacks_append_in_order_witness :
  exists (new : list RecordedEvent) (st' : State),
    deliver_all calm [Click 1 2 "left" true; Click 1 2 "left" false; Scroll 3 4 0 (-1)]
                armed_clicked = (Ok tt, st') /\
    recorded_actions (recorder st')
    = (recorded_actions (recorder armed_clicked) ++ new)%list /\
    map replayed new = [EClick (VInt 1) (VInt 2); EScroll (-1) 3 4].
Proof.
  destruct (proj2 (mouse_callbacks_append_in_order calm
                     [Click 1 2 "left" true; Click 1 2 "left" false; Scroll 3 4 0 (-1)]
                     armed_clicked))
    as (new & st' & Hrun & Hrecorder & Hmap & _).
  - reflexivity.
  - reflexivity.
  - eexists. reflexivity.
  - exists new, st'. split; [ exact Hrun | ].
    split; [ rewrite Hrecorder; reflexivity | exact Hmap ].
Defined.

(** X23. Record, save, replay.  From an armed recorder with a string
    name, when the workflow file can be written: after the listener has
    delivered its events, stop_recording answers a file name under
    workflows/, and replaying that file at a usable speed answers True
    and sends, in order, one input call for every event that was in the
    buffer and then one for every button press and scroll delivered. *)
Theorem recorded_workflow_replays (env : Env) (st : State) (name : string)
    (ds : list delivery) (speed : value) :
  recording (recorder st) = true ->
  stop_event (recorder st) = false ->
  is_Some (start_time (recorder st)) ->
  workflow_name (recorder st) = VStr name ->
  (forall t, raises env t EMakedirs = None) ->
  (forall t p, raises env t (EOpenWrite p) = None) ->
  usable_speed speed = true ->
  exists (st1 : State) (stamp : string) (st2 : State) (new : list event),
    deliver_all env ds st = (Ok tt, st1) /\
    stop_recording env st1 = (Ok (Some (workflow_filename name stamp)), st2) /\
    replay_workflow env (VStr (workflow_filename name stamp)) speed st2
    = (Ok true, after st2 new) /\
    inputs new
    = (map replayed (recorded_actions (recorder st)) ++ omap captured ds)%list.
Proof.
  intros Harmed Hevent [t0 Hstart] Hname Hmkdir Hopen Hspeed.
  destruct (deliver_all_armed env ds st t0 Harmed Hevent Hstart)
    as (captured_events & st1 & Hrun & Hrecorder & Hmap & _ & _).
  destruct (stop_recording_saves env st1 name)
    as (t & created_at & duration & st2 & Hstop & Hfiles);
    try (rewrite Hrecorder; assumption); try assumption.
  cbv zeta in Hstop, Hfiles. set (stamp := datestamp env t) in *.
  destruct (replay_workflow_run env (workflow_filename name stamp) speed st2
              (mkWorkflow name created_at duration
                          (length (recorded_actions (recorder st1)))
                          (recorded_actions (recorder st1))))
    as (new & Hreplay & Hinputs).
  - rewrite workflow_path_of_filename, Hfiles. apply lookup_insert_eq.
  - exact Hspeed.
  - exists st1, stamp, st2, new.
    split; [ exact Hrun | ]. split; [ exact Hstop | ]. split; [ exact Hreplay | ].
    rewrite Hinputs. cbn [wf_actions]. rewrite Hrecorder. cbn [recorded_actions
      with_recorded_actions]. rewrite map_app, Hmap. reflexivity.
Qed.

Lemma recorded_workflow_replays_witness :
  exists (st1 : State) (stamp : string) (st2 : State) (new : list event),
    deliver_all calm [Scroll 3 4 0 (-1)] armed_clicked = (Ok tt, st1) /\
    stop_recording calm st1 = (Ok (Some (workflow_filename "demo" stamp)), st2) /\
    replay_workflow calm (VStr (workflow_filename "demo" stamp)) (VNum 1) st2
    = (Ok true, after st2 new) /\
    inputs new = [EClick (VInt 10) (VInt 20); EScroll (-1) 3 4].
Proof.
  apply (recorded_workflow_replays calm armed_clicked "demo" [Scroll 3 4 0 (-1)] (VNum 1)).
  - reflexivity.
  - reflexivity.
  - eexists. reflexivity.
  - reflexivity.
  - intros t. reflexivity.
  - intros t p. reflexivity.
  - reflexivity.
Defined.

(* --------------------------------------------------------------------- *)
(* The file name of a saved workflow                                     *)
(* --------------------------------------------------------------------- *)

Lemma safe_char_not_space (c : ascii) :
  safe_char c = true -> Ascii.eqb c " " = false.
Proof.
  intros Hsafe. destruct (Ascii.eqb c " ") eqn:Hspace; [ | reflexivity ].
  apply Ascii.eqb_eq in Hspace. subst c. discriminate.
Qed.

Lemma all_chars_filter (p : ascii -> bool) (s : string) :
  all_chars p (filter_chars p s) = true.
Proof.
  induction s as [ | c s IH]; [ reflexivity | ].
  cbn [filter_chars]. destruct (p c) eqn:Hp; [ | exact IH ].
  cbn [all_chars]. rewrite Hp, IH. reflexivity.
Qed.

Lemma all_chars_rstrip (p : ascii -> bool) (s : string) :
  all_chars p s = true -> all_chars p (rstrip_spaces s) = true.
Proof.
  induction s as [ | c s IH]; [ reflexivity | ].
  cbn [all_chars rstrip_spaces]. intros Hall.
  apply andb_true_iff in Hall as [Hc Hs]. specialize (IH Hs).
  destruct (rstrip_spaces s) as [ | c' r].
  - destruct (Ascii.eqb c " "); [ reflexivity | ].
    cbn [all_chars]. rewrite Hc. reflexivity.
  - cbn [all_chars] in IH |- *. rewrite Hc. exact IH.
Qed.

Lemma all_chars_map (p q : ascii -> bool) (f : ascii -> ascii) (s : string) :
  (forall c, p c = true -> q (f c) = true) ->
  all_chars p s = true -> all_chars q (map_chars f s) = true.
Proof.
  intros Hpq. induction s as [ | c s IH]; [ reflexivity | ].
  cbn [all_chars map_chars]. intros Hall.
  apply andb_true_iff in Hall as [Hc Hs].
  rewrite (Hpq c Hc), (IH Hs). reflexivity.
Qed.

Lemma length_filter_chars (p : ascii -> bool) (s : string) :
  (String.length (filter_chars p s) <= String.length s)%nat.
Proof.
  induction s as [ | c s IH]; [ reflexivity | ].
  cbn [filter_chars]. destruct (p c); cbn [String.length]; lia.
Qed.

Lemma length_rstrip_spaces (s : string) :
  (String.length (rstrip_spaces s) <= String.length s)%nat.
Proof.
  induction s as [ | c s IH]; [ reflexivity | ].
  cbn [rstrip_spaces]. destruct (rstrip_spaces s) as [ | c' r].
  - destruct (Ascii.eqb c " "); cbn [String.length]; lia.
  - cbn [String.length] in *. lia.
Qed.

Lemma length_map_chars (f : ascii -> ascii) (s : string) :
  String.length (map_chars f s) = String.length s.
Proof.
  induction s as [ | c s IH]; [ reflexivity | ].
  cbn [map_chars String.length]. rewrite IH. reflexivity.
Qed.

Lemma safe_name_fixed (s : string) :
  all_chars safe_char s = true -> safe_name s = s.
Proof.
  intros Hsafe. unfold safe_name.
  assert (Hfilter : filter_chars
            (fun c => isalnum c || Ascii.eqb c " " || Ascii.eqb c "-" || Ascii.eqb c "_") s
          = s).
  { induction s as [ | c s IH]; [ reflexivity | ].
    cbn [all_chars] in Hsafe. apply andb_true_iff in Hsafe as [Hc Hs].
    cbn [filter_chars]. rewrite (IH Hs).
    unfold safe_char in Hc.
    destruct (isalnum c); [ reflexivity | ].
    destruct (Ascii.eqb c " "); [ reflexivity | ].
    cbn [orb] in Hc |- *. rewrite Hc. reflexivity. }
  assert (Hstrip : rstrip_spaces s = s).
  { clear Hfilter. induction s as [ | c s IH]; [ reflexivity | ].
    cbn [all_chars] in Hsafe. apply andb_true_iff in Hsafe as [Hc Hs].
    cbn [rstrip_spaces]. rewrite (IH Hs), (safe_char_not_space c Hc).
    destruct s; reflexivity. }
  rewrite Hfilter, Hstrip. clear Hfilter Hstrip.
  induction s as [ | c s IH]; [ reflexivity | ].
  cbn [all_chars] in Hsafe. apply andb_true_iff in Hsafe as [Hc Hs].
  cbn [map_chars]. rewrite (IH Hs), (safe_char_not_space c Hc). reflexivity.
Qed.

(** X24. The sanitized workflow name consists of letters, digits, '-'
    and '_' only: no space, no dot and no path separator, whatever the
    name given to start_recording, so that the saved file lies directly
    in workflows/.  Sanitizing is idempotent and never makes the name
    longer. *)
Theorem safe_name_is_safe (name : string) :
  all_chars safe_char (safe_name name) = true /\
  all_chars (fun c => negb (Ascii.eqb c "/") && negb (Ascii.eqb c ".")
                      && negb (Ascii.eqb c " ")) (safe_name name) = true /\
  safe_name (safe_name name) = safe_name name /\
  (String.length (safe_name name) <= String.length name)%nat.
Proof.
  assert (Hsafe : all_chars safe_char (safe_name name) = true).
  { unfold safe_name.
    apply all_chars_map
      with (p := fun c => isalnum c || Ascii.eqb c " " || Ascii.eqb c "-" || Ascii.eqb c "_").
    - intros c Hc. unfold safe_char.
      destruct (Ascii.eqb c " ") eqn:Hspace; [ reflexivity | ].
      destruct (isalnum c); [ reflexivity | ]. cbn [orb] in Hc |- *. exact Hc.
    - apply all_chars_rstrip, all_chars_filter. }
  split; [ exact Hsafe | ]. split.
  - revert Hsafe. generalize (safe_name name). intros s.
    induction s as [ | c s IH]; [ reflexivity | ].
    cbn [all_chars]. intros Hall. apply andb_true_iff in Hall as [Hc Hs].
    rewrite (IH Hs), andb_true_r.
    rewrite (safe_char_not_space c Hc).
    destruct (Ascii.eqb c "/") eqn:Hslash.
    { apply Ascii.eqb_eq in Hslash. subst c. discriminate. }
    destruct (Ascii.eqb c ".") eqn:Hdot.
    { apply Ascii.eqb_eq in Hdot. subst c. discriminate. }
    reflexivity.
  - split; [ apply safe_name_fixed; exact Hsafe | ].
    unfold safe_name. rewrite length_map_chars.
    etransitivity; [ apply length_rstrip_spaces | apply length_filter_chars ].
Qed.

(* ===================================================================== *)
(* Listing the saved workflows                                           *)
(* ===================================================================== *)

Lemma ltb_not_newer (a b : string) : String.ltb a b = true -> String.leb a b = true.
Proof.
  unfold String.ltb, String.leb. destruct (String.compare a b); congruence.
Qed.

Lemma not_ltb_not_newer (a b : string) : String.ltb a b = false -> String.leb b a = true.
Proof.
  unfold String.ltb, String.leb. rewrite (String.compare_antisym a b).
  destruct (String.compare b a); simpl; congruence.
Qed.

Lemma insert_newest_sorted (x : workflow_info) (l : list workflow_info) :
  Sorted not_newer l -> Sorted not_newer (insert_newest x l).
Proof.
  induction 1 as [ | y l Hsorted IH Hhead]; cbn [insert_newest].
  - repeat constructor.
  - destruct (String.ltb (wi_created_at y) (wi_created_at x)) eqn:Hlt.
    + constructor; [ constructor; assumption | ].
      constructor. apply ltb_not_newer. exact Hlt.
    + constructor; [ exact IH | ].
      destruct l as [ | z l']; cbn [insert_newest].
      * constructor. apply not_ltb_not_newer. exact Hlt.
      * destruct (String.ltb (wi_created_at z) (wi_created_at x)).
        -- constructor. apply not_ltb_not_newer. exact Hlt.
        -- inversion Hhead; subst. constructor. assumption.
Qed.

Lemma insert_newest_perm (x : workflow_info) (l : list workflow_info) :
  insert_newest x l ≡ₚ x :: l.
Proof.
  induction l as [ | y l IH]; cbn [insert_newest]; [ reflexivity | ].
  destruct (String.ltb (wi_created_at y) (wi_created_at x)); [ reflexivity | ].
  rewrite IH. apply Permutation_swap.
Qed.

Lemma sorted_newest_first_spec (l : list workflow_info) :
  Sorted not_newer (sorted_newest_first l) /\ sorted_newest_first l ≡ₚ l.
Proof.
  unfold sorted_newest_first.
  assert (Hgen : forall acc,
            Sorted not_newer acc ->
            Sorted not_newer (fold_left (fun acc x => insert_newest x acc) l acc) /\
            fold_left (fun acc x => insert_newest x acc) l acc ≡ₚ acc ++ l).
  { induction l as [ | x l IH]; intros acc Hacc.
    - cbn [fold_left]. rewrite app_nil_r. split; [ exact Hacc | reflexivity ].
    - cbn [fold_left].
      destruct (IH (insert_newest x acc) (insert_newest_sorted x acc Hacc))
        as [Hsorted Hperm].
      split; [ exact Hsorted | ].
      rewrite Hperm, insert_newest_perm. cbn [app]. apply Permutation_middle. }
  destruct (Hgen [] ltac:(constructor)) as [Hsorted Hperm].
  split; [ exact Hsorted | exact Hperm ].
Qed.

Lemma strip_prefix_spec (p s rest : string) :
  strip_prefix p s = Some rest <-> s = p +:+ rest.
Proof.
  revert s. induction p as [ | a p IH]; intros s.
  - cbn [strip_prefix]. change ("" +:+ rest) with rest. split; congruence.
  - change (String a p +:+ rest) with (String a (p +:+ rest)).
    destruct s as [ | b s]; cbn [strip_prefix]; [ split; discriminate | ].
    destruct (Ascii.eqb a b) eqn:Hab.
    + apply Ascii.eqb_eq in Hab. subst b. rewrite IH. split; congruence.
    + apply Ascii.eqb_neq in Hab. split; [ discriminate | congruence ].
Qed.

(** The files the loop of list_workflows keeps. *)
Lemma listed_iff (fs : gmap string file) (info : workflow_info) :
  info ∈ omap read_info (listdir fs) <->
  exists w : workflow_data,
    fs !! ("workflows/" +:+ wi_filename info) = Some (FWorkflow w) /\
    no_slash (wi_filename info) = true /\
    ends_with ".json" (wi_filename info) = true /\
    info = info_of (wi_filename info) w.
Proof.
  rewrite list_elem_of_omap. split.
  - intros ([name f] & Hentry & Hread).
    unfold listdir in Hentry. apply list_elem_of_omap in Hentry as ([k f'] & Hkv & Hdir).
    apply elem_of_map_to_list in Hkv.
    unfold dir_entry in Hdir. cbn [fst snd] in Hdir.
    destruct (strip_prefix "workflows/" k) as [name' | ] eqn:Hstrip; [ | discriminate ].
    destruct (no_slash name') eqn:Hslash; [ | discriminate ].
    inversion Hdir; subst name' f'. clear Hdir.
    apply strip_prefix_spec in Hstrip. subst k.
    unfold read_info in Hread. cbn [fst snd] in Hread.
    destruct (ends_with ".json" name) eqn:Hjson; [ | discriminate ].
    destruct f as [w | ]; [ | discriminate ].
    inversion Hread; subst info. clear Hread. cbn [wi_filename].
    exists w. split; [ exact Hkv | ]. split; [ exact Hslash | ].
    split; [ exact Hjson | reflexivity ].
  - intros (w & Hfile & Hslash & Hjson & Hinfo).
    exists (wi_filename info, FWorkflow w). split.
    + unfold listdir. apply list_elem_of_omap.
      exists ("workflows/" +:+ wi_filename info, FWorkflow w).
      split; [ apply elem_of_map_to_list; exact Hfile | ].
      unfold dir_entry. cbn [fst snd].
      rewrite (proj2 (strip_prefix_spec "workflows/" _ (wi_filename info)) eq_refl).
      rewrite Hslash. reflexivity.
    + unfold read_info. cbn [fst snd]. rewrite Hjson. rewrite Hinfo at 2. reflexivity.
Qed.

(** X25. list_workflows never raises and changes nothing.  Its answer
    is ordered newest first by the created_at string, and it holds
    exactly the readable workflow files directly inside workflows/
    whose name ends in .json, each with the name, creation time, action
    count and duration stored in the file: a file that cannot be read
    as a workflow, or with another extension, is left out without
    failing the listing. *)
Theorem list_workflows_newest_first (st : State) :
  exists l : list workflow_info,
    list_workflows st = (Ok l, st) /\
    Sorted not_newer l /\
    forall info : workflow_info,
      info ∈ l <->
      exists w : workflow_data,
        files st !! ("workflows/" +:+ wi_filename info) = Some (FWorkflow w) /\
        no_slash (wi_filename info) = true /\
        ends_with ".json" (wi_filename info) = true /\
        info = info_of (wi_filename info) w.
Proof.
  unfold list_workflows, bind, gets, ret.
  destruct (sorted_newest_first_spec (omap read_info (listdir (files st))))
    as [Hsorted Hperm].
  eexists. split; [ reflexivity | ]. split; [ exact Hsorted | ].
  intros info. rewrite Hperm. apply listed_iff.
Qed.

Lemma list_workflows_newest_first_witness :
  exists l : list workflow_info,
    list_workflows with_demo_workflow = (Ok l, with_demo_workflow) /\
    info_of "demo.json" demo_workflow ∈ l.
Proof.
  destruct (list_workflows_newest_first with_demo_workflow) as (l & Hrun & _ & Hlisted).
  exists l. split; [ exact Hrun | ].
  apply Hlisted. exists demo_workflow.
  split; [ reflexivity | ]. split; [ reflexivity | ]. split; reflexivity.
Defined.

Lemma all_chars_app (p : ascii -> bool) (a b : string) :
  all_chars p (a +:+ b) = all_chars p a && all_chars p b.
Proof.
  induction a as [ | c a IH]; [ reflexivity | ].
  change (String c a +:+ b) with (String c (a +:+ b)). cbn [all_chars].
  rewrite IH. apply andb_assoc.
Qed.

Lemma all_chars_weaken (p q : ascii -> bool) (s : string) :
  (forall c, p c = true -> q c = true) ->
  all_chars p s = true -> all_chars q s = true.
Proof.
  intros Hpq. induction s as [ | c s IH]; [ reflexivity | ].
  cbn [all_chars]. intros Hall. apply andb_true_iff in Hall as [Hc Hs].
  rewrite (Hpq c Hc), (IH Hs). reflexivity.
Qed.

Lemma all_chars_prefix (q : ascii -> bool) (p s : string) :
  String.prefix p s = true -> all_chars q s = true -> all_chars q p = true.
Proof.
  revert s. induction p as [ | a p IH]; intros s; [ reflexivity | ].
  destruct s as [ | b s]; cbn [String.prefix all_chars]; [ discriminate | ].
  destruct (ascii_dec a b) as [-> | _]; [ | discriminate ].
  intros Hprefix Hall. apply andb_true_iff in Hall as [Hb Hs].
  rewrite Hb, (IH s Hprefix Hs). reflexivity.
Qed.

Lemma ends_with_append (suffix a s : string) :
  ends_with suffix s = true -> ends_with suffix (a +:+ s) = true.
Proof.
  intros Hs. induction a as [ | c a IH]; [ exact Hs | ].
  change (String c a +:+ s) with (String c (a +:+ s)).
  cbn [ends_with]. rewrite IH. apply orb_true_r.
Qed.

Lemma safe_name_no_slash (name : string) : no_slash (safe_name name) = true.
Proof.
  unfold no_slash, safe_name.
  apply all_chars_map
    with (p := fun c => isalnum c || Ascii.eqb c " " || Ascii.eqb c "-" || Ascii.eqb c "_").
  - intros c Hc. destruct (Ascii.eqb c " ") eqn:Hspace; [ reflexivity | ].
    destruct (Ascii.eqb c "/") eqn:Hslash; [ | reflexivity ].
    apply Ascii.eqb_eq in Hslash. subst c. discriminate.
  - apply all_chars_rstrip, all_chars_filter.
Qed.

(** X26. A saved recording shows up in the listing.  When
    stop_recording on an armed recorder can write its file (and the
    timestamp has no path separator), the file it names is
    workflows/<base>, list_workflows then has an entry with file name
    <base>, the recording's name and an action count equal to the
    number of captured events, and replaying by that listed file name
    is the same as replaying by the name stop_recording returned. *)
Theorem saved_recording_is_listed (env : Env) (st : State) (name : string) :
  recording (recorder st) = true ->
  workflow_name (recorder st) = VStr name ->
  (forall t, raises env t EMakedirs = None) ->
  (forall t p, raises env t (EOpenWrite p) = None) ->
  (forall t, no_slash (datestamp env t) = true) ->
  exists (base : string) (st' : State) (l : list workflow_info) (info : workflow_info),
    stop_recording env st = (Ok (Some ("workflows/" +:+ base)), st') /\
    list_workflows st' = (Ok l, st') /\
    info ∈ l /\
    wi_filename info = base /\
    wi_name info = name /\
    wi_actions_count info = length (recorded_actions (recorder st)) /\
    forall speed,
      replay_workflow env (VStr base) speed st'
      = replay_workflow env (VStr ("workflows/" +:+ base)) speed st'.
Proof.
  intros Harmed Hname Hmkdir Hopen Hstamp.
  destruct (stop_recording_saves env st name Harmed Hname Hmkdir Hopen)
    as (t & created_at & duration & st' & Hstop & Hfiles).
  cbv zeta in Hstop, Hfiles.
  set (base := safe_name name +:+ "_" +:+ datestamp env t +:+ ".json").
  assert (Hbase : workflow_filename name (datestamp env t) = "workflows/" +:+ base)
    by reflexivity.
  assert (Hslash : no_slash base = true).
  { unfold no_slash, base. rewrite !all_chars_app.
    fold (no_slash (safe_name name)). fold (no_slash (datestamp env t)).
    rewrite safe_name_no_slash, Hstamp. reflexivity. }
  set (w := mkWorkflow name created_at duration
                       (length (recorded_actions (recorder st)))
                       (recorded_actions (recorder st))).
  exists base, st', (sorted_newest_first (omap read_info (listdir (files st')))),
         (info_of base w).
  split; [ rewrite <- Hbase; exact Hstop | ].
  split; [ reflexivity | ]. split.
  - destruct (sorted_newest_first_spec (omap read_info (listdir (files st')))) as [_ Hperm].
    rewrite Hperm. apply listed_iff. exists w. cbn [info_of wi_filename].
    split; [ rewrite Hfiles, Hbase; apply lookup_insert_eq | ].
    split; [ exact Hslash | ].
    split; [ | reflexivity ].
    unfold base. do 3 apply ends_with_append. reflexivity.
  - split; [ reflexivity | ]. split; [ reflexivity | ]. split; [ reflexivity | ].
    intros speed.
    assert (Hpath : workflow_path base = workflow_path ("workflows/" +:+ base)).
    { unfold workflow_path. rewrite prefix_append.
      destruct (String.prefix "workflows/" base) eqn:Hprefix; [ | reflexivity ].
      pose proof (all_chars_prefix _ _ _ Hprefix Hslash) as Hcontra. discriminate. }
    unfold replay_workflow. rewrite Hpath. reflexivity.
Qed.

Lemma saved_recording_is_listed_witness :
  exists (st' : State) (l : list workflow_info) (info : workflow_info),
    stop_recording calm armed_clicked
    = (Ok (Some ("workflows/" +:+ "demo_20240101_120000.json")), st') /\
    list_workflows st' = (Ok l, st') /\
    info ∈ l /\
    wi_filename info = "demo_20240101_120000.json" /\
    wi_actions_count info = 1%nat.
Proof.
  destruct (saved_recording_is_listed calm armed_clicked "demo")
    as (base & st' & l & info & Hstop & Hlist & Hin & Hfile & _ & Hcount & _).
  - reflexivity.
  - reflexivity.
  - intros t. reflexivity.
  - intros t p. reflexivity.
  - intros t. reflexivity.
  - assert (Hbase : base = "demo_20240101_120000.json").
    { assert (Hfst : fst (stop_recording calm armed_clicked)
                     = Ok (Some ("workflows/" +:+ base))) by (rewrite Hstop; reflexivity).
      vm_compute in Hfst. inversion Hfst. reflexivity. }
    rewrite Hbase in Hstop, Hfile. exists st', l, info.
    split; [ exact Hstop | ]. split; [ exact Hlist | ]. split; [ exact Hin | ].
    split; [ exact Hfile | exact Hcount ].
Defined.

(* ===================================================================== *)
(* Plans that cannot complete                                            *)
(* ===================================================================== *)

Section Stuck.

Context (env : Env).

Lemma execute_step_unknown (s : step) (st : State) :
  action_in s known_actions = false ->
  forall st', execute_step env s st <> (Ok true, st').
Proof.
  intros Hunknown st'. rewrite execute_step_saves_first.
  destruct (raises env (trace st ++ [EnterExecuteStep s]) (ESaveStep s)); [ discriminate | ].
  destruct (attempts_unknown env s (seq 0 (max_retries s)) Hunknown
              (after st [EnterExecuteStep s; ESaveStep s])) as [st1 ->].
  discriminate.
Qed.

Lemma run_steps_stuck (plan : list step) :
  forall (i : nat) (s : step) (k : nat) (acc : list log_entry) (st : State),
    plan !! i = Some s ->
    action_in s known_actions = false ->
    exists (new : list log_entry) (st' : State),
      run_steps env k plan acc st = (Ok (acc ++ new)%list, st') /\
      (length new <= S i)%nat /\
      (forall e, new !! i = Some e -> ~ succeeded e).
Proof.
  induction plan as [ | s0 rest IH]; intros i s k acc st Hlookup Hunknown;
    [ discriminate | ].
  cbn [run_steps]. unfold bind at 1.
  destruct (plan_step_outcome env k s0 st) as (outcome & st1 & Hstep & _ & _).
  rewrite Hstep.
  destruct outcome as [j action [ | ] | j action msg].
  - destruct i as [ | i].
    + exfalso. cbn in Hlookup. inversion Hlookup; subst s0.
      unfold try_except, bind, ret in Hstep.
      destruct (execute_step env s st) as [[[ | ] | msg] st0] eqn:Hrun;
        try discriminate.
      exact (execute_step_unknown s st Hunknown st0 Hrun).
    + destruct (IH i s (S k) (acc ++ [LogResult j action true])%list st1 Hlookup Hunknown)
        as (new & st' & Hrun & Hlen & Hfail).
      exists (LogResult j action true :: new), st'.
      split; [ rewrite Hrun, <- app_assoc; reflexivity | ].
      split; [ simpl; lia | ].
      intros e He. apply Hfail. exact He.
  - exists [LogResult j action false], st1. unfold ret.
    split; [ reflexivity | ]. split; [ simpl; lia | ].
    intros e He. destruct i; inversion He; subst. simpl. tauto.
  - exists [LogError j action msg], st1. unfold ret.
    split; [ reflexivity | ]. split; [ simpl; lia | ].
    intros e He. destruct i; inversion He; subst. simpl. tauto.
Qed.

Lemma execute_automation_stuck (plan : list step) (i : nat) (s : step) (st : State) :
  plan !! i = Some s ->
  action_in s known_actions = false ->
  exists (resp : response) (st' : State),
    execute_automation env plan st = (Ok resp, st') /\
    steps_total resp = length plan /\
    (steps_executed resp <= S i)%nat /\
    (forall e, log resp !! i = Some e -> ~ succeeded e).
Proof.
  intros Hlookup Hunknown.
  destruct (run_steps_stuck plan i s 1 [] st Hlookup Hunknown)
    as (new & st1 & Hrun & Hlen & Hfail).
  unfold execute_automation, bind. rewrite Hrun. cbn [app]. unfold modify, ret.
  eexists. eexists. split; [ reflexivity | ].
  cbn [steps_total steps_executed log].
  split; [ reflexivity | ]. split; [ exact Hlen | exact Hfail ].
Qed.

End Stuck.

(** X27. A plan stalls at its first step with an action the dispatcher
    does not know: if the step at index i has such an action, at most
    i + 1 steps are executed, whatever the world does, and the log line
    of that step, if the run gets that far, reports a failure or an
    error.  No step behind it is ever run. *)
Theorem plan_stalls_at_unknown_action (env : Env) (plan : list step) (i : nat)
    (s : step) (st : State) :
  plan !! i = Some s ->
  action_in s known_actions = false ->
  exists (resp : response) (st' : State),
    execute_automation env plan st = (Ok resp, st') /\
    steps_total resp = length plan /\
    (steps_executed resp <= S i)%nat /\
    (forall e, log resp !! i = Some e -> ~ succeeded e).
Proof.
  intros Hlookup Hunknown.
  destruct (run_steps_stuck env plan i s 1 [] st Hlookup Hunknown)
    as (new & st1 & Hrun & Hlen & Hfail).
  exists (mkResponse true (length new) (length plan) new),
         (set_execution_logs (execution_logs st1 ++ new) st1).
  split.
  - unfold execute_automation, bind. rewrite Hrun. reflexivity.
  - cbn [steps_total steps_executed log].
    split; [ reflexivity | ]. split; [ exact Hlen | exact Hfail ].
Qed.

Lemma plan_stalls_at_unknown_action_witness :
  exists (resp : response) (st' : State),
    execute_automation calm [wait_step; focus_step; click_step] init = (Ok resp, st') /\
    steps_total resp = 3%nat /\
    (steps_executed resp <= 2)%nat.
Proof.
  destruct (plan_stalls_at_unknown_action calm [wait_step; focus_step; click_step] 1
              focus_step init)
    as (resp & st' & Hrun & Htotal & Hexecuted & _).
  - reflexivity.
  - reflexivity.
  - exists resp, st'. split; [ exact Hrun | ]. split; [ exact Htotal | exact Hexecuted ].
Defined.

(** X28. The fallback plan is never empty, and two of its plans cannot
    complete.  For a prompt that mentions Cisco and Packet Tracer the
    plan contains a gentle_focus_application step, and for a prompt
    that mentions YouTube together with a search (or MrBeast) it
    contains a click_element step; execute_automation has no branch for
    either, so the run stops there: fewer steps are executed than
    planned (at most 5), in every world.  In the YouTube plan the
    search term is never typed. *)
Theorem fallback_plan_stalls (env : Env) (user_prompt : string) (st : State) :
  let prompt_lower := lower user_prompt in
  let plan := create_fallback_plan user_prompt in
  plan <> [] /\
  (contains "cisco" prompt_lower && contains "packet tracer" prompt_lower = true \/
   contains "youtube" prompt_lower
   && (contains "search" prompt_lower || contains "mrbeast" prompt_lower) = true ->
   exists (resp : response) (st' : State),
     execute_automation env plan st = (Ok resp, st') /\
     (steps_executed resp < steps_total resp)%nat /\
     (steps_executed resp <= 5)%nat).
Proof.
  intros prompt_lower plan. split.
  - unfold plan, create_fallback_plan. fold prompt_lower.
    repeat match goal with
           | |- context [if ?b then _ else _] => destruct b
           end; discriminate.
  - intros Hkind.
    assert (Hstuck : exists (i : nat) (s : step),
              plan !! i = Some s /\ action_in s known_actions = false /\
              (S i < length plan)%nat /\ (S i <= 5)%nat).
    { unfold plan, create_fallback_plan. fold prompt_lower.
      destruct (contains "cisco" prompt_lower && contains "packet tracer" prompt_lower).
      - destruct (contains "connect" prompt_lower
                  && (contains "pc" prompt_lower || contains "computer" prompt_lower)).
        + exists 3%nat, (step_focus "cisco packet tracer").
          split; [ reflexivity | ]. split; [ reflexivity | ]. cbn [length]. lia.
        + exists 2%nat, (step_focus "cisco packet tracer").
          split; [ reflexivity | ]. split; [ reflexivity | ]. cbn [length]. lia.
      - destruct Hkind as [Hkind | Hkind]; [ discriminate | ]. rewrite Hkind.
        exists 4%nat, (step_click_element "input#search").
        split; [ reflexivity | ]. split; [ reflexivity | ]. cbn [length]. lia. }
    destruct Hstuck as (i & s & Hlookup & Hunknown & Hshort & Hsmall).
    destruct (execute_automation_stuck env plan i s st Hlookup Hunknown)
      as (resp & st' & Hrun & Htotal & Hexecuted & _).
    exists resp, st'. split; [ exact Hrun | ]. rewrite Htotal. lia.
Qed.

Lemma fallback_plan_stalls_witness :
  exists (resp : response) (st' : State),
    execute_automation calm (create_fallback_plan "Open YouTube and search for cats") init
    = (Ok resp, st') /\
    (steps_executed resp < steps_total resp)%nat /\
    (steps_executed resp <= 5)%nat.
Proof.
  apply (fallback_plan_stalls calm "Open YouTube and search for cats" init).
  right. reflexivity.
Defined.

(* ===================================================================== *)
(* Screenshots and scraping                                              *)
(* ===================================================================== *)

Lemma lower_app (a b : string) : lower (a +:+ b) = lower a +:+ lower b.
Proof.
  induction a as [ | c a IH]; [ reflexivity | ].
  change (String c a +:+ b) with (String c (a +:+ b)). cbn [lower].
  rewrite IH. reflexivity.
Qed.

Lemma has_image_extension_png (name : string) :
  has_image_extension (name +:+ ".png") = true.
Proof.
  unfold has_image_extension. cbv zeta. rewrite lower_app.
  rewrite (ends_with_append ".png" (lower name) (lower ".png") eq_refl). reflexivity.
Qed.

Lemma has_image_extension_truthy (name : string) :
  has_image_extension name = true -> value_falsy (VStr name) = false.
Proof. destruct name; [ discriminate | reflexivity ]. Qed.

(** X29. The file name of a screenshot always carries an image
    extension.  take_screenshot saves under "screenshot.png" when no
    name is given (None or an empty string), keeps a name that ends in
    .png, .jpg or .jpeg in any letter case, and appends ".png" to any
    other name; normalising the name again changes nothing.  When
    nothing raises, the call takes one screenshot, saves it under that
    name and pauses one second. *)
Theorem screenshot_name_has_image_extension (env : Env) (filename : value)
    (name : string) (st : State) :
  screenshot_filename filename = Ok name ->
  has_image_extension name = true /\
  screenshot_filename (VStr name) = Ok name /\
  (value_falsy filename = true -> name = "screenshot.png") /\
  (raises env (trace st) EScreenshot = None ->
   raises env (trace st ++ [EScreenshot]) (ESaveImage name) = None ->
   take_screenshot env filename st
   = (Ok tt, after st [EScreenshot; ESaveImage name; ESleep 1])).
Proof.
  intros Hname.
  assert (Hext : has_image_extension name = true).
  { unfold screenshot_filename in Hname.
    destruct (value_falsy filename); [ inversion Hname; reflexivity | ].
    destruct filename as [ | b | z | q | given]; try discriminate.
    inversion Hname as [Hgiven]. clear Hname.
    destruct (has_image_extension given) eqn:Hgiven_ext; [ exact Hgiven_ext | ].
    apply has_image_extension_png. }
  split; [ exact Hext | ]. split.
  - unfold screenshot_filename. rewrite (has_image_extension_truthy name Hext), Hext.
    reflexivity.
  - split.
    + intros Hfalsy. unfold screenshot_filename in Hname. rewrite Hfalsy in Hname.
      inversion Hname. reflexivity.
    + intros Hshot Hsave. unfold take_screenshot.
      unfold bind at 1. rewrite screenshot_run, Hshot.
      unfold bind at 1, lift at 1. rewrite Hname.
      unfold bind at 1. rewrite call_run, trace_after, Hsave, after_after.
      rewrite sleep_run, after_after. reflexivity.
Qed.

Lemma screenshot_name_has_image_extension_witness :
  take_screenshot calm (VStr "shot.JPG") init
  = (Ok tt, after init [EScreenshot; ESaveImage "shot.JPG"; ESleep 1]) /\
  screenshot_filename (VStr "report") = Ok "report.png".
Proof.
  split; [ | reflexivity ].
  apply (screenshot_name_has_image_extension calm (VStr "shot.JPG") "shot.JPG" init);
    reflexivity.
Defined.

(** X30. scrape_website_data never raises, tries the extraction at most
    twice with one 2-second pause in between, and closes the browser
    exactly once, as its last call, whenever the browser start answered
    True, also when an extraction raises.  Its trace is one of three:
    the start alone; start, extraction, close; or start, extraction,
    pause, extraction, close. *)
Theorem scrape_website_data_closes_browser (env : Env) (url description : value)
    (st : State) :
  let extract := EScraperExtract url description in
  exists (r : scrape_result) (new : list event),
    scrape_website_data env url description st = (Ok r, after st new) /\
    (new = [EScraperStart] \/
     new = [EScraperStart; extract; EScraperClose] \/
     new = [EScraperStart; extract; ESleep 2; extract; EScraperClose]) /\
    (r = Scraped -> new <> [EScraperStart]) /\
    (new = [EScraperStart] ->
     raises env (trace st) EScraperStart <> None \/
     succeeds env (trace st) EScraperStart = false).
Proof.
  intros extract.
  unfold scrape_website_data, try_except. unfold bind at 1. rewrite ask_run.
  destruct (raises env (trace st) EScraperStart) as [m | ] eqn:Hstart.
  { unfold ret. eexists. exists [EScraperStart]. split; [ reflexivity | ].
    split; [ left; reflexivity | ]. split; [ discriminate | ].
    intros _. left. discriminate. }
  destruct (succeeds env (trace st) EScraperStart) eqn:Hflag; cbn [negb].
  2:{ unfold ret. eexists. exists [EScraperStart]. split; [ reflexivity | ].
      split; [ left; reflexivity | ]. split; [ discriminate | ].
      intros _. right. reflexivity. }
  unfold try_finally. cbn [seq extraction_attempts].
  unfold bind at 1, try_except at 1, bind at 1. rewrite ask_run, trace_after.
  fold extract.
  destruct (raises env (trace st ++ [EScraperStart]) extract) as [m1 | ];
    [ | destruct (succeeds env (trace st ++ [EScraperStart]) extract) ];
    cbn [Nat.ltb Nat.leb];
    unfold bind, try_except, ret, raise;
    rewrite ?sleep_run, ?ask_run, ?call_run, ?after_after, ?trace_after; cbn [app];
    fold extract;
    repeat (match goal with
            | |- context [match raises env ?t ?e with _ => _ end] =>
                destruct (raises env t e)
            | |- context [if succeeds env ?t ?e then _ else _] =>
                destruct (succeeds env t e)
            end;
            rewrite ?sleep_run, ?ask_run, ?call_run, ?after_after, ?trace_after;
            cbn [app]; fold extract);
    eexists; eexists; (split; [ reflexivity | ]);
    (split; [ first [ right; left; reflexivity | right; right; reflexivity ] | ]);
    split; intros; discriminate.
Qed.

Lemma scrape_website_data_closes_browser_witness :
  exists r : scrape_result,
    scrape_website_data failing_extraction (VStr "https://example.com") (VStr "prices") init
    = (Ok r,
       after init [ EScraperStart;
                    EScraperExtract (VStr "https://example.com") (VStr "prices");
                    ESleep 2;
                    EScraperExtract (VStr "https://example.com") (VStr "prices");
                    EScraperClose ]).
Proof.
  destruct (scrape_website_data_closes_browser failing_extraction
              (VStr "https://example.com") (VStr "prices") init)
    as (r & new & Hrun & _).
  assert (Hnew : trace (snd (scrape_website_data failing_extraction
                               (VStr "https://example.com") (VStr "prices") init))
                 = trace (after init new)) by (rewrite Hrun; reflexivity).
  vm_compute in Hnew. exists r. rewrite Hrun. unfold after. rewrite <- Hnew. reflexivity.
Defined.
